(** * Local API server and DNS manager of the node daemon

    A shallow embedding of
    - [net/dns/manager_windows.go] (package [dns]): the Windows OS DNS
      configurator, over an explicit model of the registry;
    - the DNS policy compiler, which is not part of the sources at hand and is
      modelled from its specification and checked against the table of
      [TestManager] (net/dns/manager_test.go);
    - the Local API handlers (package [localapi]), over an explicit
      [http.ResponseWriter] and a world holding the backend's preferences,
      the client-metric registry, the log and the connection;
    followed by the properties of their specification. *)

From Stdlib Require Import ZArith Lia List Bool Ascii String DecimalString Sorted.
From stdpp Require Import gmap strings list fin_maps.
Import ListNotations.

Local Open Scope Z_scope.
Local Open Scope string_scope.
Local Open Scope list_scope.
Local Open Scope stdpp_scope.

(** ** Go values shared by both packages *)

(** Go's [error]: the message; [None] is [nil]. *)
Abbreviation error := string (only parsing).

(** [netip.Addr], as far as the code looks at it: the family test [Is4] and
    the canonical text [String()]. *)
Record Addr := mkAddr { Is4 : bool; Addr_String : string }.

(** The line feed that [fmt.Fprintln] appends, and the double quote. *)
Definition LF : string := String (ascii_of_nat 10) EmptyString.
Definition DQUOTE : string := String (ascii_of_nat 34) EmptyString.

(** [strings.Join(elems, sep)]. *)
Definition Join (elems : list string) (sep : string) : string :=
  String.concat sep elems.

(** [strings.HasPrefix(s, p)]. *)
Definition HasPrefix (s p : string) : bool := String.prefix p s.

(** [strings.TrimPrefix(s, p)]. *)
Definition TrimPrefix (s p : string) : string :=
  if HasPrefix s p
  then String.substring (String.length p) (String.length s - String.length p) s
  else s.

(** [strings.Contains(s, sub)]. *)
Fixpoint Contains (s sub : string) : bool :=
  HasPrefix s sub ||
  match s with
  | EmptyString => false
  | String _ s' => Contains s' sub
  end.

(** [strings.Cut(s, sep)] for a one-character separator: the text before and
    after its first occurrence. *)
Fixpoint Cut (s : string) (sep : ascii) : option (string * string) :=
  match s with
  | EmptyString => None
  | String c s' =>
      if Ascii.eqb c sep then Some (EmptyString, s')
      else match Cut s' sep with
           | Some (before, after) => Some (String c before, after)
           | None => None
           end
  end.

(** ASCII white space, as [strings.TrimSpace] cuts it. *)
Definition isSpace (c : ascii) : bool :=
  let n := nat_of_ascii c in
  ((n =? 32) || (n =? 9) || (n =? 10) || (n =? 11) || (n =? 12) || (n =? 13))%nat.

Fixpoint TrimLeft (s : string) : string :=
  match s with
  | String c s' => if isSpace c then TrimLeft s' else s
  | EmptyString => EmptyString
  end.

Fixpoint TrimRight (s : string) : string :=
  match s with
  | EmptyString => EmptyString
  | String c s' =>
      match TrimRight s' with
      | EmptyString => if isSpace c then EmptyString else String c EmptyString
      | t => String c t
      end
  end.

(** [strings.TrimSpace(s)] *)
Definition TrimSpace (s : string) : string := TrimRight (TrimLeft s).

(** [strconv.ParseBool(a)] *)
Definition ParseBool (a : string) : option bool :=
  if existsb (String.eqb a) ["1"; "t"; "T"; "TRUE"; "true"; "True"] then Some true
  else if existsb (String.eqb a) ["0"; "f"; "F"; "FALSE"; "false"; "False"] then Some false
  else None.

(** [hex.EncodeToString(b)], the bytes as integers. *)
Definition hexdigit (n : Z) : ascii :=
  match String.get (Z.to_nat n) "0123456789abcdef" with
  | Some c => c
  | None => "0"%char
  end.

Fixpoint EncodeToString (b : list Z) : string :=
  match b with
  | [] => EmptyString
  | x :: b' =>
      String (hexdigit (Z.shiftr (x mod 256) 4))
        (String (hexdigit (Z.land (x mod 256) 15)) (EncodeToString b'))
  end.

(** A lower-case hexadecimal digit. *)
Definition is_hex (c : ascii) : bool :=
  let n := nat_of_ascii c in
  ((48 <=? n) && (n <=? 57) || (97 <=? n) && (n <=? 102))%nat.

(** [fmt.Sprint(n)] of an integer. *)
Definition Sprint_int (n : Z) : string := NilZero.string_of_int (Z.to_int n).

(** [net.JoinHostPort(host, port)] *)
Definition JoinHostPort (host port : string) : string :=
  if Contains host ":" || Contains host "%" then "[" +:+ host +:+ "]:" +:+ port
  else host +:+ ":" +:+ port.

(** * Package dns: the Windows configurator *)
Module dns.

(** [dnsname.FQDN]: a name with its trailing dot. *)
Abbreviation FQDN := string (only parsing).

(** Modelled from the spec: [dnsname.FQDN.WithoutTrailingDot] (package
    [util/dnsname]) is not under src/. The glossary has an FQDN carry an
    explicit trailing dot; this returns the name with that dot removed. *)
Fixpoint WithoutTrailingDot (f : FQDN) : string :=
  match f with
  | EmptyString => EmptyString
  | String c EmptyString => if Ascii.eqb c "." then EmptyString else f
  | String c f' => String c (WithoutTrailingDot f')
  end.

(** [OSConfig] (the compiled OS-level DNS config of the data model). *)
Record OSConfig := mkOSConfig {
  Nameservers : list Addr;
  SearchDomains : list FQDN;
  MatchDomains : list FQDN
}.

(** ** The registry *)

(** A registry value: [SetStringValue] writes an [SZ], [SetDWordValue] a
    [DWORD]. *)
Inductive RegValue :=
| SZ (s : string)
| DWORD (n : Z).

(** A key is a table of named values; the hive maps a path to its key. *)
Abbreviation Key := (gmap string RegValue).
Abbreviation Registry := (gmap string (gmap string RegValue)).

Definition ipv4RegBase : string :=
  "SYSTEM\CurrentControlSet\Services\Tcpip\Parameters".
Definition ipv6RegBase : string :=
  "SYSTEM\CurrentControlSet\Services\Tcpip6\Parameters".

(** Modelled from the spec: [nrptRuleDatabase] (nrpt_windows.go) is not under
    src/. Section 4.H has the split policy hold one entry per suffix, pointing
    at the given nameservers; the database is the list of these entries. *)
Record nrptRuleDatabase := mkNRPT {
  rules : list (FQDN * list string)
}.

(** Modelled from the spec: [nrptRuleDatabase.DelAllRuleKeys], the "clear any
    split policy" of section 4.H. *)
Definition DelAllRuleKeys (db : nrptRuleDatabase) : option error * nrptRuleDatabase :=
  (None, mkNRPT []).

(** Modelled from the spec: [nrptRuleDatabase.WriteSplitDNSConfig], the "write
    split policy (one entry per suffix, pointing at the given nameservers)" of
    section 4.H. *)
Definition WriteSplitDNSConfig (servers : list string) (domains : list FQDN)
    (db : nrptRuleDatabase) : option error * nrptRuleDatabase :=
  (None, mkNRPT (map (fun d => (d, servers)) domains)).

(** [windowsManager]; [nrptDB] is [None] for the nil pointer and otherwise
    holds the database the pointer refers to. *)
Record windowsManager := mkManager {
  guid : string;
  nrptDB : option nrptRuleDatabase
}.

(** What [SetDNS] does besides writing the registry and the rule table. *)
Inductive Event :=
| Logf (format : string) (args : list string)
| NrptRefresh
| GoRegisterAndFlushDNS
| GoWSLSetDNS (cfg : OSConfig).

(** The host as the configurator sees it. *)
Record State := mkState {
  mgr : windowsManager;
  registry : Registry;
  events : list Event
}.

Definition with_registry (reg : Registry) (st : State) : State :=
  mkState (mgr st) reg (events st).

Definition with_nrptDB (db : option nrptRuleDatabase) (st : State) : State :=
  mkState (mkManager (guid (mgr st)) db) (registry st) (events st).

Definition emit (e : Event) (st : State) : State :=
  mkState (mgr st) (registry st) (events st ++ [e]).

(** A Go function returning [error], run on the host. *)
Abbreviation action := (State -> option error * State).

(** [if err := a; err != nil { return err }; b] *)
Definition andThen (a b : action) : action :=
  fun st =>
    match a st with
    | (Some err, st') => (Some err, st')
    | (None, st') => b st'
    end.

Notation "a ;;; b" := (andThen a b) (at level 90, right associativity).

(** [m.ifPath(basePath)] *)
Definition ifPath (m : windowsManager) (basePath : string) : string :=
  basePath +:+ "\Interfaces\" +:+ guid m.

(** [m.openKey(path)]: [openKeyWait] gives up when the key does not appear.
    The handle of an open key is its path. *)
Definition openKey (path : string) (st : State) : (error + string) :=
  match registry st !! path with
  | Some _ => inr path
  | None => inl ("opening " +:+ path +:+ ": key does not exist")
  end.

(** [key.SetStringValue(name, v)] and [key.SetDWordValue(name, v)] on an open
    key. *)
Definition SetValue (key name : string) (v : RegValue) : action :=
  fun st =>
    match registry st !! key with
    | Some k => (None, with_registry (<[key := <[name := v]> k]> (registry st)) st)
    | None => (Some "invalid key handle", st)
    end.

Definition ErrNotExist : error := "The system cannot find the file specified.".

(** [key.DeleteValue(name)] *)
Definition DeleteValue (key name : string) : action :=
  fun st =>
    match registry st !! key with
    | Some k =>
        match k !! name with
        | Some _ => (None, with_registry (<[key := delete name k]> (registry st)) st)
        | None => (Some ErrNotExist, st)
        end
    | None => (Some "invalid key handle", st)
    end.

(** [delValue(key, name)] *)
Definition delValue (key name : string) : action :=
  fun st =>
    match DeleteValue key name st with
    | (Some err, st') =>
        if negb (String.eqb err ErrNotExist) then (Some err, st') else (None, st')
    | (None, st') => (None, st')
    end.

(** [m.setSplitDNS(resolvers, domains)]; [resolvers] is [None] for Go's nil
    slice, which the code tells from an empty one only when [nrptDB] is nil:
    [SetDNS] passes the literal nil there and [cfg.Nameservers] only where
    [nrptDB] is not nil. The [defer m.nrptDB.Refresh()] runs after the rule
    table was written. *)
Definition setSplitDNS (resolvers : option (list Addr)) (domains : list FQDN) : action :=
  fun st =>
    match nrptDB (mgr st) with
    | None =>
        match resolvers with
        | None => (None, st)
        | Some _ => (Some "Split DNS unsupported on this Windows version", st)
        end
    | Some db =>
        let rs := default [] resolvers in
        let '(err, db') :=
          if (length rs =? 0)%nat then DelAllRuleKeys db
          else WriteSplitDNSConfig (map Addr_String rs) domains db in
        (err, emit NrptRefresh (with_nrptDB (Some db') st))
    end.

(** The value written under [name]: deleted for an empty list. *)
Definition setOrDel (key name : string) (isEmpty : bool) (joined : list string) : action :=
  if isEmpty then delValue key name
  else SetValue key name (SZ (Join joined ",")).

(** [m.setPrimaryDNS(resolvers, domains)] *)
Definition setPrimaryDNS (resolvers : list Addr) (domains : list FQDN) : action :=
  fun st =>
    let ipsv4 := map Addr_String (List.filter Is4 resolvers) in
    let ipsv6 := map Addr_String (List.filter (fun ip => negb (Is4 ip)) resolvers) in
    let domStrs := map WithoutTrailingDot domains in
    match openKey (ifPath (mgr st) ipv4RegBase) st with
    | inl err => (Some err, st)
    | inr key4 =>
        (setOrDel key4 "NameServer" (length ipsv4 =? 0)%nat ipsv4 ;;;
         setOrDel key4 "SearchList" (length domains =? 0)%nat domStrs ;;;
         fun st1 =>
           match openKey (ifPath (mgr st1) ipv6RegBase) st1 with
           | inl err => (Some err, st1)
           | inr key6 =>
               (setOrDel key6 "NameServer" (length ipsv6 =? 0)%nat ipsv6 ;;;
                setOrDel key6 "SearchList" (length domains =? 0)%nat domStrs ;;;
                SetValue key4 "EnableMulticast" (DWORD 0) ;;;
                SetValue key6 "EnableMulticast" (DWORD 0)) st1
           end) st
    end.

(** [m.disableDynamicUpdates()] *)
Definition disableDynamicUpdates : action :=
  let setRegValue (regBase : string) : action :=
    fun st =>
      match openKey (ifPath (mgr st) regBase) st with
      | inl err => (Some err, st)
      | inr key => SetValue key "DisableDynamicUpdate" (DWORD 1) st
      end in
  setRegValue ipv4RegBase ;;; setRegValue ipv6RegBase.

Section SetDNS.

(** [configureWSL = envknob.Bool("TS_DEBUG_CONFIGURE_WSL")] *)
Variable configureWSL : bool.

(** [m.SetDNS(cfg)] *)
Definition SetDNS (cfg : OSConfig) : action :=
  fun st =>
    let st :=
      match disableDynamicUpdates st with
      | (Some err, st') => emit (Logf "disableDynamicUpdates error: %v\n" [err]) st'
      | (None, st') => st'
      end in
    let configure : action :=
      if (length (MatchDomains cfg) =? 0)%nat then
        setSplitDNS None [] ;;;
        setPrimaryDNS (Nameservers cfg) (SearchDomains cfg)
      else fun st =>
        match nrptDB (mgr st) with
        | None => (Some "cannot set per-domain resolvers on Windows 7", st)
        | Some _ =>
            (setSplitDNS (Some (Nameservers cfg)) (MatchDomains cfg) ;;;
             setPrimaryDNS [] (SearchDomains cfg)) st
        end in
    (configure ;;;
     fun st =>
       let st := emit GoRegisterAndFlushDNS st in
       let st := if configureWSL then emit (GoWSLSetDNS cfg) st else st in
       (None, st)) st.

(** [m.SupportsSplitDNS()] *)
Definition SupportsSplitDNS (m : windowsManager) : bool :=
  match nrptDB m with Some _ => true | None => false end.

(** [m.Close()]; closing the rule database releases its handle only. *)
Definition Close : action := SetDNS (mkOSConfig [] [] []).

End SetDNS.

(** The value held under [name] of the key at [path]. *)
Definition value (st : State) (path name : string) : option RegValue :=
  registry st !! path ≫= (.!! name).

(** The host DNS state: the NRPT rule table and the registry. *)
Definition hostDNS (st : State) : option nrptRuleDatabase * Registry :=
  (nrptDB (mgr st), registry st).

(** What a list leaves under a value name: nothing when it is empty, its
    comma-joined text otherwise. *)
Definition joined (l : list string) : option RegValue :=
  match l with
  | [] => None
  | _ => Some (SZ (Join l ","))
  end.

(** The table of a key after [setOrDel]. *)
Definition wr (name : string) (isEmpty : bool) (l : list string) (k : Key) : Key :=
  if isEmpty then delete name k else <[name := SZ (Join l ",")]> k.

(** ** What a call leaves behind, as a function of the host DNS state *)

Definition v4s (rs : list Addr) : list string :=
  map Addr_String (List.filter Is4 rs).
Definition v6s (rs : list Addr) : list string :=
  map Addr_String (List.filter (fun ip => negb (Is4 ip)) rs).

(** The table of an interface key after [disableDynamicUpdates] reached it. *)
Definition dduKey (k : Key) : Key := <["DisableDynamicUpdate" := DWORD 1]> k.

(** The table of an interface key after [setPrimaryDNS] stopped at the key of
    the other family, and after it ran to its end. *)
Definition halfKey (ips : list string) (doms : list string) (k : Key) : Key :=
  wr "SearchList" (length doms =? 0)%nat (map WithoutTrailingDot doms)
    (wr "NameServer" (length ips =? 0)%nat ips k).

Definition primKey (ips : list string) (doms : list string) (k : Key) : Key :=
  <["EnableMulticast" := DWORD 0]> (halfKey ips doms k).

Definition regDDU (p4 p6 : string) (r : Registry) : Registry :=
  match r !! p4 with
  | None => r
  | Some _ => alter dduKey p6 (alter dduKey p4 r)
  end.

Definition regPrim (p4 p6 : string) (rs : list Addr) (ds : list FQDN)
    (r : Registry) : Registry :=
  match r !! p4 with
  | None => r
  | Some _ =>
      match r !! p6 with
      | None => alter (halfKey (v4s rs) ds) p4 r
      | Some _ =>
          alter (primKey (v6s rs) ds) p6 (alter (primKey (v4s rs) ds) p4 r)
      end
  end.

Definition splitRules (cfg : OSConfig) : nrptRuleDatabase :=
  if (length (Nameservers cfg) =? 0)%nat then mkNRPT []
  else mkNRPT (map (fun d => (d, map Addr_String (Nameservers cfg))) (MatchDomains cfg)).

Definition hostSetDNS (m : windowsManager) (cfg : OSConfig)
    (h : option nrptRuleDatabase * Registry) : option nrptRuleDatabase * Registry :=
  let p4 := ifPath m ipv4RegBase in
  let p6 := ifPath m ipv6RegBase in
  let r1 := regDDU p4 p6 (snd h) in
  if (length (MatchDomains cfg) =? 0)%nat then
    (match fst h with Some _ => Some (mkNRPT []) | None => None end,
     regPrim p4 p6 (Nameservers cfg) (SearchDomains cfg) r1)
  else
    match fst h with
    | None => (None, r1)
    | Some _ => (Some (splitRules cfg), regPrim p4 p6 [] (SearchDomains cfg) r1)
    end.

(** The error of opening the two interface keys in turn. *)
Definition keysErr (m : windowsManager) (r : Registry) : option error :=
  match r !! ifPath m ipv4RegBase with
  | None => Some ("opening " +:+ ifPath m ipv4RegBase +:+ ": key does not exist")
  | Some _ =>
      match r !! ifPath m ipv6RegBase with
      | None => Some ("opening " +:+ ifPath m ipv6RegBase +:+ ": key does not exist")
      | Some _ => None
      end
  end.

(** The error [SetDNS] returns. *)
Definition SetDNS_err (cfg : OSConfig) (st : State) : option error :=
  if (length (MatchDomains cfg) =? 0)%nat then keysErr (mgr st) (registry st)
  else
    match nrptDB (mgr st) with
    | None => Some "cannot set per-domain resolvers on Windows 7"
    | Some _ => keysErr (mgr st) (registry st)
    end.

(** ** The DNS policy compiler and its test double *)

(** A [Resolver] of the data model: "either a UDP [ip[:port]] or a DoH URL". *)
Inductive Resolver :=
| UDP (ip : Addr) (port : option Z)
| DoH (url : string).

#[global] Instance Addr_eq_dec : EqDecision Addr.
Proof. solve_decision. Defined.
#[global] Instance Resolver_eq_dec : EqDecision Resolver.
Proof. solve_decision. Defined.
#[global] Instance OSConfig_eq_dec : EqDecision OSConfig.
Proof. solve_decision. Defined.

(** The logical DNS policy of the data model ([Config]). *)
Record Config := mkConfig {
  DefaultResolvers : list Resolver;
  Routes : gmap FQDN (list Resolver);
  PolicySearchDomains : list FQDN;
  Hosts : gmap FQDN (list Addr)
}.

(** The in-daemon resolver config of the data model ([resolver.Config]). *)
Module resolver.
Record Config := mkConfig {
  Routes : gmap FQDN (list Resolver);
  Hosts : gmap FQDN (list Addr);
  LocalDomains : list FQDN
}.
#[global] Instance Config_eq_dec : EqDecision Config.
Proof. solve_decision. Defined.
End resolver.

(** The magic-DNS address the OS is pointed at. *)
Definition magic_ip : Addr := mkAddr true "100.100.100.100".

Fixpoint insert_sorted (d : FQDN) (l : list FQDN) : list FQDN :=
  match l with
  | [] => [d]
  | x :: l' => if String.leb d x then d :: l else x :: insert_sorted d l'
  end.

Definition sort_names (l : list FQDN) : list FQDN :=
  foldr insert_sorted [] l.

(** Appends the names of [extra] not yet listed, keeping the order. *)
Fixpoint append_new (l extra : list FQDN) : list FQDN :=
  match extra with
  | [] => l
  | d :: extra' =>
      if bool_decide (d ∈ l) then append_new l extra'
      else append_new (l ++ [d]) extra'
  end.

(** The nameservers an OS can be given directly: plain addresses on the
    default port. *)
Definition toIPsOnly (rs : list Resolver) : list Addr :=
  flat_map (fun r => match r with
                     | UDP ip None => [ip]
                     | UDP ip (Some p) => if (p =? 53)%Z then [ip] else []
                     | DoH _ => []
                     end) rs.

Definition ipsOnly (rs : list Resolver) : bool :=
  (length (toIPsOnly rs) =? length rs)%nat.

(** The one upstream list every route of the policy names, if there is one
    and it is not empty. *)
Definition singleResolverSet (routes : gmap FQDN (list Resolver)) : option (list Resolver) :=
  match map snd (map_to_list routes) with
  | [] => None
  | rs :: rest =>
      if forallb (fun rs' => bool_decide (rs' = rs)) rest
      then match rs with [] => None | _ => Some rs end
      else None
  end.

(** Modelled from the spec: the policy compiler ([Manager.compileConfig],
    net/dns/manager.go) is not under src/; only its table test is
    ([TestManager]). The definition follows section 4.G step by step:
    - step 1: the daemon is primary when [default_resolvers] is not empty;
    - step 2: a suffix routed to an empty list is intercepted
      ([local_domains]), one routed to a non-empty list is forwarded;
    - step 6: no resolvers and no routes emit no nameservers and no routes
      (the search list and the hosts still pass, scenarios 1 and 2);
    - step 3: split mode needs a host that can split, at least one suffix and
      a daemon that is not primary; the suffixes are emitted sorted; one
      shared upstream list is handed to the OS as its nameservers (scenario
      5), otherwise the OS is pointed at [magic_ip];
    - primary mode: default resolvers that are plain addresses, with no
      routes, are handed to the OS (scenarios 3 and 4); otherwise the OS is
      pointed at [magic_ip];
    - step 4: the policy's search domains, followed on a host that cannot
      split by the base config's, without repeats;
    - step 5: the forwarded suffixes, with a default route ["."] of the
      default resolvers when the daemon is primary and of the base config's
      nameservers when the host cannot split (scenario 6), the hosts and
      the intercepted suffixes.
    Where the prose of 4.G is loose, the scenarios of section 8 and the rows
    of [TestManager] decide. *)
Definition compileConfig (split_capable : bool) (getBaseConfig : error + OSConfig)
    (cfg : Config) : error + (resolver.Config * OSConfig) :=
  let routeList := map_to_list (Routes cfg) in
  let intercepted :=
    map fst (List.filter (fun kv => (length (snd kv) =? 0)%nat) routeList) in
  let forwarded : gmap FQDN (list Resolver) :=
    list_to_map (List.filter (fun kv => negb (length (snd kv) =? 0)%nat) routeList) in
  let suffixes := sort_names (map fst routeList) in
  let primary := negb (length (DefaultResolvers cfg) =? 0)%nat in
  let hasRoutes := negb (length routeList =? 0)%nat in
  let rcfg routes := resolver.mkConfig routes (Hosts cfg) intercepted in
  let search := PolicySearchDomains cfg in
  if negb primary && negb hasRoutes then
    inr (rcfg ∅, mkOSConfig [] search [])
  else if primary then
    if negb hasRoutes && ipsOnly (DefaultResolvers cfg) then
      inr (rcfg ∅, mkOSConfig (toIPsOnly (DefaultResolvers cfg)) search [])
    else
      inr (rcfg (<["." := DefaultResolvers cfg]> forwarded),
           mkOSConfig [magic_ip] search [])
  else
    match singleResolverSet (Routes cfg), split_capable with
    | Some rs, true => inr (rcfg ∅, mkOSConfig (toIPsOnly rs) search suffixes)
    | _, true => inr (rcfg forwarded, mkOSConfig [magic_ip] search suffixes)
    | _, false =>
        match getBaseConfig with
        | inl err => inl err
        | inr bcfg =>
            inr (rcfg (<["." := map (fun ip => UDP ip None) (Nameservers bcfg)]> forwarded),
                 mkOSConfig [magic_ip] (append_new search (SearchDomains bcfg)) [])
        end
    end.

(** [fakeOSConfigurator] of the manager test. *)
Record fakeOSConfigurator := mkFake {
  SplitDNS : bool;
  BaseConfig : OSConfig;
  fake_OSConfig : OSConfig;
  fake_ResolverConfig : resolver.Config
}.

(** What a call on the test double gives: a value or a panic. *)
Inductive outcome (A : Type) :=
| Returned (a : A)
| Panicked (msg : string).
Arguments Returned {A} a.
Arguments Panicked {A} msg.

(** [c.SetDNS(cfg)] *)
Definition fake_SetDNS (cfg : OSConfig) (c : fakeOSConfigurator)
    : outcome (option error * fakeOSConfigurator) :=
  if negb (SplitDNS c) && (0 <? length (MatchDomains cfg))%nat then
    Panicked "split DNS config passed to non-split OSConfigurator"
  else
    Returned (None, mkFake (SplitDNS c) (BaseConfig c) cfg (fake_ResolverConfig c)).

(** [c.SetResolver(cfg)] *)
Definition fake_SetResolver (cfg : resolver.Config) (c : fakeOSConfigurator)
    : fakeOSConfigurator :=
  mkFake (SplitDNS c) (BaseConfig c) (fake_OSConfig c) cfg.

(** [c.SupportsSplitDNS()] *)
Definition fake_SupportsSplitDNS (c : fakeOSConfigurator) : bool := SplitDNS c.

(** [c.GetBaseConfig()] *)
Definition fake_GetBaseConfig (c : fakeOSConfigurator) : error + OSConfig :=
  inr (BaseConfig c).

(** Modelled from the spec: [Manager.Set] (net/dns/manager.go) is not under
    src/. It compiles the policy, hands the resolver config to the in-daemon
    forwarder (the test's hook [SetResolver]) and the OS config to the
    configurator. *)
Definition Manager_Set (cfg : Config) (c : fakeOSConfigurator)
    : outcome (option error * fakeOSConfigurator) :=
  match compileConfig (fake_SupportsSplitDNS c) (fake_GetBaseConfig c) cfg with
  | inl err => Returned (Some err, c)
  | inr (rcfg, ocfg) => fake_SetDNS ocfg (fake_SetResolver rcfg c)
  end.

(** ** The table of [TestManager] *)

Record testRow := mkRow {
  row_name : string;
  row_in : Config;
  row_split : bool;
  row_bs : OSConfig;
  row_os : OSConfig;
  row_rs : resolver.Config
}.

(** [mustIPs], [mustRes], [hosts] and [upstreams] of the test, on values
    already parsed; [fqdns] names are written with their trailing dot. *)
Definition mustIPs (strs : list string) : list Addr := map (mkAddr true) strs.
Definition mustRes (strs : list string) : list Resolver :=
  map (fun s => UDP (mkAddr true s) None) strs.
Definition hosts (l : list (FQDN * list string)) : gmap FQDN (list Addr) :=
  list_to_map (map (fun kv => (fst kv, mustIPs (snd kv))) l).
Definition upstreams (l : list (FQDN * list string)) : gmap FQDN (list Resolver) :=
  list_to_map (map (fun kv => (fst kv, mustRes (snd kv))) l).

Definition noOS : OSConfig := mkOSConfig [] [] [].
Definition noRS : resolver.Config := resolver.mkConfig ∅ ∅ [].

Definition ts_hosts : gmap FQDN (list Addr) :=
  hosts [("dave.ts.com.", ["1.2.3.4"]); ("bradfitz.ts.com.", ["2.3.4.5"])].
Definition ts_search : list FQDN := ["tailscale.com."; "universe.tf."].
Definition coffee : OSConfig := mkOSConfig (mustIPs ["8.8.8.8"]) ["coffee.shop."] [].
Definition exit_doh : string :=
  "http://[fd7a:115c:a1e0:ab12:4843:cd96:6245:7a66]:2982/doh".

Definition routes_magic : testRow :=
  mkRow "routes-magic"
    (mkConfig [] (upstreams [("corp.com.", ["2.2.2.2"]); ("ts.com.", [])])
       ts_search ts_hosts)
    false coffee
    (mkOSConfig (mustIPs ["100.100.100.100"])
       ["tailscale.com."; "universe.tf."; "coffee.shop."] [])
    (resolver.mkConfig
       (upstreams [("corp.com.", ["2.2.2.2"]); (".", ["8.8.8.8"])])
       ts_hosts ["ts.com."]).

Definition tests : list testRow := [
  mkRow "empty" (mkConfig [] ∅ [] ∅) false noOS noOS noRS;
  mkRow "search-only" (mkConfig [] ∅ ts_search ∅) false noOS
    (mkOSConfig [] ts_search []) noRS;
  mkRow "hosts-only" (mkConfig [] ∅ [] ts_hosts) false noOS noOS
    (resolver.mkConfig ∅ ts_hosts []);
  mkRow "corp" (mkConfig (mustRes ["1.1.1.1"; "9.9.9.9"]) ∅ ts_search ∅) false noOS
    (mkOSConfig (mustIPs ["1.1.1.1"; "9.9.9.9"]) ts_search []) noRS;
  mkRow "corp-split" (mkConfig (mustRes ["1.1.1.1"; "9.9.9.9"]) ∅ ts_search ∅) true noOS
    (mkOSConfig (mustIPs ["1.1.1.1"; "9.9.9.9"]) ts_search []) noRS;
  mkRow "corp-magic"
    (mkConfig (mustRes ["1.1.1.1"; "9.9.9.9"]) (upstreams [("ts.com.", [])])
       ts_search ts_hosts)
    false noOS
    (mkOSConfig (mustIPs ["100.100.100.100"]) ts_search [])
    (resolver.mkConfig (upstreams [(".", ["1.1.1.1"; "9.9.9.9"])]) ts_hosts ["ts.com."]);
  mkRow "corp-magic-split"
    (mkConfig (mustRes ["1.1.1.1"; "9.9.9.9"]) (upstreams [("ts.com.", [])])
       ts_search ts_hosts)
    true noOS
    (mkOSConfig (mustIPs ["100.100.100.100"]) ts_search [])
    (resolver.mkConfig (upstreams [(".", ["1.1.1.1"; "9.9.9.9"])]) ts_hosts ["ts.com."]);
  mkRow "corp-routes"
    (mkConfig (mustRes ["1.1.1.1"; "9.9.9.9"]) (upstreams [("corp.com.", ["2.2.2.2"])])
       ts_search ∅)
    false noOS
    (mkOSConfig (mustIPs ["100.100.100.100"]) ts_search [])
    (resolver.mkConfig
       (upstreams [(".", ["1.1.1.1"; "9.9.9.9"]); ("corp.com.", ["2.2.2.2"])]) ∅ []);
  mkRow "corp-routes-split"
    (mkConfig (mustRes ["1.1.1.1"; "9.9.9.9"]) (upstreams [("corp.com.", ["2.2.2.2"])])
       ts_search ∅)
    true noOS
    (mkOSConfig (mustIPs ["100.100.100.100"]) ts_search [])
    (resolver.mkConfig
       (upstreams [(".", ["1.1.1.1"; "9.9.9.9"]); ("corp.com.", ["2.2.2.2"])]) ∅ []);
  mkRow "routes"
    (mkConfig [] (upstreams [("corp.com.", ["2.2.2.2"])]) ts_search ∅)
    false coffee
    (mkOSConfig (mustIPs ["100.100.100.100"])
       ["tailscale.com."; "universe.tf."; "coffee.shop."] [])
    (resolver.mkConfig
       (upstreams [(".", ["8.8.8.8"]); ("corp.com.", ["2.2.2.2"])]) ∅ []);
  mkRow "routes-split"
    (mkConfig [] (upstreams [("corp.com.", ["2.2.2.2"])]) ts_search ∅)
    true noOS
    (mkOSConfig (mustIPs ["2.2.2.2"]) ts_search ["corp.com."]) noRS;
  mkRow "routes-multi"
    (mkConfig [] (upstreams [("corp.com.", ["2.2.2.2"]); ("bigco.net.", ["3.3.3.3"])])
       ts_search ∅)
    false coffee
    (mkOSConfig (mustIPs ["100.100.100.100"])
       ["tailscale.com."; "universe.tf."; "coffee.shop."] [])
    (resolver.mkConfig
       (upstreams [(".", ["8.8.8.8"]); ("corp.com.", ["2.2.2.2"]);
                   ("bigco.net.", ["3.3.3.3"])]) ∅ []);
  mkRow "routes-multi-split"
    (mkConfig [] (upstreams [("corp.com.", ["2.2.2.2"]); ("bigco.net.", ["3.3.3.3"])])
       ts_search ∅)
    true noOS
    (mkOSConfig (mustIPs ["100.100.100.100"]) ts_search ["bigco.net."; "corp.com."])
    (resolver.mkConfig
       (upstreams [("corp.com.", ["2.2.2.2"]); ("bigco.net.", ["3.3.3.3"])]) ∅ []);
  mkRow "magic"
    (mkConfig [] (upstreams [("ts.com.", [])]) ts_search ts_hosts)
    false coffee
    (mkOSConfig (mustIPs ["100.100.100.100"])
       ["tailscale.com."; "universe.tf."; "coffee.shop."] [])
    (resolver.mkConfig (upstreams [(".", ["8.8.8.8"])]) ts_hosts ["ts.com."]);
  mkRow "magic-split"
    (mkConfig [] (upstreams [("ts.com.", [])]) ts_search ts_hosts)
    true noOS
    (mkOSConfig (mustIPs ["100.100.100.100"]) ts_search ["ts.com."])
    (resolver.mkConfig ∅ ts_hosts ["ts.com."]);
  routes_magic;
  mkRow "routes-magic-split"
    (mkConfig [] (upstreams [("corp.com.", ["2.2.2.2"]); ("ts.com.", [])])
       ts_search ts_hosts)
    true noOS
    (mkOSConfig (mustIPs ["100.100.100.100"]) ts_search ["corp.com."; "ts.com."])
    (resolver.mkConfig (upstreams [("corp.com.", ["2.2.2.2"])]) ts_hosts ["ts.com."]);
  mkRow "exit-node-forward"
    (mkConfig [DoH exit_doh] ∅ ts_search ts_hosts)
    false noOS
    (mkOSConfig (mustIPs ["100.100.100.100"]) ts_search [])
    (resolver.mkConfig {["." := [DoH exit_doh]]} ts_hosts [])
].

(** The body of the test loop for one row: set the policy on a manager over a
    fresh test double and compare what the double recorded. *)
Definition run_row (t : testRow) : bool :=
  match Manager_Set (row_in t) (mkFake (row_split t) (row_bs t) noOS noRS) with
  | Returned (None, f) =>
      bool_decide (fake_OSConfig f = row_os t) &&
      bool_decide (fake_ResolverConfig f = row_rs t)
  | _ => false
  end.

(** ** Concrete hosts and configs *)

Definition exManager (db : option nrptRuleDatabase) : windowsManager :=
  mkManager "{37217669-42DA-4657-A55B-0D995D328250}" db.

(** A host on which both interface keys exist. *)
Definition exState (db : option nrptRuleDatabase) : State :=
  mkState (exManager db)
    (<[ifPath (exManager db) ipv4RegBase := ∅]>
       (<[ifPath (exManager db) ipv6RegBase := ∅]> ∅)) [].

(** A host whose interface keys hold values of their own, next to the key of
    another interface. *)
Definition otherIfPath : string :=
  ipv4RegBase +:+ "\Interfaces\{00000000-0000-0000-0000-000000000001}".

Definition exStateBusy : State :=
  mkState (exManager (Some (mkNRPT [])))
    (<[ifPath (exManager None) ipv4RegBase :=
         <["RegistrationEnabled" := DWORD 1]> (<["NameServer" := SZ "10.9.9.9"]> ∅)]>
       (<[ifPath (exManager None) ipv6RegBase := <["Domain" := SZ "lan"]> ∅]>
          (<[otherIfPath := <["NameServer" := SZ "192.168.1.1"]> ∅]> ∅))) [].

Definition exPrimaryCfg : OSConfig :=
  mkOSConfig [mkAddr true "1.1.1.1"; mkAddr false "2606:4700::1111"; mkAddr true "9.9.9.9"]
    ["tailscale.com."; "universe.tf."] [].

Definition exSplitCfg : OSConfig :=
  mkOSConfig [mkAddr true "100.100.100.100"] ["tailscale.com."] ["corp.com."; "ts.com."].

(** Match domains without nameservers. *)
Definition exSplitNoServers : OSConfig :=
  mkOSConfig [] [] ["corp.com."].

(** ** The base resolver of the host *)

(** A [netip.Addr] built from a byte slice: four bytes or sixteen. Such an
    address has no zone, so [WithZone("")] leaves it as it is. *)
Inductive IP :=
| IP4 (bytes : list Z)
| IP6 (bytes : list Z).

#[global] Instance IP_eq_dec : EqDecision IP.
Proof. solve_decision. Defined.

(** [netip.AddrFromSlice(slice)] *)
Definition AddrFromSlice (slice : list Z) : option IP :=
  if (length slice =? 4)%nat then Some (IP4 slice)
  else if (length slice =? 16)%nat then Some (IP6 slice)
  else None.

(** [ip.Unmap()]: an IPv4-mapped IPv6 address becomes its IPv4 address. *)
Definition Unmap (ip : IP) : IP :=
  match ip with
  | IP6 bytes =>
      if bool_decide (take 12 bytes = [0; 0; 0; 0; 0; 0; 0; 0; 0; 0; 255; 255])
      then IP4 (drop 12 bytes)
      else ip
  | IP4 _ => ip
  end.

(** [ip.WithZone("")] *)
Definition WithZone_empty (ip : IP) : IP := ip.

(** [siteLocalResolvers]: fec0:0:0:ffff::1, ::2 and ::3. *)
Definition siteLocalResolvers : list IP := [
  IP6 [254; 192; 0; 0; 0; 0; 255; 255; 0; 0; 0; 0; 0; 0; 0; 1];
  IP6 [254; 192; 0; 0; 0; 0; 255; 255; 0; 0; 0; 0; 0; 0; 0; 2];
  IP6 [254; 192; 0; 0; 0; 0; 255; 255; 0; 0; 0; 0; 0; 0; 0; 3]
].

(** A row of [winipcfg.GetIPInterfaceTable], as far as the code reads it. *)
Record IPInterfaceRow := mkRow4 {
  Connected : bool;
  InterfaceLUID : Z;
  Metric : Z
}.

(** [candidate] of [getBasePrimaryResolver]. *)
Record candidate := mkCandidate {
  cand_id : Z;
  cand_metric : Z
}.

Inductive AddressFamily := AF_INET | AF_INET6.

(** [windows.ERROR_NOT_FOUND] *)
Definition ERROR_NOT_FOUND : error := "Element not found.".

(** The calls into [windows] and [winipcfg]. *)
Record Winipcfg := mkWinipcfg {
  GUIDFromString : string -> error + string;
  LUIDFromGUID : string -> error + Z;
  GetIPInterfaceTable : AddressFamily -> error + list IPInterfaceRow;
  LUID_DNS : Z -> error + list (list Z)
}.

(** The [ipLoop] of [getBasePrimaryResolver]: the addresses of one interface
    that are appended to [resolvers]. *)
Fixpoint ipLoop (ips : list (list Z)) : list IP :=
  match ips with
  | [] => []
  | stdip :: rest =>
      match AddrFromSlice stdip with
      | None => ipLoop rest
      | Some ip =>
          let ip := Unmap ip in
          if existsb (fun sl => bool_decide (WithZone_empty ip = sl)) siteLocalResolvers
          then ipLoop rest
          else ip :: ipLoop rest
      end
  end.

(** The [for _, candidate := range candidates] of [getBasePrimaryResolver]. *)
Fixpoint candidateLoop (w : Winipcfg) (resolvers : list IP) (candidates : list candidate)
    : error + list IP :=
  match candidates with
  | [] => inr resolvers
  | c :: rest =>
      match LUID_DNS w (cand_id c) with
      | inl err => inl err
      | inr ips =>
          let resolvers := resolvers ++ ipLoop ips in
          if (0 <? length resolvers)%nat then inr resolvers
          else candidateLoop w resolvers rest
      end
  end.

(** The candidates: the connected interfaces other than Tailscale's. *)
Definition candidatesOf (tsLUID : Z) (ifrows : list IPInterfaceRow) : list candidate :=
  map (fun row => mkCandidate (InterfaceLUID row) (Metric row))
    (List.filter (fun row => Connected row && negb (InterfaceLUID row =? tsLUID)%Z) ifrows).

Section BaseResolver.

(** [sort.Slice(candidates, func(i, j) bool { return candidates[i].metric <
    candidates[j].metric })]: some rearrangement in which no candidate comes
    after one of greater metric; the order of candidates of equal metric is
    the sort's. *)
Variable sortSlice : list candidate -> list candidate.

(** [m.getBasePrimaryResolver()] *)
Definition getBasePrimaryResolver (w : Winipcfg) (m : windowsManager)
    : error + list IP :=
  match GUIDFromString w (guid m) with
  | inl err => inl err
  | inr tsGUID =>
      match LUIDFromGUID w tsGUID with
      | inl err => inl err
      | inr tsLUID =>
          let table :=
            match GetIPInterfaceTable w AF_INET with
            | inl err =>
                if String.eqb err ERROR_NOT_FOUND then GetIPInterfaceTable w AF_INET6
                else inl err
            | inr ifrows => inr ifrows
            end in
          match table with
          | inl err => inl err
          | inr ifrows =>
              let candidates := candidatesOf tsLUID ifrows in
              if (length candidates =? 0)%nat then inr []
              else candidateLoop w [] (sortSlice candidates)
          end
      end
  end.

End BaseResolver.

(** The interface has no resolver the code accepts: [DNS()] succeeds and the
    loop over its addresses appends nothing. *)
Definition no_real_resolver (w : Winipcfg) (luid : Z) : Prop :=
  exists ips, LUID_DNS w luid = inr ips /\ ipLoop ips = [].

(** The table of interfaces the function works on: that of IPv4, or that of
    IPv6 when the IPv4 one is reported as not found. *)
Definition interface_table (w : Winipcfg) (ifrows : list IPInterfaceRow) : Prop :=
  GetIPInterfaceTable w AF_INET = inr ifrows \/
  (GetIPInterfaceTable w AF_INET = inl ERROR_NOT_FOUND /\
   GetIPInterfaceTable w AF_INET6 = inr ifrows).

(** A sort that [sort.Slice] can be: insertion by metric. *)
Fixpoint insert_candidate (c : candidate) (l : list candidate) : list candidate :=
  match l with
  | [] => [c]
  | x :: l' =>
      if (cand_metric c <? cand_metric x)%Z then c :: l
      else x :: insert_candidate c l'
  end.

Definition insertion_sort (l : list candidate) : list candidate :=
  foldr insert_candidate [] l.

(** A host with a disconnected interface, Tailscale's own interface, an
    interface that only has site-local resolvers and two interfaces with real
    resolvers. *)
Definition exWinipcfg : Winipcfg :=
  mkWinipcfg (fun g => inr g) (fun _ => inr 7)
    (fun af =>
       match af with
       | AF_INET =>
           inr [mkRow4 false 1 1; mkRow4 true 7 1; mkRow4 true 4 50;
                mkRow4 true 2 5; mkRow4 true 3 25]
       | AF_INET6 => inl "unused"
       end)
    (fun luid =>
       if (luid =? 2)%Z then inr [[254; 192; 0; 0; 0; 0; 255; 255; 0; 0; 0; 0; 0; 0; 0; 1]]
       else if (luid =? 3)%Z then
         inr [[192; 168; 1; 1]; [1; 2; 3];
              [0; 0; 0; 0; 0; 0; 0; 0; 0; 0; 255; 255; 8; 8; 8; 8]]
       else if (luid =? 4)%Z then inr [[9; 9; 9; 9]]
       else inl "no such interface").

(** A host without IPv4: the table of interfaces comes from IPv6, and the
    only interface besides Tailscale's has a site-local resolver. *)
Definition exWinipcfgV6 : Winipcfg :=
  mkWinipcfg (fun g => inr g) (fun _ => inr 7)
    (fun af =>
       match af with
       | AF_INET => inl ERROR_NOT_FOUND
       | AF_INET6 => inr [mkRow4 true 7 1; mkRow4 true 2 5]
       end)
    (fun luid =>
       if (luid =? 2)%Z then inr [[254; 192; 0; 0; 0; 0; 255; 255; 0; 0; 0; 0; 0; 0; 0; 2]]
       else inl "no such interface").

End dns.

(** * Package localapi: the Local API handlers *)
Module localapi.

(** ** Values of the packages the handlers use *)

(** Modelled from the spec: [ipn.Prefs] and [ipn.MaskedPrefs] are not under
    src/. The data model has preferences be an opaque record with a masked
    patch, [MaskedPrefs = {field -> new_value}] for a subset of fields. *)
Abbreviation Prefs := (gmap string string).
Abbreviation MaskedPrefs := (gmap string string).

(** Modelled from the spec: [Prefs.ApplyEdits]; the fields a patch does not
    mention remain untouched. *)
Definition ApplyEdits (mp : MaskedPrefs) (p : Prefs) : Prefs := mp ∪ p.

(** [netip.AddrPort] *)
Abbreviation AddrPort := (Addr * Z)%type.

(** [apitype.FileTarget], as far as [serveFilePut] reads it. *)
Record FileTarget := mkFileTarget {
  StableID : string;
  PeerAPIURL : string
}.

(** [tailcfg.TokenRequest] *)
Record TokenRequest := mkTokenRequest {
  Audience : string;
  NodeKey : string
}.

(** The methods of [*ipnlocal.LocalBackend] a handler can call. *)
Inductive BackendCall :=
| Call_NetMap
| Call_DoNoiseRequest (req : TokenRequest)
| Call_WhoIs (ipp : AddrPort)
| Call_PeerCaps (ip : Addr)
| Call_DebugRebind
| Call_DebugReSTUN
| Call_CheckIPForwarding
| Call_Status
| Call_StatusWithoutPeers
| Call_StartLoginInteractive
| Call_LogoutSync
| Call_EditPrefs (mp : MaskedPrefs)
| Call_Prefs
| Call_CheckPrefs (p : Prefs)
| Call_WaitingFiles
| Call_DeleteFile (name : string)
| Call_OpenFile (name : string)
| Call_FileTargets
| Call_PeerAPITransport (peerURL filenameEscaped : string)
| Call_SetDNS (name value : string)
| Call_DERPMap
| Call_SetExpirySooner (expiry : Z)
| Call_Ping (ip : Addr) (pingType : string)
| Call_UserDial (network addr : string).

(** What the backend answers. The backend is a record of callables; values
    the handlers only pass on to the JSON encoder are kept as their text. *)
Record LocalBackend := mkBackend {
  b_NetMap : option string;
  b_DoNoiseRequest : TokenRequest -> error + (Z * string);
  b_WhoIs : AddrPort -> option (string * string);
  b_PeerCaps : Addr -> string;
  b_DebugRebind : option error;
  b_DebugReSTUN : option error;
  b_CheckIPForwarding : option error;
  b_Status : string;
  b_StatusWithoutPeers : string;
  b_LogoutSync : option error;
  b_CheckPrefs : Prefs -> option error;
  b_WaitingFiles : error + string;
  b_DeleteFile : string -> option error;
  b_OpenFile : string -> error + (string * Z);
  b_FileTargets : error + list FileTarget;
  b_PeerAPITransport : string -> string -> Z * string;
  b_SetDNS : string -> string -> option error;
  b_DERPMap : string;
  b_SetExpirySooner : Z -> option error;
  b_Ping : Addr -> string -> error + string;
  b_UserDial : string -> string -> error + string
}.

(** ** Client metrics *)

Inductive MetricType := TypeCounter | TypeGauge.

(** A [clientmetric.Metric] of the data model: [{name, kind, value : i64}]. *)
Record Metric := mkMetric {
  metric_name : string;
  metric_typ : MetricType;
  metric_v : Z
}.

(** [clientMetricJSON] of [serveUploadClientMetrics]. *)
Record clientMetricJSON := mkClientMetricJSON {
  Name : string;
  Type_ : string;
  Value : Z
}.

(** ** net/http *)

(** A request body, by what [encoding/json] makes of it. *)
Inductive Body :=
| Malformed (err : string)
| AsMaskedPrefs (mp : MaskedPrefs)
| AsPrefs (p : Prefs)
| AsClientMetrics (l : list clientMetricJSON).

Record Request := mkRequest {
  Method : string;
  Path : string;
  EscapedPath : string;
  BasicAuth : option (string * string);
  Header : gmap string string;
  Form : gmap string string;
  body : Body;
  ContentLength : Z
}.

(** [r.FormValue(key)] *)
Definition FormValue (r : Request) (key : string) : string :=
  default "" (Form r !! key).

(** [r.Header.Get(key)] *)
Definition Header_Get (r : Request) (key : string) : string :=
  default "" (Header r !! key).

(** The values the handlers encode as JSON. *)
Inductive JSONValue :=
| J_resJSON (Error : string)
| J_E (Error : string)
| J_Prefs (p : Prefs)
| J_empty
| J_Warning (Warning : string)
| J_FileTargets (fts : list FileTarget)
| J_text (encoded : string).

(** What is written to the response body. *)
Inductive Chunk :=
| Text (s : string)
| JSON (v : JSONValue).

(** An [http.ResponseWriter]: the header map, the status line once written,
    the body, and whether the writer is an [http.Hijacker] (with the errors
    of [Hijack] and of flushing its buffer). *)
Record ResponseWriter := mkResponseWriter {
  rw_header : gmap string string;
  rw_status : option Z;
  rw_body : list Chunk;
  rw_hijacker : option (option error * option error)
}.

(** The writer the server hands to [ServeHTTP]. *)
Definition NewResponseWriter (hijacker : option (option error * option error))
    : ResponseWriter :=
  mkResponseWriter ∅ None [] hijacker.

(** The connection of the request. *)
Inductive ConnState :=
| Serving
| Hijacked
| Piped (outConn : string).

(** [time.Time] in UTC, broken down. *)
Record Time := mkTime {
  year : Z; month : Z; day : Z; hour : Z; minute : Z; second : Z
}.

(** ** The world a handler runs in *)
Record World := mkWorld {
  rw : ResponseWriter;
  (** the backend: its preferences and the calls made to it *)
  prefs : Prefs;
  calls : list BackendCall;
  (** [h.logf] *)
  logs : list string;
  (** package clientmetric: the metric objects by address and the published
      names *)
  heap : list Metric;
  published : gmap string nat;
  (** the package-level [metrics] of localapi *)
  metrics : gmap string nat;
  (** [time.Now()] and [crypto/rand] *)
  now : Time;
  entropy : nat -> Z;
  consumed : nat;
  conn : ConnState;
  panicked : option string
}.

Definition set_rw (f : ResponseWriter -> ResponseWriter) (st : World) : World :=
  mkWorld (f (rw st)) (prefs st) (calls st) (logs st) (heap st) (published st)
    (metrics st) (now st) (entropy st) (consumed st) (conn st) (panicked st).

Definition set_prefs (p : Prefs) (st : World) : World :=
  mkWorld (rw st) p (calls st) (logs st) (heap st) (published st)
    (metrics st) (now st) (entropy st) (consumed st) (conn st) (panicked st).

(** Records a call of a backend method. *)
Definition call (c : BackendCall) (st : World) : World :=
  mkWorld (rw st) (prefs st) (calls st ++ [c]) (logs st) (heap st) (published st)
    (metrics st) (now st) (entropy st) (consumed st) (conn st) (panicked st).

(** [h.logf(format, args...)], the line already formatted. *)
Definition logf (line : string) (st : World) : World :=
  mkWorld (rw st) (prefs st) (calls st) (logs st ++ [line]) (heap st) (published st)
    (metrics st) (now st) (entropy st) (consumed st) (conn st) (panicked st).

Definition set_heap (hp : list Metric) (st : World) : World :=
  mkWorld (rw st) (prefs st) (calls st) (logs st) hp (published st)
    (metrics st) (now st) (entropy st) (consumed st) (conn st) (panicked st).

Definition set_published (pb : gmap string nat) (st : World) : World :=
  mkWorld (rw st) (prefs st) (calls st) (logs st) (heap st) pb
    (metrics st) (now st) (entropy st) (consumed st) (conn st) (panicked st).

Definition set_metrics (ms : gmap string nat) (st : World) : World :=
  mkWorld (rw st) (prefs st) (calls st) (logs st) (heap st) (published st)
    ms (now st) (entropy st) (consumed st) (conn st) (panicked st).

Definition set_consumed (n : nat) (st : World) : World :=
  mkWorld (rw st) (prefs st) (calls st) (logs st) (heap st) (published st)
    (metrics st) (now st) (entropy st) n (conn st) (panicked st).

Definition set_conn (c : ConnState) (st : World) : World :=
  mkWorld (rw st) (prefs st) (calls st) (logs st) (heap st) (published st)
    (metrics st) (now st) (entropy st) (consumed st) c (panicked st).

Definition panic (msg : string) (st : World) : World :=
  mkWorld (rw st) (prefs st) (calls st) (logs st) (heap st) (published st)
    (metrics st) (now st) (entropy st) (consumed st) (conn st) (Some msg).

(** [w.Header().Set(key, value)] *)
Definition Header_Set (key value : string) : World -> World :=
  set_rw (fun w => mkResponseWriter (<[key := value]> (rw_header w)) (rw_status w)
                     (rw_body w) (rw_hijacker w)).

(** [w.WriteHeader(code)]; a second call does not change the status sent. *)
Definition WriteHeader (code : Z) : World -> World :=
  set_rw (fun w =>
    match rw_status w with
    | Some _ => w
    | None => mkResponseWriter (rw_header w) (Some code) (rw_body w) (rw_hijacker w)
    end).

(** [w.Write(...)]: the first write sends status 200 if none was written. *)
Definition Write (c : Chunk) (st : World) : World :=
  set_rw (fun w => mkResponseWriter (rw_header w) (rw_status w) (rw_body w ++ [c])
                     (rw_hijacker w))
    (WriteHeader 200 st).

(** [http.Error(w, msg, code)] *)
Definition http_Error (msg : string) (code : Z) (st : World) : World :=
  let st := Header_Set "Content-Type" "text/plain; charset=utf-8" st in
  let st := Header_Set "X-Content-Type-Options" "nosniff" st in
  let st := WriteHeader code st in
  Write (Text (msg +:+ LF)) st.

(** [json.NewEncoder(w).Encode(v)] *)
Definition Encode (v : JSONValue) : World -> World := Write (JSON v).

(** The status the client receives. *)
Definition Status (st : World) : Z := default 200 (rw_status (rw st)).

Definition StatusForbidden : Z := 403.
Definition StatusUnauthorized : Z := 401.
Definition StatusInternalServerError : Z := 500.
Definition StatusServiceUnavailable : Z := 503.
Definition StatusMethodNotAllowed : Z := 405.
Definition StatusBadRequest : Z := 400.
Definition StatusNoContent : Z := 204.
Definition StatusBadGateway : Z := 502.
Definition StatusSwitchingProtocols : Z := 101.

(** ** The handler *)

Record Handler := mkHandler {
  RequiredPassword : string;
  PermitRead : bool;
  PermitWrite : bool;
  PermitCert : bool;
  b : option LocalBackend;
  backendLogID : string
}.

(** [randHex(n)]: [n] bytes of [crypto/rand], hex-encoded. *)
Definition randHex (n : nat) (st : World) : string * World :=
  let bytes := map (fun i => entropy st (consumed st + i)%nat) (seq 0 n) in
  (EncodeToString bytes, set_consumed (consumed st + n)%nat st).

Definition digit (n : Z) : ascii := ascii_of_nat (48 + Z.to_nat (n mod 10)).

Definition two_digits (n : Z) : string :=
  String (digit (n / 10)) (String (digit n) EmptyString).

(** [t.Format("20060102150405Z")] for a year of four digits. *)
Definition Format_20060102150405Z (t : Time) : string :=
  String (digit (year t / 1000)) (String (digit (year t / 100)) (two_digits (year t)))
  +:+ two_digits (month t) +:+ two_digits (day t)
  +:+ two_digits (hour t) +:+ two_digits (minute t) +:+ two_digits (second t)
  +:+ "Z".

(** [defBool(a, def)] *)
Definition defBool (a : string) (def : bool) : bool :=
  if String.eqb a "" then def
  else match ParseBool a with
       | Some v => v
       | None => def
       end.

(** [writeErrorJSON(w, err)], for a non-nil error. *)
Definition writeErrorJSON (err : error) (st : World) : World :=
  let st := Header_Set "Content-Type" "application/json" st in
  let st := WriteHeader 500 st in
  Encode (J_E err) st.

(** What [json.NewDecoder(r.Body).Decode] gives for the three types the
    handlers decode into. *)
Definition Decode_MaskedPrefs (bd : Body) : error + MaskedPrefs :=
  match bd with
  | AsMaskedPrefs mp => inr mp
  | Malformed err => inl err
  | _ => inl "json: cannot unmarshal into Go value of type ipn.MaskedPrefs"
  end.

Definition Decode_Prefs (bd : Body) : error + Prefs :=
  match bd with
  | AsPrefs p => inr p
  | Malformed err => inl err
  | _ => inl "json: cannot unmarshal into Go value of type ipn.Prefs"
  end.

Definition Decode_clientMetrics (bd : Body) : error + list clientMetricJSON :=
  match bd with
  | AsClientMetrics l => inr l
  | Malformed err => inl err
  | _ => inl "json: cannot unmarshal into Go value of type []localapi.clientMetricJSON"
  end.

(** Modelled from the spec: [LocalBackend.EditPrefs] (package ipnlocal) is not
    under src/. Section 3 has a masked patch be atomic: a patch that fails
    validation leaves the prior preferences untouched; otherwise the patched
    preferences replace them and are returned. *)
Definition EditPrefs (bk : LocalBackend) (mp : MaskedPrefs) (st : World)
    : (error + Prefs) * World :=
  let st := call (Call_EditPrefs mp) st in
  let p1 := ApplyEdits mp (prefs st) in
  match b_CheckPrefs bk p1 with
  | Some err => (inl err, st)
  | None => (inr p1, set_prefs p1 st)
  end.

(** ** Package clientmetric *)

(** Modelled from the spec: [clientmetric.HasPublished] is not under src/.
    Names are unique per process; this reports whether one is taken. *)
Definition HasPublished (name : string) (st : World) : bool :=
  bool_decide (is_Some (published st !! name)).

(** Modelled from the spec: [clientmetric.NewCounter] and
    [clientmetric.NewGauge] are not under src/: [register(name, kind) ->
    handle | already_exists]. A fresh metric starts at zero; a name that is
    taken gives no handle. *)
Definition NewMetric (name : string) (typ : MetricType) (st : World)
    : option nat * World :=
  if HasPublished name st then (None, st)
  else
    let ptr := length (heap st) in
    (Some ptr,
     set_published (<[name := ptr]> (published st))
       (set_heap (heap st ++ [mkMetric name typ 0]) st)).

(** A Go [int64] after an addition: two's complement wrap-around. *)
Definition wrap64 (z : Z) : Z := (z + 2 ^ 63) mod 2 ^ 64 - 2 ^ 63.

(** Modelled from the spec: [Metric.Add], the [add(handle, delta)] of section
    4.I, on the metric the handle points at. *)
Definition Metric_Add (ptr : nat) (n : Z) (st : World) : World :=
  match heap st !! ptr with
  | Some m =>
      set_heap (<[ptr := mkMetric (metric_name m) (metric_typ m)
                           (wrap64 (metric_v m + n))]> (heap st)) st
  | None => st
  end.

(** ** The handlers *)
Section Handlers.

(** Functions of the standard library and of packages that are not under
    src/, which the handlers only call. *)
Variable version_Long : string.
Variable ParseAddr : string -> option Addr.
Variable ParseAddrPort : string -> option AddrPort.
Variable ParseInt : string -> option Z.
Variable PathUnescape : string -> option string.
Variable url_Parse : string -> bool.
Variable Quote : string -> string.
Variable runtime_Stack : string.
Variable WritePrometheusExpositionFormat : World -> string.

(** [serveProfileFunc], nil where profiling is not linked in. *)
Variable serveProfileFunc : option (Request -> World -> World).

(** [Handler.serveCert] (cert.go) is not under src/. *)
Variable serveCert : Handler -> LocalBackend -> Request -> World -> World.

(** [h.serveIDToken(w, r)]; [json.Marshal] of the token request and
    [http.NewRequest] on the constant URL do not fail. *)
Definition serveIDToken (h : Handler) (bk : LocalBackend) (r : Request)
    (st : World) : World :=
  if negb (PermitWrite h) then http_Error "id-token access denied" StatusForbidden st
  else
    let st := call Call_NetMap st in
    match b_NetMap bk with
    | None => http_Error "no netmap" StatusServiceUnavailable st
    | Some nodeKey =>
        let aud := TrimSpace (FormValue r "aud") in
        if (String.length aud =? 0)%nat then
          http_Error "no audience requested" StatusBadRequest st
        else
          let req := mkTokenRequest aud nodeKey in
          let st := call (Call_DoNoiseRequest req) st in
          match b_DoNoiseRequest bk req with
          | inl err => http_Error err 500 st
          | inr (code, respBody) => Write (Text respBody) (WriteHeader code st)
          end
    end.

(** [h.serveBugReport(w, r)] *)
Definition serveBugReport (h : Handler) (r : Request) (st : World) : World :=
  if negb (PermitRead h) then http_Error "bugreport access denied" StatusForbidden st
  else
    let '(hex, st) := randHex 8 st in
    let logMarker :=
      "BUG-" +:+ backendLogID h +:+ "-" +:+ Format_20060102150405Z (now st)
      +:+ "-" +:+ hex in
    let st := logf ("user bugreport: " +:+ logMarker) st in
    let note := FormValue r "note" in
    let st := if (0 <? String.length note)%nat
              then logf ("user bugreport note: " +:+ note) st else st in
    let st := Header_Set "Content-Type" "text/plain" st in
    Write (Text (logMarker +:+ LF)) st.

(** [h.serveWhoIs(w, r)] *)
Definition serveWhoIs (h : Handler) (bk : LocalBackend) (r : Request)
    (st : World) : World :=
  if negb (PermitRead h) then http_Error "whois access denied" StatusForbidden st
  else
    let v := FormValue r "addr" in
    if negb (String.eqb v "") then
      match ParseAddrPort v with
      | None => http_Error "invalid 'addr' parameter" 400 st
      | Some ipp =>
          let st := call (Call_WhoIs ipp) st in
          match b_WhoIs bk ipp with
          | None => http_Error "no match for IP:port" 404 st
          | Some (n, u) =>
              let st := call (Call_PeerCaps (fst ipp)) st in
              let j := "{Node:" +:+ n +:+ ",UserProfile:" +:+ u +:+ ",Caps:"
                       +:+ b_PeerCaps bk (fst ipp) +:+ "}" in
              let st := Header_Set "Content-Type" "application/json" st in
              Write (Text j) st
          end
      end
    else http_Error "missing 'addr' parameter" 400 st.

(** [h.serveGoroutines(w, r)] *)
Definition serveGoroutines (h : Handler) (r : Request) (st : World) : World :=
  if negb (PermitWrite h) then http_Error "goroutine dump access denied" StatusForbidden st
  else
    let st := Header_Set "Content-Type" "text/plain" st in
    Write (Text runtime_Stack) st.

(** [h.serveMetrics(w, r)] *)
Definition serveMetrics (h : Handler) (r : Request) (st : World) : World :=
  if negb (PermitWrite h) then http_Error "metric access denied" StatusForbidden st
  else
    let st := Header_Set "Content-Type" "text/plain" st in
    Write (Text (WritePrometheusExpositionFormat st)) st.

(** [h.serveDebug(w, r)] *)
Definition serveDebug (h : Handler) (bk : LocalBackend) (r : Request)
    (st : World) : World :=
  if negb (PermitWrite h) then http_Error "debug access denied" StatusForbidden st
  else if negb (String.eqb (Method r) "POST") then
    http_Error "POST required" StatusMethodNotAllowed st
  else
    let action := FormValue r "action" in
    let '(err, st) :=
      if String.eqb action "rebind" then (b_DebugRebind bk, call Call_DebugRebind st)
      else if String.eqb action "restun" then (b_DebugReSTUN bk, call Call_DebugReSTUN st)
      else if String.eqb action "" then (Some "missing parameter 'action'", st)
      else (Some ("unknown action " +:+ Quote action), st) in
    match err with
    | Some e => http_Error e 400 st
    | None =>
        let st := Header_Set "Content-Type" "text/plain" st in
        Write (Text ("done" +:+ LF)) st
    end.

(** [h.serveProfile(w, r)] *)
Definition serveProfile (h : Handler) (r : Request) (st : World) : World :=
  if negb (PermitWrite h) then http_Error "profile access denied" StatusForbidden st
  else
    match serveProfileFunc with
    | None => http_Error "not implemented on this platform" StatusServiceUnavailable st
    | Some f => f r st
    end.

(** [h.serveCheckIPForwarding(w, r)] *)
Definition serveCheckIPForwarding (h : Handler) (bk : LocalBackend) (r : Request)
    (st : World) : World :=
  if negb (PermitRead h) then
    http_Error "IP forwarding check access denied" StatusForbidden st
  else
    let st := call Call_CheckIPForwarding st in
    let warning := default "" (b_CheckIPForwarding bk) in
    let st := Header_Set "Content-Type" "application/json" st in
    Encode (J_Warning warning) st.

(** [h.serveStatus(w, r)] *)
Definition serveStatus (h : Handler) (bk : LocalBackend) (r : Request)
    (st : World) : World :=
  if negb (PermitRead h) then http_Error "status access denied" StatusForbidden st
  else
    let st := Header_Set "Content-Type" "application/json" st in
    if defBool (FormValue r "peers") true then
      Encode (J_text (b_Status bk)) (call Call_Status st)
    else
      Encode (J_text (b_StatusWithoutPeers bk)) (call Call_StatusWithoutPeers st).

(** [h.serveLoginInteractive(w, r)] *)
Definition serveLoginInteractive (h : Handler) (bk : LocalBackend) (r : Request)
    (st : World) : World :=
  if negb (PermitWrite h) then http_Error "login access denied" StatusForbidden st
  else if negb (String.eqb (Method r) "POST") then http_Error "want POST" 400 st
  else WriteHeader StatusNoContent (call Call_StartLoginInteractive st).

(** [h.serveLogout(w, r)] *)
Definition serveLogout (h : Handler) (bk : LocalBackend) (r : Request)
    (st : World) : World :=
  if negb (PermitWrite h) then http_Error "logout access denied" StatusForbidden st
  else if negb (String.eqb (Method r) "POST") then http_Error "want POST" 400 st
  else
    let st := call Call_LogoutSync st in
    match b_LogoutSync bk with
    | None => WriteHeader StatusNoContent st
    | Some err => http_Error err 500 st
    end.

(** [h.servePrefs(w, r)] *)
Definition servePrefs (h : Handler) (bk : LocalBackend) (r : Request)
    (st : World) : World :=
  if negb (PermitRead h) then http_Error "prefs access denied" StatusForbidden st
  else
    let respond (p : Prefs) (st : World) : World :=
      let st := Header_Set "Content-Type" "application/json" st in
      Encode (J_Prefs p) st in
    if String.eqb (Method r) "PATCH" then
      if negb (PermitWrite h) then
        http_Error "prefs write access denied" StatusForbidden st
      else
        match Decode_MaskedPrefs (body r) with
        | inl err => http_Error err 400 st
        | inr mp =>
            match EditPrefs bk mp st with
            | (inl err, st) =>
                let st := Header_Set "Content-Type" "application/json" st in
                let st := WriteHeader StatusBadRequest st in
                Encode (J_resJSON err) st
            | (inr p, st) => respond p st
            end
        end
    else if String.eqb (Method r) "GET" || String.eqb (Method r) "HEAD" then
      let st := call Call_Prefs st in
      respond (prefs st) st
    else http_Error "unsupported method" StatusMethodNotAllowed st.

(** [h.serveCheckPrefs(w, r)] *)
Definition serveCheckPrefs (h : Handler) (bk : LocalBackend) (r : Request)
    (st : World) : World :=
  if negb (PermitWrite h) then http_Error "checkprefs access denied" StatusForbidden st
  else if negb (String.eqb (Method r) "POST") then
    http_Error "unsupported method" StatusMethodNotAllowed st
  else
    match Decode_Prefs (body r) with
    | inl _ => http_Error "invalid JSON body" 400 st
    | inr p =>
        let st := call (Call_CheckPrefs p) st in
        let res := J_resJSON (default "" (b_CheckPrefs bk p)) in
        let st := Header_Set "Content-Type" "application/json" st in
        Encode res st
    end.

(** [h.serveFiles(w, r)] *)
Definition serveFiles (h : Handler) (bk : LocalBackend) (r : Request)
    (st : World) : World :=
  if negb (PermitWrite h) then http_Error "file access denied" StatusForbidden st
  else
    let suffix := TrimPrefix (EscapedPath r) "/localapi/v0/files/" in
    if String.eqb suffix "" then
      if negb (String.eqb (Method r) "GET") then
        http_Error "want GET to list files" 400 st
      else
        let st := call Call_WaitingFiles st in
        match b_WaitingFiles bk with
        | inl err => http_Error err 500 st
        | inr wfs =>
            let st := Header_Set "Content-Type" "application/json" st in
            Encode (J_text wfs) st
        end
    else
      match PathUnescape suffix with
      | None => http_Error "bad filename" 400 st
      | Some name =>
          if String.eqb (Method r) "DELETE" then
            let st := call (Call_DeleteFile name) st in
            match b_DeleteFile bk name with
            | Some err => http_Error err 500 st
            | None => WriteHeader StatusNoContent st
            end
          else
            let st := call (Call_OpenFile name) st in
            match b_OpenFile bk name with
            | inl err => http_Error err 500 st
            | inr (content, size) =>
                let st := Header_Set "Content-Length" (Sprint_int size) st in
                Write (Text content) st
            end
      end.

(** [h.serveFileTargets(w, r)]; [makeNonNil] only turns a nil slice into an
    empty one for the encoder. *)
Definition serveFileTargets (h : Handler) (bk : LocalBackend) (r : Request)
    (st : World) : World :=
  if negb (PermitRead h) then http_Error "access denied" StatusForbidden st
  else if negb (String.eqb (Method r) "GET") then
    http_Error "want GET to list targets" 400 st
  else
    let st := call Call_FileTargets st in
    match b_FileTargets bk with
    | inl err => writeErrorJSON err st
    | inr fts =>
        let st := Header_Set "Content-Type" "application/json" st in
        Encode (J_FileTargets fts) st
    end.

(** [h.serveFilePut(w, r)]; the reverse proxy relays the answer of the peer. *)
Definition serveFilePut (h : Handler) (bk : LocalBackend) (r : Request)
    (st : World) : World :=
  if negb (PermitWrite h) then http_Error "file access denied" StatusForbidden st
  else if negb (String.eqb (Method r) "PUT") then
    http_Error "want PUT to put file" 400 st
  else
    let st := call Call_FileTargets st in
    match b_FileTargets bk with
    | inl err => http_Error err 500 st
    | inr fts =>
        let upath := TrimPrefix (EscapedPath r) "/localapi/v0/file-put/" in
        match Cut upath "/" with
        | None => http_Error "bogus URL" 400 st
        | Some (stableIDStr, filenameEscaped) =>
            match List.find (fun x => String.eqb (StableID x) stableIDStr) fts with
            | None => http_Error "node not found" 404 st
            | Some ft =>
                if negb (url_Parse (PeerAPIURL ft)) then
                  http_Error "bogus peer URL" 500 st
                else if negb (url_Parse ("http://peer/v0/put/" +:+ filenameEscaped)) then
                  http_Error "bogus outreq" 500 st
                else
                  let st := call (Call_PeerAPITransport (PeerAPIURL ft) filenameEscaped) st in
                  let '(code, respBody) :=
                    b_PeerAPITransport bk (PeerAPIURL ft) filenameEscaped in
                  Write (Text respBody) (WriteHeader code st)
            end
        end
    end.

(** [h.serveSetDNS(w, r)] *)
Definition serveSetDNS (h : Handler) (bk : LocalBackend) (r : Request)
    (st : World) : World :=
  if negb (PermitWrite h) then http_Error "access denied" StatusForbidden st
  else if negb (String.eqb (Method r) "POST") then http_Error "want POST" 400 st
  else
    let st := call (Call_SetDNS (FormValue r "name") (FormValue r "value")) st in
    match b_SetDNS bk (FormValue r "name") (FormValue r "value") with
    | Some err => writeErrorJSON err st
    | None =>
        let st := Header_Set "Content-Type" "application/json" st in
        Encode J_empty st
    end.

(** [h.serveDERPMap(w, r)] *)
Definition serveDERPMap (h : Handler) (bk : LocalBackend) (r : Request)
    (st : World) : World :=
  if negb (String.eqb (Method r) "GET") then http_Error "want GET" 400 st
  else
    let st := Header_Set "Content-Type" "application/json" st in
    Encode (J_text (b_DERPMap bk)) (call Call_DERPMap st).

(** [h.serveSetExpirySooner(w, r)] *)
Definition serveSetExpirySooner (h : Handler) (bk : LocalBackend) (r : Request)
    (st : World) : World :=
  if negb (String.eqb (Method r) "POST") then
    http_Error "POST required" StatusMethodNotAllowed st
  else
    let v := FormValue r "expiry" in
    if negb (String.eqb v "") then
      match ParseInt v with
      | None =>
          http_Error "can't parse expiry time, expects a unix timestamp"
            StatusBadRequest st
      | Some expiryInt =>
          let st := call (Call_SetExpirySooner expiryInt) st in
          match b_SetExpirySooner bk expiryInt with
          | Some err => http_Error err StatusBadRequest st
          | None =>
              let st := Header_Set "Content-Type" "text/plain" st in
              Write (Text ("done" +:+ LF)) st
          end
      end
    else
      http_Error "missing 'expiry' parameter, a unix timestamp" StatusBadRequest st.

(** [h.servePing(w, r)] *)
Definition servePing (h : Handler) (bk : LocalBackend) (r : Request)
    (st : World) : World :=
  if negb (String.eqb (Method r) "POST") then http_Error "want POST" 400 st
  else
    let ipStr := FormValue r "ip" in
    if String.eqb ipStr "" then http_Error "missing 'ip' parameter" 400 st
    else
      match ParseAddr ipStr with
      | None => http_Error "invalid IP" 400 st
      | Some ip =>
          let pingTypeStr := FormValue r "type" in
          if String.eqb ipStr "" then http_Error "missing 'type' parameter" 400 st
          else
            let st := call (Call_Ping ip pingTypeStr) st in
            match b_Ping bk ip pingTypeStr with
            | inl err => writeErrorJSON err st
            | inr res =>
                let st := Header_Set "Content-Type" "application/json" st in
                Encode (J_text res) st
            end
      end.

Definition upgradeProto : string := "ts-dial".

(** [h.serveDial(w, r)]; the two copying goroutines are the pipe the
    connection is left as. *)
Definition serveDial (h : Handler) (bk : LocalBackend) (r : Request)
    (st : World) : World :=
  if negb (String.eqb (Method r) "POST") then
    http_Error "POST required" StatusMethodNotAllowed st
  else if negb (Contains (Header_Get r "Connection") "upgrade")
          || negb (String.eqb (Header_Get r "Upgrade") upgradeProto) then
    http_Error "bad ts-dial upgrade" StatusBadRequest st
  else
    let hostStr := Header_Get r "Dial-Host" in
    let portStr := Header_Get r "Dial-Port" in
    if String.eqb hostStr "" || String.eqb portStr "" then
      http_Error "missing Dial-Host or Dial-Port header" StatusBadRequest st
    else
      match rw_hijacker (rw st) with
      | None => http_Error "make request over HTTP/1" StatusBadRequest st
      | Some (hijackErr, flushErr) =>
          let addr := JoinHostPort hostStr portStr in
          let st := call (Call_UserDial "tcp" addr) st in
          match b_UserDial bk "tcp" addr with
          | inl err => http_Error ("dial failure: " +:+ err) StatusBadGateway st
          | inr outConn =>
              let st := Header_Set "Upgrade" upgradeProto st in
              let st := Header_Set "Connection" "upgrade" st in
              let st := WriteHeader StatusSwitchingProtocols st in
              match hijackErr with
              | Some err => logf ("localapi dial Hijack error: " +:+ err) st
              | None =>
                  let st := set_conn Hijacked st in
                  match flushErr with
                  | Some _ => st
                  | None => set_conn (Piped outConn) st
                  end
              end
          end
      end.

(** How the loop over the uploaded metrics ends. *)
Inductive LoopExit :=
| Finished
| BadRequest (msg : string)
| Panics.

(** The [for _, m := range clientMetrics] of [serveUploadClientMetrics]. *)
Fixpoint uploadLoop (clientMetrics : list clientMetricJSON) (st : World)
    : LoopExit * World :=
  match clientMetrics with
  | [] => (Finished, st)
  | m :: rest =>
      match metrics st !! Name m with
      | Some metric => uploadLoop rest (Metric_Add metric (wrap64 (Value m)) st)
      | None =>
          if HasPublished (Name m) st then
            (BadRequest ("Already have a metric named " +:+ Name m), st)
          else
            let typ :=
              if String.eqb (Type_ m) "counter" then Some TypeCounter
              else if String.eqb (Type_ m) "gauge" then Some TypeGauge
              else None in
            match typ with
            | None => (BadRequest ("Unknown metric type " +:+ Type_ m), st)
            | Some t =>
                match NewMetric (Name m) t st with
                | (None, st) => (Panics, panic ("duplicate metric " +:+ Name m) st)
                | (Some metric, st) =>
                    let st := set_metrics (<[Name m := metric]> (metrics st)) st in
                    uploadLoop rest (Metric_Add metric (wrap64 (Value m)) st)
                end
            end
      end
  end.

(** [h.serveUploadClientMetrics(w, r)]; [metricsMu] is held for the loop. *)
Definition serveUploadClientMetrics (h : Handler) (r : Request) (st : World) : World :=
  if negb (String.eqb (Method r) "POST") then
    http_Error "unsupported method" StatusMethodNotAllowed st
  else
    match Decode_clientMetrics (body r) with
    | inl _ => http_Error "invalid JSON body" 400 st
    | inr clientMetrics =>
        match uploadLoop clientMetrics st with
        | (BadRequest msg, st) => http_Error msg 400 st
        | (Panics, st) => st
        | (Finished, st) =>
            let st := Header_Set "Content-Type" "application/json" st in
            Encode J_empty st
        end
    end.

(** The dispatch on the path of [ServeHTTP]: the three prefix tests and the
    [switch r.URL.Path]. *)
Definition dispatch (h : Handler) (bk : LocalBackend) (r : Request)
    (st : World) : World :=
  if HasPrefix (Path r) "/localapi/v0/files/" then serveFiles h bk r st
  else if HasPrefix (Path r) "/localapi/v0/file-put/" then serveFilePut h bk r st
  else if HasPrefix (Path r) "/localapi/v0/cert/" then serveCert h bk r st
  else if String.eqb (Path r) "/localapi/v0/whois" then serveWhoIs h bk r st
  else if String.eqb (Path r) "/localapi/v0/goroutines" then serveGoroutines h r st
  else if String.eqb (Path r) "/localapi/v0/profile" then serveProfile h r st
  else if String.eqb (Path r) "/localapi/v0/status" then serveStatus h bk r st
  else if String.eqb (Path r) "/localapi/v0/logout" then serveLogout h bk r st
  else if String.eqb (Path r) "/localapi/v0/login-interactive" then
    serveLoginInteractive h bk r st
  else if String.eqb (Path r) "/localapi/v0/prefs" then servePrefs h bk r st
  else if String.eqb (Path r) "/localapi/v0/ping" then servePing h bk r st
  else if String.eqb (Path r) "/localapi/v0/check-prefs" then serveCheckPrefs h bk r st
  else if String.eqb (Path r) "/localapi/v0/check-ip-forwarding" then
    serveCheckIPForwarding h bk r st
  else if String.eqb (Path r) "/localapi/v0/bugreport" then serveBugReport h r st
  else if String.eqb (Path r) "/localapi/v0/file-targets" then serveFileTargets h bk r st
  else if String.eqb (Path r) "/localapi/v0/set-dns" then serveSetDNS h bk r st
  else if String.eqb (Path r) "/localapi/v0/derpmap" then serveDERPMap h bk r st
  else if String.eqb (Path r) "/localapi/v0/metrics" then serveMetrics h r st
  else if String.eqb (Path r) "/localapi/v0/debug" then serveDebug h bk r st
  else if String.eqb (Path r) "/localapi/v0/set-expiry-sooner" then
    serveSetExpirySooner h bk r st
  else if String.eqb (Path r) "/localapi/v0/dial" then serveDial h bk r st
  else if String.eqb (Path r) "/localapi/v0/id-token" then serveIDToken h bk r st
  else if String.eqb (Path r) "/localapi/v0/upload-client-metrics" then
    serveUploadClientMetrics h r st
  else if String.eqb (Path r) "/" then Write (Text ("tailscaled" +:+ LF)) st
  else http_Error "404 not found" 404 st.

(** [h.ServeHTTP(w, r)] *)
Definition ServeHTTP (h : Handler) (r : Request) (st : World) : World :=
  match b h with
  | None => http_Error "server has no local backend" StatusInternalServerError st
  | Some bk =>
      let st := Header_Set "Tailscale-Version" version_Long st in
      if negb (String.eqb (RequiredPassword h) "") then
        match BasicAuth r with
        | None => http_Error "auth required" StatusUnauthorized st
        | Some (_, pass) =>
            if negb (String.eqb pass (RequiredPassword h)) then
              http_Error "bad password" StatusForbidden st
            else dispatch h bk r st
        end
      else dispatch h bk r st
  end.

End Handlers.

(** ** The handler table of the specification (section 4.D) *)

Inductive Capability := CapRead | CapWrite.

(** A row: the path under [/localapi/v0], whether it is matched as a prefix,
    the methods (none listed: any) and the minimum capability. *)
Record TableRow := mkTableRow {
  row_path : string;
  row_prefix : bool;
  row_methods : list string;
  row_min_cap : option Capability
}.

Definition handler_table : list TableRow := [
  mkTableRow "/status" false ["GET"] (Some CapRead);
  mkTableRow "/prefs" false ["GET"] (Some CapRead);
  mkTableRow "/prefs" false ["PATCH"] (Some CapWrite);
  mkTableRow "/check-prefs" false ["POST"] (Some CapWrite);
  mkTableRow "/login-interactive" false ["POST"] (Some CapWrite);
  mkTableRow "/logout" false ["POST"] (Some CapWrite);
  mkTableRow "/whois" false ["GET"] (Some CapRead);
  mkTableRow "/goroutines" false ["GET"] (Some CapWrite);
  mkTableRow "/profile" false ["GET"] (Some CapWrite);
  mkTableRow "/metrics" false ["GET"] (Some CapWrite);
  mkTableRow "/debug" false ["POST"] (Some CapWrite);
  mkTableRow "/check-ip-forwarding" false ["GET"] (Some CapRead);
  mkTableRow "/bugreport" false [] (Some CapRead);
  mkTableRow "/set-dns" false ["POST"] (Some CapWrite);
  mkTableRow "/derpmap" false ["GET"] None;
  mkTableRow "/set-expiry-sooner" false ["POST"] None;
  mkTableRow "/ping" false ["POST"] None;
  mkTableRow "/id-token" false ["GET"] (Some CapWrite);
  mkTableRow "/files/" true ["GET"; "DELETE"] (Some CapWrite);
  mkTableRow "/file-put/" true ["PUT"] (Some CapWrite);
  mkTableRow "/upload-client-metrics" false ["POST"] None;
  mkTableRow "/dial" false ["POST"] None
].

Definition row_matches (r : Request) (row : TableRow) : bool :=
  (if row_prefix row then HasPrefix (Path r) ("/localapi/v0" +:+ row_path row)
   else String.eqb (Path r) ("/localapi/v0" +:+ row_path row))
  && match row_methods row with
     | [] => true
     | ms => existsb (String.eqb (Method r)) ms
     end.

(** The minimum capability the table declares for a request, if it declares
    one. *)
Definition declared_min (r : Request) : option Capability :=
  match List.find (row_matches r) handler_table with
  | Some row => row_min_cap row
  | None => None
  end.

(** Whether the path of a request is the path of a row, whatever the method. *)
Definition path_matches (r : Request) (row : TableRow) : bool :=
  if row_prefix row then HasPrefix (Path r) ("/localapi/v0" +:+ row_path row)
  else String.eqb (Path r) ("/localapi/v0" +:+ row_path row).

(** The minimum capability the table declares for the handler a request
    reaches: that of the row of its path and method and, for a method the
    table does not list with the path, that of the first row of the path. *)
Definition handler_min (r : Request) : option Capability :=
  match List.find (row_matches r) handler_table with
  | Some row => row_min_cap row
  | None =>
      match List.find (path_matches r) handler_table with
      | Some row => row_min_cap row
      | None => None
      end
  end.

(** Whether the connection of a handler lacks a capability. *)
Definition lacks (h : Handler) (c : Capability) : bool :=
  match c with
  | CapRead => negb (PermitRead h)
  | CapWrite => negb (PermitWrite h)
  end.

(** The state of the client metrics: the metric objects, the published names
    and the table of uploaded names. *)
Definition metric_state (st : World) :=
  (heap st, published st, metrics st).

(** Everything a handler can touch besides the response it writes. *)
Definition effects (st : World) :=
  (prefs st, calls st, logs st, heap st, published st, metrics st,
   consumed st, conn st, panicked st).

(** ** The registry of section 4.I, for the upload of claim C2 *)

(** The metrics as the data model has them: the names that are taken and, for
    each metric the upload API registered, its kind and its value. *)
Record MetricRegistry := mkRegistry {
  reg_names : gset string;
  reg_uploaded : gmap string (MetricType * Z)
}.

(** The kind an entry asks for. *)
Definition kind_of (type : string) : option MetricType :=
  if String.eqb type "counter" then Some TypeCounter
  else if String.eqb type "gauge" then Some TypeGauge
  else None.

(** One entry of an upload, in the words of the claim: its value is added to
    the metric of its name if the upload API registered one; otherwise the
    entry is rejected when its name is taken or its type is neither
    ["counter"] nor ["gauge"], and else the metric is registered with the
    value of the entry. Values are [i64]. *)
Definition registry_entry (m : clientMetricJSON) (R : MetricRegistry)
    : string + MetricRegistry :=
  match reg_uploaded R !! Name m with
  | Some (kind, v) =>
      inr (mkRegistry (reg_names R)
             (<[Name m := (kind, wrap64 (v + Value m))]> (reg_uploaded R)))
  | None =>
      if bool_decide (Name m ∈ reg_names R) then
        inl ("Already have a metric named " +:+ Name m)
      else
        match kind_of (Type_ m) with
        | None => inl ("Unknown metric type " +:+ Type_ m)
        | Some kind =>
            inr (mkRegistry ({[Name m]} ∪ reg_names R)
                   (<[Name m := (kind, wrap64 (Value m))]> (reg_uploaded R)))
        end
  end.

(** The entries of an upload in order, each on the registry its predecessors
    left, up to the first that is rejected: the message of the rejection, if
    any, and the registry that is left. *)
Fixpoint registry_upload (l : list clientMetricJSON) (R : MetricRegistry)
    : option string * MetricRegistry :=
  match l with
  | [] => (None, R)
  | m :: rest =>
      match registry_entry m R with
      | inl msg => (Some msg, R)
      | inr R' => registry_upload rest R'
      end
  end.

(** The registry a world holds: the published names, and the kind and value
    of the metric object behind each uploaded name. *)
Definition registry_of (st : World) : MetricRegistry :=
  mkRegistry (dom (published st))
    (omap (fun ptr => (fun m => (metric_typ m, metric_v m)) <$> heap st !! ptr)
       (metrics st)).

(** The table of uploaded names points at metric objects that exist, a
    different one for each name. *)
Definition upload_wf (st : World) : Prop :=
  (forall n p, metrics st !! n = Some p -> (p < length (heap st))%nat) /\
  (forall n1 n2 p, metrics st !! n1 = Some p -> metrics st !! n2 = Some p -> n1 = n2).

(** The permission that the handlers of a backend method check before they
    call it; [None] for the methods whose handlers check none. *)
Definition call_permission (c : BackendCall) : option Capability :=
  match c with
  | Call_DERPMap | Call_SetExpirySooner _ | Call_Ping _ _ | Call_UserDial _ _ => None
  | Call_WhoIs _ | Call_PeerCaps _ | Call_CheckIPForwarding | Call_Status
  | Call_StatusWithoutPeers | Call_Prefs | Call_FileTargets => Some CapRead
  | _ => Some CapWrite
  end.

(** A call that a connection without [PermitWrite] may cause. *)
Definition readonly_call (h : Handler) (c : BackendCall) : bool :=
  match call_permission c with
  | None => true
  | Some CapRead => PermitRead h
  | Some CapWrite => false
  end.

(** The handlers that insist on one method: the path, the method and the
    status of the answer to any other method. *)
Definition method_checks : list (string * string * Z) := [
  ("/localapi/v0/debug", "POST", 405);
  ("/localapi/v0/login-interactive", "POST", 400);
  ("/localapi/v0/logout", "POST", 400);
  ("/localapi/v0/check-prefs", "POST", 405);
  ("/localapi/v0/file-targets", "GET", 400);
  ("/localapi/v0/set-dns", "POST", 400);
  ("/localapi/v0/derpmap", "GET", 400);
  ("/localapi/v0/set-expiry-sooner", "POST", 405);
  ("/localapi/v0/ping", "POST", 400);
  ("/localapi/v0/dial", "POST", 405);
  ("/localapi/v0/upload-client-metrics", "POST", 405)
].

(** The header a reply carries under [key]. *)
Definition reply_header (key : string) (st : World) : option string :=
  rw_header (rw st) !! key.

(** ** Concrete handlers, requests and worlds *)

Definition exBackend : LocalBackend :=
  mkBackend (Some "nodekey:01") (fun _ => inr (200, "token"))
    (fun _ => None) (fun _ => "[]") None None None "{status}" "{status-no-peers}" None
    (fun p => match p !! "ExitNodeIP" with
              | Some "invalid" => Some "invalid exit node"
              | _ => None
              end)
    (inr "[]") (fun _ => None) (fun _ => inl "no such file") (inr [])
    (fun _ _ => (200, "")) (fun _ _ => None) "{derpmap}" (fun _ => None)
    (fun _ _ => inr "{pong}")
    (fun _ addr => if String.eqb addr "peer:22" then inr "conn-1" else inl "no route").

Definition exParseAddr (s : string) : option Addr :=
  if String.eqb s "100.64.0.1" then Some (mkAddr true s) else None.

Definition exWorld : World :=
  mkWorld (NewResponseWriter (Some (None, None))) {["ExitNodeIP" := ""]} [] []
    [] ∅ ∅ (mkTime 2022 10 31 12 0 0) (fun n => Z.of_nat n) 0 Serving None.

(** A world in which the counter ["a"] was uploaded before and holds 1. *)
Definition exWorldCounter : World :=
  mkWorld (NewResponseWriter (Some (None, None))) ∅ [] []
    [mkMetric "a" TypeCounter 1] {["a" := 0%nat]} {["a" := 0%nat]}
    (mkTime 2022 10 31 12 0 0) (fun n => Z.of_nat n) 0 Serving None.

(** A world in which code published the counter ["magicsock_send"]. *)
Definition exWorldPublished : World :=
  mkWorld (NewResponseWriter (Some (None, None))) ∅ [] []
    [mkMetric "magicsock_send" TypeCounter 7] {["magicsock_send" := 0%nat]} ∅
    (mkTime 2022 10 31 12 0 0) (fun n => Z.of_nat n) 0 Serving None.

Definition exHandler (read write : bool) (bk : option LocalBackend) : Handler :=
  mkHandler "" read write false bk "abc".

Definition exRequest (method path : string) (hdr form : gmap string string)
    (bd : Body) : Request :=
  mkRequest method path path None hdr form bd 0.

Definition exUpload (l : list clientMetricJSON) : Request :=
  exRequest "POST" "/localapi/v0/upload-client-metrics" ∅ ∅ (AsClientMetrics l).

Definition exPatch (mp : MaskedPrefs) : Request :=
  exRequest "PATCH" "/localapi/v0/prefs" ∅ ∅ (AsMaskedPrefs mp).

Definition exDial (upgrade host port : string) : Request :=
  exRequest "POST" "/localapi/v0/dial"
    (<["Connection" := "upgrade"]> (<["Upgrade" := upgrade]>
       (<["Dial-Host" := host]> (<["Dial-Port" := port]> ∅)))) ∅ (Malformed "").

Definition exPing (ip type : string) : Request :=
  exRequest "POST" "/localapi/v0/ping" ∅ (<["ip" := ip]> (<["type" := type]> ∅))
    (Malformed "").

Definition exBugReport : Request :=
  exRequest "GET" "/localapi/v0/bugreport" ∅ {["note" := "dns is down"]} (Malformed "").

Definition exStatusReq : Request :=
  exRequest "GET" "/localapi/v0/status" ∅ ∅ (Malformed "").

(** [ServeHTTP] with stand-ins for what is outside the package. *)
Definition exServeHTTP : Handler -> Request -> World -> World :=
  ServeHTTP "1.33.0" exParseAddr (fun _ => None) (fun _ => None) Some
    (fun _ => true) (fun s => s) "goroutine 1 [running]" (fun _ => "")
    None (fun _ _ _ st => st).

End localapi.

(** * Properties of the Windows configurator *)
Section WindowsDNS.
Import dns.

Variable configureWSL : bool.

Lemma ifPath_v4_v6 (m : windowsManager) :
  ifPath m ipv4RegBase <> ifPath m ipv6RegBase.
Proof. unfold ifPath, ipv4RegBase, ipv6RegBase. simpl. discriminate. Qed.

Lemma with_registry_same (st : State) : with_registry (registry st) st = st.
Proof. destruct st; reflexivity. Qed.

Lemma SetValue_present key name v st k :
  registry st !! key = Some k ->
  SetValue key name v st =
    (None, with_registry (<[key := <[name := v]> k]> (registry st)) st).
Proof. intros H. unfold SetValue. rewrite H. reflexivity. Qed.

Lemma delValue_present key name st k :
  registry st !! key = Some k ->
  delValue key name st =
    (None, with_registry (<[key := delete name k]> (registry st)) st).
Proof.
  intros H. unfold delValue, DeleteValue. rewrite H.
  destruct (k !! name) eqn:Hn; simpl.
  - reflexivity.
  - rewrite delete_id by assumption. rewrite insert_id by assumption.
    rewrite with_registry_same. reflexivity.
Qed.

Lemma setOrDel_present key name b l st k :
  registry st !! key = Some k ->
  setOrDel key name b l st =
    (None, with_registry (<[key := wr name b l k]> (registry st)) st).
Proof.
  intros H. unfold setOrDel, wr. destruct b.
  - apply delValue_present; assumption.
  - apply SetValue_present; assumption.
Qed.

Lemma length_map_eqb {A B} (f : A -> B) (l : list A) :
  (length (map f l) =? 0)%nat = (length l =? 0)%nat.
Proof. rewrite length_map. reflexivity. Qed.

Ltac reg_ext :=
  apply map_eq; intros ?p;
  rewrite ?lookup_insert, ?lookup_alter;
  repeat (case_decide; subst; simplify_eq);
  repeat match goal with H : _ !! _ = _ |- _ => rewrite H end;
  try reflexivity; try congruence.

Lemma setPrimaryDNS_registry rs ds st :
  registry (snd (setPrimaryDNS rs ds st)) =
    regPrim (ifPath (mgr st) ipv4RegBase) (ifPath (mgr st) ipv6RegBase) rs ds
      (registry st)
  /\ mgr (snd (setPrimaryDNS rs ds st)) = mgr st.
Proof.
  pose proof (ifPath_v4_v6 (mgr st)) as Hne.
  unfold setPrimaryDNS, regPrim, openKey, andThen.
  destruct (registry st !! ifPath (mgr st) ipv4RegBase) as [k4|] eqn:H4;
    [|split; reflexivity].
  erewrite setOrDel_present by eassumption.
  erewrite setOrDel_present by (cbn; apply lookup_insert_eq).
  cbn [registry with_registry mgr]. rewrite insert_insert_eq.
  rewrite lookup_insert_ne by assumption.
  destruct (registry st !! ifPath (mgr st) ipv6RegBase) as [k6|] eqn:H6.
  - erewrite setOrDel_present by (cbn; rewrite lookup_insert_ne by assumption; eassumption).
    erewrite setOrDel_present by (cbn; apply lookup_insert_eq).
    cbn [registry with_registry mgr]. rewrite insert_insert_eq.
    erewrite SetValue_present
      by (cbn; rewrite lookup_insert_ne by congruence; apply lookup_insert_eq).
    cbn [registry with_registry mgr].
    erewrite SetValue_present
      by (cbn; rewrite lookup_insert_ne by assumption; apply lookup_insert_eq).
    cbn [registry with_registry mgr snd]. split; [|reflexivity].
    unfold primKey, halfKey, v4s, v6s. rewrite !length_map. reg_ext.
  - cbn [registry with_registry mgr snd]. split; [|reflexivity].
    unfold halfKey, v4s. rewrite !length_map. reg_ext.
Qed.

Lemma setPrimaryDNS_error rs ds st :
  fst (setPrimaryDNS rs ds st) = keysErr (mgr st) (registry st).
Proof.
  pose proof (ifPath_v4_v6 (mgr st)) as Hne.
  unfold setPrimaryDNS, keysErr, openKey, andThen.
  destruct (registry st !! ifPath (mgr st) ipv4RegBase) as [k4|] eqn:H4;
    [|reflexivity].
  erewrite setOrDel_present by eassumption.
  erewrite setOrDel_present by (cbn; apply lookup_insert_eq).
  cbn [registry with_registry mgr]. rewrite insert_insert_eq.
  rewrite lookup_insert_ne by assumption.
  destruct (registry st !! ifPath (mgr st) ipv6RegBase) as [k6|] eqn:H6;
    [|reflexivity].
  erewrite setOrDel_present by (cbn; rewrite lookup_insert_ne by assumption; eassumption).
  erewrite setOrDel_present by (cbn; apply lookup_insert_eq).
  cbn [registry with_registry mgr]. rewrite insert_insert_eq.
  erewrite SetValue_present
    by (cbn; rewrite lookup_insert_ne by congruence; apply lookup_insert_eq).
  cbn [registry with_registry mgr].
  erewrite SetValue_present
    by (cbn; rewrite lookup_insert_ne by assumption; apply lookup_insert_eq).
  reflexivity.
Qed.

Lemma disableDynamicUpdates_spec st :
  registry (snd (disableDynamicUpdates st)) =
    regDDU (ifPath (mgr st) ipv4RegBase) (ifPath (mgr st) ipv6RegBase) (registry st)
  /\ mgr (snd (disableDynamicUpdates st)) = mgr st
  /\ events (snd (disableDynamicUpdates st)) = events st.
Proof.
  pose proof (ifPath_v4_v6 (mgr st)) as Hne.
  unfold disableDynamicUpdates, regDDU, openKey, andThen.
  destruct (registry st !! ifPath (mgr st) ipv4RegBase) as [k4|] eqn:H4;
    [|repeat split; reflexivity].
  erewrite SetValue_present by eassumption.
  cbn [registry with_registry mgr]. rewrite lookup_insert_ne by assumption.
  destruct (registry st !! ifPath (mgr st) ipv6RegBase) as [k6|] eqn:H6.
  - erewrite SetValue_present
      by (cbn; rewrite lookup_insert_ne by assumption; eassumption).
    cbn [registry with_registry mgr snd events]. repeat split.
    unfold dduKey. reg_ext.
  - cbn [registry with_registry mgr snd events]. repeat split.
    unfold dduKey. reg_ext.
Qed.

Lemma setSplitDNS_spec resolvers domains st :
  registry (snd (setSplitDNS resolvers domains st)) = registry st
  /\ guid (mgr (snd (setSplitDNS resolvers domains st))) = guid (mgr st)
  /\ nrptDB (mgr (snd (setSplitDNS resolvers domains st))) =
       match nrptDB (mgr st) with
       | None => None
       | Some _ =>
           Some (if (length (default [] resolvers) =? 0)%nat then mkNRPT []
                 else mkNRPT (map (fun d => (d, map Addr_String (default [] resolvers)))
                                domains))
       end
  /\ fst (setSplitDNS resolvers domains st) =
       match nrptDB (mgr st), resolvers with
       | None, Some _ => Some "Split DNS unsupported on this Windows version"
       | _, _ => None
       end.
Proof.
  unfold setSplitDNS. destruct (nrptDB (mgr st)) as [db|] eqn:Hdb.
  - destruct (length (default [] resolvers) =? 0)%nat; cbn;
      repeat split; destruct resolvers; reflexivity.
  - destruct resolvers; cbn; repeat split; auto.
Qed.

Lemma ifPath_guid m m' base : guid m = guid m' -> ifPath m base = ifPath m' base.
Proof. unfold ifPath. intros ->. reflexivity. Qed.

Lemma keysErr_guid m m' r : guid m = guid m' -> keysErr m r = keysErr m' r.
Proof.
  intros H. unfold keysErr.
  rewrite (ifPath_guid m m' ipv4RegBase H), (ifPath_guid m m' ipv6RegBase H).
  reflexivity.
Qed.

Lemma hostSetDNS_guid m m' cfg h : guid m = guid m' -> hostSetDNS m cfg h = hostSetDNS m' cfg h.
Proof.
  intros H. unfold hostSetDNS.
  rewrite (ifPath_guid m m' ipv4RegBase H), (ifPath_guid m m' ipv6RegBase H).
  reflexivity.
Qed.

Lemma keysErr_regDDU m r :
  keysErr m (regDDU (ifPath m ipv4RegBase) (ifPath m ipv6RegBase) r) = keysErr m r.
Proof.
  pose proof (ifPath_v4_v6 m) as Hne.
  unfold keysErr, regDDU.
  destruct (r !! ifPath m ipv4RegBase) eqn:H4; [|rewrite H4; reflexivity].
  rewrite !lookup_alter. repeat case_decide; try congruence.
  rewrite H4; cbn. destruct (r !! ifPath m ipv6RegBase); reflexivity.
Qed.

Lemma SetDNS_spec cfg st :
  hostDNS (snd (SetDNS configureWSL cfg st)) = hostSetDNS (mgr st) cfg (hostDNS st)
  /\ guid (mgr (snd (SetDNS configureWSL cfg st))) = guid (mgr st)
  /\ fst (SetDNS configureWSL cfg st) = SetDNS_err cfg st.
Proof.
  unfold SetDNS, SetDNS_err, hostSetDNS, hostDNS.
  destruct (disableDynamicUpdates_spec st) as (Hr & Hm & _).
  set (st1 := match disableDynamicUpdates st with
              | (Some err, st') => emit (Logf _ [err]) st'
              | (None, st') => st'
              end).
  assert (Hr1 : registry st1 =
                regDDU (ifPath (mgr st) ipv4RegBase) (ifPath (mgr st) ipv6RegBase)
                  (registry st)).
  { subst st1. destruct (disableDynamicUpdates st) as [[e|] s]; exact Hr. }
  assert (Hm1 : mgr st1 = mgr st).
  { subst st1. destruct (disableDynamicUpdates st) as [[e|] s]; exact Hm. }
  clearbody st1. clear Hr Hm. cbn [fst snd].
  assert (Hfin : forall (a : State -> option error * State) s0,
    let r := (a ;;; (fun st2 =>
                let st3 := emit GoRegisterAndFlushDNS st2 in
                let st4 := if configureWSL then emit (GoWSLSetDNS cfg) st3 else st3 in
                (None, st4))) s0 in
    registry (snd r) = registry (snd (a s0)) /\ mgr (snd r) = mgr (snd (a s0))
    /\ fst r = fst (a s0)).
  { intros a s0. unfold andThen. destruct (a s0) as [[e|] s]; cbn;
      [auto|]. destruct configureWSL; cbn; auto. }
  match goal with |- context [(?a ;;; ?b) st1] =>
    destruct (Hfin a st1) as (Hfr & Hfm & Hfe) end.
  cbv zeta in Hfr, Hfm, Hfe. rewrite Hfr, Hfm, Hfe. clear Hfin Hfr Hfm Hfe.
  destruct (length (MatchDomains cfg) =? 0)%nat.
  - unfold andThen.
    destruct (setSplitDNS_spec None [] st1) as (Sr & Sg & Sn & Se).
    destruct (setSplitDNS None [] st1) as [e s2]. cbn [fst snd] in *.
    assert (e = None) as -> by (rewrite Se; destruct (nrptDB (mgr st1)); reflexivity).
    clear Se.
    destruct (setPrimaryDNS_registry (Nameservers cfg) (SearchDomains cfg) s2) as (Pr & Pm).
    rewrite (setPrimaryDNS_error (Nameservers cfg) (SearchDomains cfg) s2).
    rewrite Pr, Pm, Sr, Hr1, Sg, Hm1.
    rewrite !(ifPath_guid (mgr s2) (mgr st)) by congruence.
    rewrite (keysErr_guid (mgr s2) (mgr st)) by congruence.
    rewrite keysErr_regDDU. rewrite Sn, Hm1.
    destruct (nrptDB (mgr st)); repeat split; reflexivity.
  - rewrite Hm1. destruct (nrptDB (mgr st)) as [db|] eqn:Hdb.
    + unfold andThen.
      destruct (setSplitDNS_spec (Some (Nameservers cfg)) (MatchDomains cfg) st1)
        as (Sr & Sg & Sn & Se).
      destruct (setSplitDNS (Some (Nameservers cfg)) (MatchDomains cfg) st1) as [e s2].
      cbn [fst snd] in *. rewrite Hm1, Hdb in Se, Sn. subst e.
      destruct (setPrimaryDNS_registry [] (SearchDomains cfg) s2) as (Pr & Pm).
      rewrite (setPrimaryDNS_error [] (SearchDomains cfg) s2).
      rewrite Pr, Pm, Sr, Hr1, Sg, Hm1.
      rewrite !(ifPath_guid (mgr s2) (mgr st)) by congruence.
      rewrite (keysErr_guid (mgr s2) (mgr st)) by congruence.
      rewrite keysErr_regDDU. rewrite Sn. cbn [default]. unfold splitRules.
      repeat split; reflexivity.
    + cbn [fst snd]. rewrite Hr1, Hm1, Hdb. repeat split; reflexivity.
Qed.

Ltac key_ext :=
  apply map_eq; intros ?n;
  repeat match goal with |- context [if ?b then _ else _] =>
    match type of b with bool => destruct b end end;
  repeat first [rewrite lookup_insert | rewrite lookup_delete
               | progress (case_decide; subst; simplify_eq)];
  try reflexivity; try congruence.

Lemma dduKey_idem k : dduKey (dduKey k) = dduKey k.
Proof. unfold dduKey. apply insert_insert_eq. Qed.

Lemma halfKey_idem ips ds k :
  halfKey ips ds (dduKey (halfKey ips ds (dduKey k))) = halfKey ips ds (dduKey k).
Proof. unfold halfKey, wr, dduKey. key_ext. Qed.

Lemma primKey_idem ips ds k :
  primKey ips ds (dduKey (primKey ips ds (dduKey k))) = primKey ips ds (dduKey k).
Proof. unfold primKey, halfKey, wr, dduKey. key_ext. Qed.

Lemma regPrim_regDDU p4 p6 rs ds (r : Registry) :
  p4 <> p6 ->
  regPrim p4 p6 rs ds (regDDU p4 p6 r) =
    match r !! p4 with
    | None => r
    | Some _ =>
        match r !! p6 with
        | None => alter (fun k => halfKey (v4s rs) ds (dduKey k)) p4 r
        | Some _ =>
            alter (fun k => primKey (v6s rs) ds (dduKey k)) p6
              (alter (fun k => primKey (v4s rs) ds (dduKey k)) p4 r)
        end
    end.
Proof.
  intros Hne. unfold regPrim, regDDU.
  destruct (r !! p4) as [k4|] eqn:H4; [|rewrite H4; reflexivity].
  rewrite !lookup_alter. repeat case_decide; try congruence.
  rewrite H4. cbn [fmap option_fmap option_map].
  destruct (r !! p6) as [k6|] eqn:H6; cbn [fmap option_fmap option_map].
  - apply map_eq; intros p. rewrite !lookup_alter.
    repeat case_decide; subst; try congruence; rewrite ?H4, ?H6; reflexivity.
  - apply map_eq; intros p. rewrite !lookup_alter.
    repeat case_decide; subst; try congruence; rewrite ?H4, ?H6; reflexivity.
Qed.

Lemma regDDU_idem p4 p6 (r : Registry) :
  regDDU p4 p6 (regDDU p4 p6 r) = regDDU p4 p6 r.
Proof.
  unfold regDDU. destruct (r !! p4) as [k4|] eqn:H4; [|rewrite H4; reflexivity].
  assert (Hs : is_Some (alter dduKey p6 (alter dduKey p4 r) !! p4)).
  { rewrite !lookup_alter, H4. repeat case_decide; cbn; eauto; congruence. }
  destruct Hs as [k ->].
  apply map_eq; intros p. rewrite !lookup_alter.
  repeat case_decide; subst; try congruence;
    destruct (r !! p) eqn:Hp; cbn; rewrite ?dduKey_idem; reflexivity.
Qed.

Lemma regPrim_regDDU_idem p4 p6 rs ds (r : Registry) :
  p4 <> p6 ->
  regPrim p4 p6 rs ds (regDDU p4 p6 (regPrim p4 p6 rs ds (regDDU p4 p6 r))) =
  regPrim p4 p6 rs ds (regDDU p4 p6 r).
Proof.
  intros Hne. rewrite (regPrim_regDDU p4 p6 rs ds r Hne).
  destruct (r !! p4) as [k4|] eqn:H4.
  - destruct (r !! p6) as [k6|] eqn:H6.
    + rewrite regPrim_regDDU by assumption. rewrite !lookup_alter.
      repeat case_decide; try congruence. rewrite H4, H6.
      cbn [fmap option_fmap option_map].
      apply map_eq; intros p. rewrite !lookup_alter.
      repeat case_decide; subst; try congruence; rewrite ?H4, ?H6;
        cbn [fmap option_fmap option_map]; rewrite ?primKey_idem; reflexivity.
    + rewrite regPrim_regDDU by assumption. rewrite !lookup_alter.
      repeat case_decide; try congruence. rewrite H4, H6.
      cbn [fmap option_fmap option_map].
      apply map_eq; intros p. rewrite !lookup_alter.
      repeat case_decide; subst; try congruence; rewrite ?H4, ?H6;
        cbn [fmap option_fmap option_map]; rewrite ?halfKey_idem; reflexivity.
  - rewrite regPrim_regDDU by assumption. rewrite H4. reflexivity.
Qed.

Lemma hostSetDNS_idem m cfg h :
  hostSetDNS m cfg (hostSetDNS m cfg h) = hostSetDNS m cfg h.
Proof.
  pose proof (ifPath_v4_v6 m) as Hne.
  unfold hostSetDNS. destruct h as [db r]. cbn [fst snd].
  destruct (length (MatchDomains cfg) =? 0)%nat.
  - cbn [fst snd]. rewrite regPrim_regDDU_idem by assumption.
    destruct db; reflexivity.
  - destruct db; cbn [fst snd].
    + rewrite regPrim_regDDU_idem by assumption. reflexivity.
    + rewrite regDDU_idem. reflexivity.
Qed.

(** C9: calling [SetDNS cfg] a second time leaves the per-interface registry
    keys and the NRPT rule table as the first call left them, whether or not
    the calls succeed. *)
Theorem C9_SetDNS_idempotent (cfg : OSConfig) (st : State) :
  hostDNS (snd (SetDNS configureWSL cfg (snd (SetDNS configureWSL cfg st)))) =
  hostDNS (snd (SetDNS configureWSL cfg st)).
Proof.
  destruct (SetDNS_spec cfg st) as (H1 & G1 & _).
  destruct (SetDNS_spec cfg (snd (SetDNS configureWSL cfg st))) as (H2 & _ & _).
  rewrite H2, H1.
  rewrite (hostSetDNS_guid _ (mgr st)) by assumption.
  apply hostSetDNS_idem.
Qed.

Lemma joined_length (l : list string) (k : Key) name :
  wr name (length l =? 0)%nat l k !! name = joined l.
Proof.
  unfold wr, joined. destruct l; cbn.
  - apply lookup_delete_eq.
  - apply lookup_insert_eq.
Qed.

Lemma wr_other name name' b l (k : Key) :
  name <> name' -> wr name b l k !! name' = k !! name'.
Proof.
  intros Hne. unfold wr. destruct b.
  - apply lookup_delete_ne; assumption.
  - apply lookup_insert_ne; assumption.
Qed.

Lemma primKey_NameServer ips ds k : primKey ips ds k !! "NameServer" = joined ips.
Proof.
  unfold primKey, halfKey. rewrite lookup_insert_ne by discriminate.
  rewrite wr_other by discriminate. apply joined_length.
Qed.

Lemma primKey_SearchList ips ds k :
  primKey ips ds k !! "SearchList" = joined (map WithoutTrailingDot ds).
Proof.
  unfold primKey, halfKey. rewrite lookup_insert_ne by discriminate.
  rewrite <- (length_map_eqb WithoutTrailingDot ds). apply joined_length.
Qed.

Lemma keysErr_None m (r : Registry) :
  keysErr m r = None ->
  exists k4 k6, r !! ifPath m ipv4RegBase = Some k4 /\ r !! ifPath m ipv6RegBase = Some k6.
Proof.
  unfold keysErr. destruct (r !! ifPath m ipv4RegBase); [|discriminate].
  destruct (r !! ifPath m ipv6RegBase); [|discriminate]. eauto.
Qed.

Lemma regPrim_regDDU_values m rs ds (r : Registry) :
  keysErr m r = None ->
  let r' := regPrim (ifPath m ipv4RegBase) (ifPath m ipv6RegBase) rs ds
              (regDDU (ifPath m ipv4RegBase) (ifPath m ipv6RegBase) r) in
  r' !! ifPath m ipv4RegBase ≫= (.!! "NameServer") = joined (v4s rs) /\
  r' !! ifPath m ipv6RegBase ≫= (.!! "NameServer") = joined (v6s rs) /\
  r' !! ifPath m ipv4RegBase ≫= (.!! "SearchList") = joined (map WithoutTrailingDot ds) /\
  r' !! ifPath m ipv6RegBase ≫= (.!! "SearchList") = joined (map WithoutTrailingDot ds).
Proof.
  intros Hk. destruct (keysErr_None m r Hk) as (k4 & k6 & H4 & H6).
  pose proof (ifPath_v4_v6 m) as Hne. cbv zeta.
  rewrite regPrim_regDDU by assumption. rewrite H4, H6.
  rewrite !lookup_alter. repeat case_decide; try congruence.
  rewrite H4, H6. cbn [fmap option_fmap option_map mbind option_bind].
  rewrite !primKey_NameServer, !primKey_SearchList. auto.
Qed.

Lemma regDDU_values p4 p6 (r : Registry) p name :
  name <> "DisableDynamicUpdate" ->
  regDDU p4 p6 r !! p ≫= (.!! name) = r !! p ≫= (.!! name).
Proof.
  intros Hn. unfold regDDU. destruct (r !! p4) eqn:H4; [|reflexivity].
  rewrite !lookup_alter.
  repeat case_decide; subst; destruct (r !! p); cbn; try reflexivity;
    unfold dduKey; rewrite ?lookup_insert_ne by congruence; reflexivity.
Qed.

(** C5 (as amended): what a call [SetDNS cfg] leaves on the host.
    - With no match domains, a call that returns no error has emptied the NRPT
      rule table (where the host has one) and left under [NameServer] of each
      interface key the comma-joined nameservers of its family and under
      [SearchList] the comma-joined search domains, a value being deleted when
      its list is empty.
    - With match domains on a host with an NRPT database, a call that returns
      no error has left one rule per match domain, pointing at the nameservers,
      when there are nameservers, and an empty rule table when there are none;
      [NameServer] is deleted from both interface keys and [SearchList] holds
      the search domains.
    - With match domains on a host without an NRPT database the call fails
      with "cannot set per-domain resolvers on Windows 7" and leaves every
      [NameServer] and [SearchList] value and the absent rule table as they
      were. *)
Theorem C5_SetDNS_modes (cfg : OSConfig) (st : State) :
  let res := SetDNS configureWSL cfg st in
  let p4 := ifPath (mgr st) ipv4RegBase in
  let p6 := ifPath (mgr st) ipv6RegBase in
  let search := joined (map WithoutTrailingDot (SearchDomains cfg)) in
  (MatchDomains cfg = [] -> fst res = None ->
     (forall db, nrptDB (mgr (snd res)) = Some db -> rules db = []) /\
     value (snd res) p4 "NameServer" = joined (v4s (Nameservers cfg)) /\
     value (snd res) p6 "NameServer" = joined (v6s (Nameservers cfg)) /\
     value (snd res) p4 "SearchList" = search /\
     value (snd res) p6 "SearchList" = search)
  /\
  (MatchDomains cfg <> [] -> is_Some (nrptDB (mgr st)) -> fst res = None ->
     nrptDB (mgr (snd res)) =
       Some (mkNRPT
               (match Nameservers cfg with
                | [] => []
                | _ => map (fun d => (d, map Addr_String (Nameservers cfg)))
                         (MatchDomains cfg)
                end)) /\
     value (snd res) p4 "NameServer" = None /\
     value (snd res) p6 "NameServer" = None /\
     value (snd res) p4 "SearchList" = search /\
     value (snd res) p6 "SearchList" = search)
  /\
  (MatchDomains cfg <> [] -> nrptDB (mgr st) = None ->
     fst res = Some "cannot set per-domain resolvers on Windows 7" /\
     nrptDB (mgr (snd res)) = None /\
     forall p, value (snd res) p "NameServer" = value st p "NameServer" /\
               value (snd res) p "SearchList" = value st p "SearchList").
Proof.
  cbv zeta. destruct (SetDNS_spec cfg st) as (Hh & _ & He).
  pose proof (f_equal fst Hh) as Hn. pose proof (f_equal snd Hh) as Hr.
  clear Hh. unfold hostDNS in Hn, Hr. cbn [fst snd] in Hn, Hr. unfold value.
  rewrite He, Hn, Hr. clear He Hn Hr.
  unfold SetDNS_err, hostSetDNS. cbn [fst snd].
  split; [|split].
  - intros Hm Hok. rewrite Hm in *. cbn [length Nat.eqb fst snd] in *. split.
    + intros db'. destruct (nrptDB (mgr st)); intros [= <-]. reflexivity.
    + apply (regPrim_regDDU_values (mgr st) (Nameservers cfg) (SearchDomains cfg)).
      assumption.
  - intros Hm [db Hdb] Hok. rewrite Hdb in *.
    destruct (MatchDomains cfg) as [|d ds] eqn:Hmd; [congruence|].
    cbn [length Nat.eqb fst snd] in *. split.
    + unfold splitRules. rewrite Hmd. destruct (Nameservers cfg); reflexivity.
    + apply (regPrim_regDDU_values (mgr st) [] (SearchDomains cfg)). assumption.
  - intros Hm Hdb. rewrite Hdb.
    destruct (MatchDomains cfg) as [|d ds] eqn:Hmd; [congruence|].
    cbn [length Nat.eqb fst snd]. repeat split; apply regDDU_values; discriminate.
Qed.
End WindowsDNS.

(** ** The configurator on concrete hosts *)

(** With match domains and no nameservers the rule table is emptied: no rule
    covers the match domain. *)
Lemma C5_split_without_nameservers :
  let st := dns.exState (Some (dns.mkNRPT [("old.example.", ["10.0.0.1"])])) in
  let res := dns.SetDNS false dns.exSplitNoServers st in
  dns.MatchDomains dns.exSplitNoServers = ["corp.com."] /\
  is_Some (dns.nrptDB (dns.mgr st)) /\
  fst res = None /\
  dns.nrptDB (dns.mgr (snd res)) = Some (dns.mkNRPT []) /\
  ~ (exists db, dns.nrptDB (dns.mgr (snd res)) = Some db /\
                map fst (dns.rules db) = dns.MatchDomains dns.exSplitNoServers).
Proof.
  cbv zeta. split; [reflexivity|]. split; [eexists; reflexivity|].
  split; [vm_compute; reflexivity|]. split; [vm_compute; reflexivity|].
  intros (db & Hdb & Hr). vm_compute in Hdb. injection Hdb as <-. discriminate Hr.
Qed.

(** The three modes of [SetDNS] on hosts whose interface keys exist. *)
Lemma C5_SetDNS_modes_hosts :
  (let st := dns.exState (Some (dns.mkNRPT [("old.example.", ["10.0.0.1"])])) in
   let res := dns.SetDNS false dns.exPrimaryCfg st in
   (forall db, dns.nrptDB (dns.mgr (snd res)) = Some db -> dns.rules db = []) /\
   dns.value (snd res) (dns.ifPath (dns.mgr st) dns.ipv4RegBase) "NameServer" =
     Some (dns.SZ "1.1.1.1,9.9.9.9") /\
   dns.value (snd res) (dns.ifPath (dns.mgr st) dns.ipv6RegBase) "NameServer" =
     Some (dns.SZ "2606:4700::1111") /\
   dns.value (snd res) (dns.ifPath (dns.mgr st) dns.ipv4RegBase) "SearchList" =
     Some (dns.SZ "tailscale.com,universe.tf") /\
   dns.value (snd res) (dns.ifPath (dns.mgr st) dns.ipv6RegBase) "SearchList" =
     Some (dns.SZ "tailscale.com,universe.tf"))
  /\
  (let st := dns.exState (Some (dns.mkNRPT [])) in
   let res := dns.SetDNS false dns.exSplitCfg st in
   dns.nrptDB (dns.mgr (snd res)) =
     Some (dns.mkNRPT [("corp.com.", ["100.100.100.100"]);
                       ("ts.com.", ["100.100.100.100"])]) /\
   dns.value (snd res) (dns.ifPath (dns.mgr st) dns.ipv4RegBase) "NameServer" = None /\
   dns.value (snd res) (dns.ifPath (dns.mgr st) dns.ipv6RegBase) "NameServer" = None /\
   dns.value (snd res) (dns.ifPath (dns.mgr st) dns.ipv4RegBase) "SearchList" =
     Some (dns.SZ "tailscale.com") /\
   dns.value (snd res) (dns.ifPath (dns.mgr st) dns.ipv6RegBase) "SearchList" =
     Some (dns.SZ "tailscale.com"))
  /\
  (let st := dns.exState None in
   let res := dns.SetDNS false dns.exSplitCfg st in
   fst res = Some "cannot set per-domain resolvers on Windows 7" /\
   dns.nrptDB (dns.mgr (snd res)) = None /\
   forall p, dns.value (snd res) p "NameServer" = dns.value st p "NameServer" /\
             dns.value (snd res) p "SearchList" = dns.value st p "SearchList").
Proof.
  split; [|split].
  - exact (proj1 (C5_SetDNS_modes false dns.exPrimaryCfg
             (dns.exState (Some (dns.mkNRPT [("old.example.", ["10.0.0.1"])]))))
             eq_refl ltac:(vm_compute; reflexivity)).
  - exact (proj1 (proj2 (C5_SetDNS_modes false dns.exSplitCfg
             (dns.exState (Some (dns.mkNRPT [])))))
             ltac:(discriminate) ltac:(eexists; reflexivity)
             ltac:(vm_compute; reflexivity)).
  - exact (proj2 (proj2 (C5_SetDNS_modes false dns.exSplitCfg (dns.exState None)))
             ltac:(discriminate) eq_refl).
Defined.

(** * Properties of the policy compiler *)
Section PolicyCompiler.
Import dns.

(** Every row of [TestManager] holds of the compiler. *)
Lemma TestManager_rows : forallb run_row tests = true.
Proof. vm_compute. reflexivity. Qed.

Lemma Manager_Set_routes_magic (h : gmap string (list Addr)) (s : list string) :
  Manager_Set
    (mkConfig [] (upstreams [("corp.com.", ["2.2.2.2"]); ("ts.com.", [])]) s h)
    (mkFake false coffee noOS noRS) =
  Returned
    (None,
     mkFake false coffee
       (mkOSConfig [magic_ip] (append_new s ["coffee.shop."]) [])
       (resolver.mkConfig
          (upstreams [("corp.com.", ["2.2.2.2"]); (".", ["8.8.8.8"])])
          h ["ts.com."])).
Proof. vm_compute. reflexivity. Qed.

(** C6: with routes [corp.com -> 2.2.2.2] and [ts.com -> (none)], any hosts
    and any search domains that do not already list [coffee.shop], over a
    host that cannot split and whose base config has nameserver [8.8.8.8] and
    search domain [coffee.shop], setting the policy hands the configurator
    the nameserver [magic_ip] and the policy's search domains followed by
    [coffee.shop], and hands the in-daemon resolver the routes
    [corp.com -> 2.2.2.2] and ["." -> 8.8.8.8], the policy's hosts and the
    local domain [ts.com]. *)
Theorem C6_routes_magic (h : gmap string (list Addr)) (s : list string) :
  ("coffee.shop." ∉ s) ->
  Manager_Set
    (mkConfig [] (upstreams [("corp.com.", ["2.2.2.2"]); ("ts.com.", [])]) s h)
    (mkFake false (mkOSConfig (mustIPs ["8.8.8.8"]) ["coffee.shop."] []) noOS noRS) =
  Returned
    (None,
     mkFake false (mkOSConfig (mustIPs ["8.8.8.8"]) ["coffee.shop."] [])
       (mkOSConfig [magic_ip] (s ++ ["coffee.shop."]) [])
       (resolver.mkConfig
          (upstreams [("corp.com.", ["2.2.2.2"]); (".", ["8.8.8.8"])])
          h ["ts.com."])).
Proof.
  intros Hs. change (mkOSConfig (mustIPs ["8.8.8.8"]) ["coffee.shop."] []) with coffee.
  rewrite Manager_Set_routes_magic. cbn [append_new].
  rewrite bool_decide_false by assumption. reflexivity.
Qed.

End PolicyCompiler.

(** The routes-magic row of [TestManager]. *)
Lemma C6_routes_magic_row :
  ("coffee.shop." ∉ dns.ts_search) /\
  dns.Manager_Set (dns.row_in dns.routes_magic)
    (dns.mkFake false (dns.row_bs dns.routes_magic) dns.noOS dns.noRS) =
  dns.Returned
    (None,
     dns.mkFake false (dns.row_bs dns.routes_magic)
       (dns.row_os dns.routes_magic) (dns.row_rs dns.routes_magic)).
Proof.
  assert (H : ("coffee.shop." ∉ dns.ts_search)).
  { refine (bool_decide_unpack _ _). vm_compute. exact I. }
  split; [exact H|].
  exact (C6_routes_magic dns.ts_hosts dns.ts_search H).
Defined.

(** * Properties of the Local API handlers *)
Section LocalAPI.
Import localapi.

Variable version_Long : string.
Variable ParseAddr : string -> option Addr.
Variable ParseAddrPort : string -> option AddrPort.
Variable ParseInt : string -> option Z.
Variable PathUnescape : string -> option string.
Variable url_Parse : string -> bool.
Variable Quote : string -> string.
Variable runtime_Stack : string.
Variable WritePrometheusExpositionFormat : World -> string.
Variable serveProfileFunc : option (Request -> World -> World).
Variable serveCert : Handler -> LocalBackend -> Request -> World -> World.

Let serve : Handler -> Request -> World -> World :=
  ServeHTTP version_Long ParseAddr ParseAddrPort ParseInt PathUnescape url_Parse
    Quote runtime_Stack WritePrometheusExpositionFormat serveProfileFunc serveCert.

Lemma Status_http_Error msg code st :
  rw_status (rw st) = None -> Status (http_Error msg code st) = code.
Proof.
  destruct st as [[hd stt bo hj] ? ? ? ? ? ? ? ? ? ? ?]. cbn. intros ->. reflexivity.
Qed.

Lemma effects_http_Error msg code st : effects (http_Error msg code st) = effects st.
Proof. reflexivity. Qed.

Lemma body_http_Error msg code st :
  rw_body (rw (http_Error msg code st)) = rw_body (rw st) ++ [Text (msg +:+ LF)].
Proof.
  destruct st as [[hd [stt|] bo hj] ? ? ? ? ? ? ? ? ? ? ?]; reflexivity.
Qed.

Lemma body_Write c st : rw_body (rw (Write c st)) = rw_body (rw st) ++ [c].
Proof. destruct st as [[hd [stt|] bo hj] ? ? ? ? ? ? ? ? ? ? ?]; reflexivity. Qed.

Lemma body_WriteHeader code st : rw_body (rw (WriteHeader code st)) = rw_body (rw st).
Proof. destruct st as [[hd [stt|] bo hj] ? ? ? ? ? ? ? ? ? ? ?]; reflexivity. Qed.

Lemma body_writeErrorJSON err st :
  rw_body (rw (writeErrorJSON err st)) = rw_body (rw st) ++ [JSON (J_E err)].
Proof.
  unfold writeErrorJSON, Encode. rewrite body_Write, body_WriteHeader. reflexivity.
Qed.

Lemma rw_status_Header_Set k v st :
  rw_status (rw (Header_Set k v st)) = rw_status (rw st).
Proof. reflexivity. Qed.

Lemma effects_Header_Set k v st : effects (Header_Set k v st) = effects st.
Proof. reflexivity. Qed.


Let route : Handler -> LocalBackend -> Request -> World -> World :=
  dispatch ParseAddr ParseAddrPort ParseInt PathUnescape url_Parse
    Quote runtime_Stack WritePrometheusExpositionFormat serveProfileFunc serveCert.

Lemma declared_min_row r c :
  declared_min r = Some c ->
  exists row, In row handler_table /\ row_matches r row = true
              /\ row_min_cap row = Some c.
Proof.
  unfold declared_min. destruct (List.find (row_matches r) handler_table) eqn:F;
    [|discriminate].
  intros Hc. apply find_some in F. destruct F. eauto.
Qed.

Lemma files_not_file_put p :
  HasPrefix p "/localapi/v0/file-put/" = true ->
  HasPrefix p "/localapi/v0/files/" = false.
Proof.
  unfold HasPrefix. intros H.
  do 18 (destruct p as [|? p]; [discriminate H|];
         simpl in H;
         match type of H with
         | (if ?d then _ else _) = true =>
             destruct d; [subst|discriminate H]
         end).
  reflexivity.
Qed.

Ltac eval_tests :=
  repeat (simpl (HasPrefix _ _) || simpl (String.eqb _ _)); cbv iota.

Lemma declared_min_handler_min r c : declared_min r = Some c -> handler_min r = Some c.
Proof.
  unfold declared_min, handler_min.
  destruct (List.find (row_matches r) handler_table); [auto|discriminate].
Qed.

(** The handlers named in the table, for the unfolding of a dispatch. *)
Ltac gated_handlers :=
  unfold serveFiles, serveFilePut, serveWhoIs, serveGoroutines, serveProfile,
    serveStatus, serveLogout, serveLoginInteractive, servePrefs, serveCheckPrefs,
    serveCheckIPForwarding, serveBugReport, serveSetDNS, serveMetrics, serveDebug,
    serveIDToken, serveFileTargets; cbn [Method].

(** The dispatch of a request whose handler has a declared minimum the
    connection lacks is one [http.Error] with status 403, whatever the method:
    the handler returns at its capability check. *)
Lemma dispatch_denied h bk r st c :
  handler_min r = Some c -> lacks h c = true ->
  exists msg, route h bk r st = http_Error msg StatusForbidden st.
Proof.
  intros Hmin Hlack. subst route. unfold handler_min in Hmin.
  destruct r as [meth path epath auth hdr form bd cl].
  destruct (List.find (row_matches _) handler_table) as [row|] eqn:F1.
  - apply find_some in F1 as [Hin Hm].
    unfold row_matches in Hm. cbn [Path Method] in Hm.
    apply andb_true_iff in Hm as [Hp Hmeth].
    unfold handler_table in Hin. cbn [In] in Hin.
    repeat match type of Hin with _ \/ _ => destruct Hin as [Hin|Hin] end;
      try contradiction; subst row;
      cbn [row_min_cap] in Hmin; try discriminate Hmin; injection Hmin as <-;
      cbn [row_prefix row_path row_methods] in Hp, Hmeth;
      cbv [String.append] in Hp;
      unfold lacks in Hlack; unfold dispatch; cbn [Path].
    all: try (apply String.eqb_eq in Hp; subst path; eval_tests).
    all: try (rewrite (files_not_file_put _ Hp)).
    all: try (rewrite Hp).
    all: gated_handlers.
    all: try (rewrite Hlack; eexists; reflexivity).
    (* PATCH /prefs: the read check comes first *)
    destruct (negb (PermitRead h)); [eexists; reflexivity|].
    cbn [existsb] in Hmeth. rewrite orb_false_r in Hmeth. rewrite Hmeth, Hlack.
    eexists; reflexivity.
  - destruct (List.find (path_matches _) handler_table) as [row|] eqn:F2;
      [|discriminate].
    pose proof F2 as F2'. apply find_some in F2' as [Hin Hp].
    unfold path_matches in Hp. cbn [Path] in Hp.
    unfold handler_table in Hin. cbn [In] in Hin.
    repeat match type of Hin with _ \/ _ => destruct Hin as [Hin|Hin] end;
      try contradiction; subst row;
      cbn [row_min_cap] in Hmin; try discriminate Hmin; injection Hmin as <-;
      cbn [row_prefix row_path] in Hp;
      cbv [String.append] in Hp;
      unfold lacks in Hlack; unfold dispatch; cbn [Path].
    all: try (apply String.eqb_eq in Hp; subst path; eval_tests).
    all: try (rewrite (files_not_file_put _ Hp)).
    all: try (rewrite Hp).
    all: gated_handlers.
    all: try (rewrite Hlack; eexists; reflexivity).
    (* the row of PATCH /prefs is not the first row of its path *)
    exfalso. vm_compute in F2. discriminate F2.
Qed.

(** C1 (as amended): on a fresh response writer, with [st1] the world after
    the version header is set:
    - a handler without a backend answers 500 with one [http.Error];
    - when a password is required, a request without credentials is answered
      401 and one with a wrong password 403, each with one [http.Error];
    - a request whose handler has a declared minimum capability that the
      connection lacks, whatever its method, is answered with one
      [http.Error] on [st1], of status 401 or 403; when the password check
      passes the status is 403, sent by the handler itself.
    In all these cases the world is that one error reply and nothing else:
    nothing more is written to the response, no backend method is called and
    the preferences, metrics, log and connection are as before. *)
Theorem C1_capability_gate (h : Handler) (r : Request) (st : World) :
  rw_status (rw st) = None ->
  let st1 := Header_Set "Tailscale-Version" version_Long st in
  (b h = None ->
     serve h r st = http_Error "server has no local backend" 500 st /\
     Status (serve h r st) = 500 /\ effects (serve h r st) = effects st)
  /\
  (b h <> None -> RequiredPassword h <> "" -> BasicAuth r = None ->
     serve h r st = http_Error "auth required" 401 st1 /\
     Status (serve h r st) = 401 /\ effects (serve h r st) = effects st)
  /\
  (b h <> None -> RequiredPassword h <> "" ->
     forall user pass, BasicAuth r = Some (user, pass) -> pass <> RequiredPassword h ->
     serve h r st = http_Error "bad password" 403 st1 /\
     Status (serve h r st) = 403 /\ effects (serve h r st) = effects st)
  /\
  (forall c, handler_min r = Some c -> lacks h c = true -> b h <> None ->
     (Status (serve h r st) = 401 \/ Status (serve h r st) = 403) /\
     effects (serve h r st) = effects st /\
     (exists msg code, serve h r st = http_Error msg code st1) /\
     (RequiredPassword h = "" \/
      (exists user, BasicAuth r = Some (user, RequiredPassword h)) ->
      Status (serve h r st) = 403 /\
      exists msg, serve h r st = http_Error msg 403 st1)).
Proof.
  intros Hfresh. cbv zeta. subst serve. unfold ServeHTTP.
  destruct (b h) as [bk|] eqn:Hb.
  2:{ split; [intros _; split; [reflexivity|];
              split; [apply Status_http_Error; assumption|reflexivity]|].
      split; [|split]; intros; congruence. }
  assert (Hfresh1 : rw_status (rw (Header_Set "Tailscale-Version" version_Long st)) = None)
    by exact Hfresh.
  assert (Heff : effects (Header_Set "Tailscale-Version" version_Long st) = effects st)
    by reflexivity.
  revert Hfresh1 Heff. generalize (Header_Set "Tailscale-Version" version_Long st).
  intros st1 Hfresh1 Heff. rewrite <- Heff.
  split; [intros; congruence|].
  split; [|split].
  - intros _ Hpw Hauth. rewrite Hauth.
    destruct (String.eqb (RequiredPassword h) "") eqn:E;
      [apply String.eqb_eq in E; congruence|].
    cbn [negb]. split; [reflexivity|].
    split; [apply Status_http_Error; assumption | reflexivity].
  - intros _ Hpw user pass Hauth Hne. rewrite Hauth.
    destruct (String.eqb (RequiredPassword h) "") eqn:E;
      [apply String.eqb_eq in E; congruence|].
    destruct (String.eqb pass (RequiredPassword h)) eqn:E2;
      [apply String.eqb_eq in E2; congruence|].
    cbn [negb]. split; [reflexivity|].
    split; [apply Status_http_Error; assumption | reflexivity].
  - intros c Hmin Hlack _.
    destruct (dispatch_denied h bk r st1 c Hmin Hlack) as [msg Hd].
    subst route.
    assert (Hs : Status (http_Error msg StatusForbidden st1) = 403)
      by (apply Status_http_Error; assumption).
    destruct (String.eqb (RequiredPassword h) "") eqn:E; cbn [negb].
    { rewrite Hd. split; [right; exact Hs|]. split; [reflexivity|].
      split; [exists msg, StatusForbidden; reflexivity|].
      intros _. split; [exact Hs | exists msg; reflexivity]. }
    apply String.eqb_neq in E.
    destruct (BasicAuth r) as [[user pass]|].
    + destruct (String.eqb pass (RequiredPassword h)) eqn:E2; cbn [negb].
      * rewrite Hd. split; [right; exact Hs|]. split; [reflexivity|].
        split; [exists msg, StatusForbidden; reflexivity|].
        intros _. split; [exact Hs | exists msg; reflexivity].
      * apply String.eqb_neq in E2.
        split; [right; apply Status_http_Error; assumption|].
        split; [reflexivity|].
        split; [exists "bad password", StatusForbidden; reflexivity|].
        intros [Hpw|[user' Hu]]; [congruence|].
        injection Hu as _ Hu. congruence.
    + split; [left; apply Status_http_Error; assumption|].
      split; [reflexivity|].
      split; [exists "auth required", StatusUnauthorized; reflexivity|].
      intros [Hpw|[user' Hu]]; [congruence|discriminate Hu].
Qed.

(** The "missing 'type' parameter" answer of [servePing] is dead code: no
    request makes the handler write it. *)
Lemma servePing_type_branch_dead (h : Handler) (bk : LocalBackend) (r : Request)
    (st : World) :
  rw_body (rw (servePing ParseAddr h bk r st)) <>
  rw_body (rw st) ++ [Text ("missing 'type' parameter" +:+ LF)].
Proof.
  unfold servePing.
  destruct (negb (String.eqb (Method r) "POST"));
    [rewrite body_http_Error; intros H; apply app_inv_head in H; discriminate H|].
  destruct (String.eqb (FormValue r "ip") "");
    [rewrite body_http_Error; intros H; apply app_inv_head in H; discriminate H|].
  destruct (ParseAddr (FormValue r "ip")) as [ip|];
    [|rewrite body_http_Error; intros H; apply app_inv_head in H; discriminate H].
  destruct (b_Ping bk ip (FormValue r "type")) as [err|res].
  - rewrite body_writeErrorJSON. intros H; apply app_inv_head in H; discriminate H.
  - unfold Encode. rewrite body_Write. intros H; apply app_inv_head in H; discriminate H.
Qed.

(** C10: a POST to the ping handler with a non-empty, valid [ip] and an
    empty [type] is not rejected: the backend's [Ping] is called, once, with
    the empty ping type, and the response is the result of that call (200) or
    its error (500), not the 400 of a missing parameter. *)
Theorem C10_ping_type_unchecked (h : Handler) (bk : LocalBackend) (r : Request)
    (st : World) (ip : Addr) :
  Method r = "POST" ->
  FormValue r "ip" <> "" ->
  ParseAddr (FormValue r "ip") = Some ip ->
  FormValue r "type" = "" ->
  rw_status (rw st) = None ->
  let st' := servePing ParseAddr h bk r st in
  calls st' = calls st ++ [Call_Ping ip ""] /\
  rw_body (rw st') =
    rw_body (rw st) ++
      [JSON (match b_Ping bk ip "" with inl err => J_E err | inr res => J_text res end)] /\
  Status st' = match b_Ping bk ip "" with inl _ => 500 | inr _ => 200 end.
Proof.
  intros Hm Hip Hparse Hty Hfresh. cbv zeta. unfold servePing.
  rewrite Hm, Hparse, Hty.
  destruct (String.eqb (FormValue r "ip") "") eqn:E;
    [apply String.eqb_eq in E; contradiction|].
  change (String.eqb "POST" "POST") with true. cbv iota. cbn [negb].
  destruct st as [[hd stt bo hj] ? ? ? ? ? ? ? ? ? ? ?]. cbn in Hfresh. subst stt.
  destruct (b_Ping bk ip "") as [err|res]; cbn; auto.
Qed.

Lemma EncodeToString_length (l : list Z) :
  String.length (EncodeToString l) = (2 * length l)%nat.
Proof. induction l as [|x l IH]; cbn [EncodeToString String.length length]; lia. Qed.

Lemma hexdigit_is_hex (n : Z) : is_hex (hexdigit n) = true.
Proof.
  unfold hexdigit. generalize (Z.to_nat n). intros k.
  do 17 (destruct k as [|k]; [reflexivity|]). reflexivity.
Qed.

Lemma EncodeToString_hex (l : list Z) :
  forallb is_hex (list_ascii_of_string (EncodeToString l)) = true.
Proof.
  induction l as [|x l IH]; [reflexivity|].
  cbn [EncodeToString list_ascii_of_string forallb].
  rewrite !hexdigit_is_hex, IH. reflexivity.
Qed.

(** C8 (as amended): for a connection that may read, the bug-report handler
    answers 200 with the plain-text body [BUG-<logID>-<UTC>-<hex>] and a line
    feed, where [<logID>] is the backend log id, [<UTC>] the current UTC time
    as [20060102150405Z] and [<hex>] the hex encoding of 8 random bytes, that
    is 16 hex digits; it logs the marker, and after it the note when the note
    is not empty; no backend method is called. *)
Theorem C8_bugreport_marker (h : Handler) (r : Request) (st : World) :
  PermitRead h = true ->
  rw_status (rw st) = None ->
  let st' := serveBugReport h r st in
  let hex := EncodeToString (map (fun i => entropy st (consumed st + i)%nat) (seq 0 8)) in
  let marker :=
    "BUG-" +:+ backendLogID h +:+ "-" +:+ Format_20060102150405Z (now st)
    +:+ "-" +:+ hex in
  String.length hex = 16%nat /\
  forallb is_hex (list_ascii_of_string hex) = true /\
  rw_body (rw st') = rw_body (rw st) ++ [Text (marker +:+ LF)] /\
  rw_header (rw st') !! "Content-Type" = Some "text/plain" /\
  Status st' = 200 /\
  logs st' = logs st ++ ["user bugreport: " +:+ marker] ++
             (if String.eqb (FormValue r "note") "" then []
              else ["user bugreport note: " +:+ FormValue r "note"]) /\
  calls st' = calls st.
Proof.
  intros Hread Hfresh. cbv zeta.
  split; [rewrite EncodeToString_length, length_map, length_seq; reflexivity|].
  split; [apply EncodeToString_hex|].
  unfold serveBugReport, randHex. rewrite Hread. cbn [negb].
  destruct st as [[hd stt bo hj] ? ? ? ? ? ? ? ? ? ? ?]. cbn in Hfresh. subst stt.
  destruct (FormValue r "note") as [|c note]; cbn;
    rewrite ?lookup_insert_eq, <- ?app_assoc; auto.
Qed.

(** C7: a POST to the dial handler, on a fresh response writer.
    - Without ["upgrade"] in [Connection] or without [Upgrade: ts-dial] the
      answer is 400; without [Dial-Host] or [Dial-Port] it is 400; in both
      cases the backend's dialer is not called and the connection stays with
      the server.
    - When the backend's dial fails the answer is 502 and the connection
      stays with the server.
    - The answer is 101 only after the backend's dial succeeded, and then it
      carries [Upgrade: ts-dial] and [Connection: upgrade].
    - Whenever the answer is not 101 it is 400 or 502 and the connection is
      not turned into a pipe. *)
Theorem C7_dial_failures (h : Handler) (bk : LocalBackend) (r : Request) (st : World) :
  Method r = "POST" ->
  rw_status (rw st) = None ->
  let st' := serveDial h bk r st in
  let addr := JoinHostPort (Header_Get r "Dial-Host") (Header_Get r "Dial-Port") in
  ((Contains (Header_Get r "Connection") "upgrade" = false \/
    Header_Get r "Upgrade" <> "ts-dial") ->
     Status st' = 400 /\ calls st' = calls st /\ conn st' = conn st)
  /\
  ((Header_Get r "Dial-Host" = "" \/ Header_Get r "Dial-Port" = "") ->
     Status st' = 400 /\ calls st' = calls st /\ conn st' = conn st)
  /\
  (forall err,
     Contains (Header_Get r "Connection") "upgrade" = true ->
     Header_Get r "Upgrade" = "ts-dial" ->
     Header_Get r "Dial-Host" <> "" -> Header_Get r "Dial-Port" <> "" ->
     is_Some (rw_hijacker (rw st)) ->
     b_UserDial bk "tcp" addr = inl err ->
     Status st' = 502 /\ calls st' = calls st ++ [Call_UserDial "tcp" addr] /\
     conn st' = conn st)
  /\
  (Status st' = 101 ->
     (exists outConn, b_UserDial bk "tcp" addr = inr outConn) /\
     calls st' = calls st ++ [Call_UserDial "tcp" addr] /\
     rw_header (rw st') !! "Upgrade" = Some "ts-dial" /\
     rw_header (rw st') !! "Connection" = Some "upgrade")
  /\
  (Status st' <> 101 ->
     (Status st' = 400 \/ Status st' = 502) /\ conn st' = conn st).
Proof.
  clear serve route version_Long ParseAddr ParseAddrPort ParseInt PathUnescape url_Parse
    Quote runtime_Stack WritePrometheusExpositionFormat serveProfileFunc serveCert.
  intros Hm Hfresh. cbv zeta. unfold serveDial. rewrite Hm.
  change (negb (String.eqb "POST" "POST")) with false. cbv iota.
  destruct st as [[hd stt bo hj] ? ? ? ? ? ? ? ? ? ? ?]. cbn in Hfresh. subst stt.
  cbn [rw rw_hijacker].
  destruct (Contains (Header_Get r "Connection") "upgrade") eqn:EC; cbn [negb orb].
  2:{ cbn. repeat split; auto; try discriminate; intros; try discriminate;
      intuition congruence. }
  destruct (String.eqb (Header_Get r "Upgrade") upgradeProto) eqn:EU; cbn [negb].
  2:{ apply String.eqb_neq in EU. cbn. repeat split; auto; intros;
      try discriminate; try (unfold upgradeProto in EU; congruence);
      intuition congruence. }
  apply String.eqb_eq in EU.
  destruct (String.eqb (Header_Get r "Dial-Host") "") eqn:EH; cbn [orb].
  { apply String.eqb_eq in EH. cbn. repeat split; auto; intros;
      try discriminate; intuition congruence. }
  apply String.eqb_neq in EH.
  destruct (String.eqb (Header_Get r "Dial-Port") "") eqn:EP.
  { apply String.eqb_eq in EP. cbn. repeat split; auto; intros;
      try discriminate; intuition congruence. }
  apply String.eqb_neq in EP.
  destruct hj as [[hijackErr flushErr]|].
  2:{ cbn. repeat split; auto; intros; try discriminate;
      try (unfold upgradeProto in EU; intuition congruence);
      match goal with H : is_Some None |- _ => destruct H; discriminate | _ => idtac end;
      intuition congruence. }
  destruct (b_UserDial bk "tcp"
              (JoinHostPort (Header_Get r "Dial-Host") (Header_Get r "Dial-Port")))
    as [err|outConn] eqn:ED.
  { cbn. repeat split; auto; intros; try discriminate;
      try (unfold upgradeProto in EU; intuition congruence). }
  destruct hijackErr as [e|]; [|destruct flushErr as [e|]]; cbn;
    repeat split; eauto; intros; try discriminate;
    try (unfold upgradeProto in EU; intuition congruence);
    try (rewrite lookup_insert_ne by discriminate; apply lookup_insert_eq);
    try apply lookup_insert_eq; try congruence.
Qed.

(** C4: a PATCH of the preferences, on a fresh response writer.
    - Whatever the request, an answer outside 200..299 leaves the backend's
      preferences equal to their value before the call.
    - A body that does not decode as [MaskedPrefs] is answered 400 without
      calling the backend.
    - A patch the backend's validation rejects is answered 400 with the JSON
      body [{Error}] and leaves the preferences as they were.
    - A patch that validates is answered 200 with the new, full preferences,
      which are the old ones with the patch applied. *)
Theorem C4_prefs_patch (h : Handler) (bk : LocalBackend) (r : Request) (st : World) :
  Method r = "PATCH" ->
  rw_status (rw st) = None ->
  let st' := servePrefs h bk r st in
  ((Status st' < 200 \/ 300 <= Status st') -> prefs st' = prefs st)
  /\
  (forall err,
     PermitRead h = true -> PermitWrite h = true ->
     Decode_MaskedPrefs (body r) = inl err ->
     Status st' = 400 /\ calls st' = calls st /\ prefs st' = prefs st)
  /\
  (forall mp err,
     PermitRead h = true -> PermitWrite h = true ->
     Decode_MaskedPrefs (body r) = inr mp ->
     b_CheckPrefs bk (ApplyEdits mp (prefs st)) = Some err ->
     Status st' = 400 /\
     rw_body (rw st') = rw_body (rw st) ++ [JSON (J_resJSON err)] /\
     rw_header (rw st') !! "Content-Type" = Some "application/json" /\
     prefs st' = prefs st)
  /\
  (forall mp,
     PermitRead h = true -> PermitWrite h = true ->
     Decode_MaskedPrefs (body r) = inr mp ->
     b_CheckPrefs bk (ApplyEdits mp (prefs st)) = None ->
     Status st' = 200 /\
     prefs st' = ApplyEdits mp (prefs st) /\
     rw_body (rw st') = rw_body (rw st) ++ [JSON (J_Prefs (ApplyEdits mp (prefs st)))] /\
     rw_header (rw st') !! "Content-Type" = Some "application/json").
Proof.
  intros Hm Hfresh. cbv zeta. unfold servePrefs, EditPrefs. rewrite Hm.
  change (String.eqb "PATCH" "PATCH") with true. cbv iota.
  destruct st as [[hd stt bo hj] pf ? ? ? ? ? ? ? ? ? ?]. cbn in Hfresh. subst stt.
  cbn [prefs call].
  destruct (PermitRead h); cbn [negb];
    [|cbn; repeat split; intros; discriminate].
  destruct (PermitWrite h); cbn [negb];
    [|cbn; repeat split; intros; discriminate].
  destruct (Decode_MaskedPrefs (body r)) as [err|mp].
  { cbn. repeat split; intros; try discriminate; reflexivity. }
  destruct (b_CheckPrefs bk (ApplyEdits mp pf)) as [err|] eqn:EC.
  - cbn. repeat split; intros; simplify_eq; try reflexivity;
      try apply lookup_insert_eq; try congruence.
  - cbn. repeat split; intros; simplify_eq; try reflexivity;
      try apply lookup_insert_eq; try congruence.
    unfold Status in *. cbn in *. lia.
Qed.

Lemma uploadLoop_app (l1 l2 : list clientMetricJSON) (st : World) :
  uploadLoop (l1 ++ l2) st =
    match uploadLoop l1 st with
    | (Finished, st1) => uploadLoop l2 st1
    | other => other
    end.
Proof.
  revert st. induction l1 as [|m l1 IH]; intros st; [reflexivity|].
  cbn [app uploadLoop].
  destruct (metrics st !! Name m); [apply IH|].
  destruct (HasPublished (Name m) st); [reflexivity|].
  destruct (String.eqb (Type_ m) "counter");
    [|destruct (String.eqb (Type_ m) "gauge"); [|reflexivity]].
  - destruct (NewMetric (Name m) TypeCounter st) as [[ptr|] st1]; [apply IH|reflexivity].
  - destruct (NewMetric (Name m) TypeGauge st) as [[ptr|] st1]; [apply IH|reflexivity].
Qed.

Lemma rw_Metric_Add ptr n st : rw (Metric_Add ptr n st) = rw st.
Proof. unfold Metric_Add. destruct (heap st !! ptr); reflexivity. Qed.

Lemma rw_NewMetric name typ st : rw (snd (NewMetric name typ st)) = rw st.
Proof. unfold NewMetric. destruct (HasPublished name st); reflexivity. Qed.

Lemma uploadLoop_rw (l : list clientMetricJSON) (st : World) :
  rw (snd (uploadLoop l st)) = rw st.
Proof.
  revert st. induction l as [|m l IH]; intros st; [reflexivity|].
  cbn [uploadLoop].
  destruct (metrics st !! Name m); [rewrite IH; apply rw_Metric_Add|].
  destruct (HasPublished (Name m) st); [reflexivity|].
  assert (Hnew : forall t,
    rw (snd (match NewMetric (Name m) t st with
             | (None, st0) => (Panics, panic ("duplicate metric " +:+ Name m) st0)
             | (Some metric, st0) =>
                 uploadLoop l (Metric_Add metric (wrap64 (Value m))
                                 (set_metrics (<[Name m := metric]> (metrics st0)) st0))
             end)) = rw st).
  { intros t. pose proof (rw_NewMetric (Name m) t st) as Hn.
    destruct (NewMetric (Name m) t st) as [[ptr|] st1]; cbn [snd] in *.
    - rewrite IH, rw_Metric_Add. exact Hn.
    - exact Hn. }
  destruct (String.eqb (Type_ m) "counter"); [apply Hnew|].
  destruct (String.eqb (Type_ m) "gauge"); [apply Hnew|reflexivity].
Qed.

Lemma metric_state_http_Error msg code st :
  metric_state (http_Error msg code st) = metric_state st.
Proof. reflexivity. Qed.

Lemma wrap64_add_r a x : wrap64 (a + wrap64 x) = wrap64 (a + x).
Proof.
  unfold wrap64.
  replace (a + ((x + 2 ^ 63) mod 2 ^ 64 - 2 ^ 63) + 2 ^ 63)
    with (a + (x + 2 ^ 63) mod 2 ^ 64) by lia.
  rewrite Z.add_mod_idemp_r by lia. do 2 f_equal. lia.
Qed.

Lemma HasPublished_registry n st :
  HasPublished n st = bool_decide (n ∈ reg_names (registry_of st)).
Proof.
  unfold HasPublished, registry_of. cbn [reg_names].
  apply bool_decide_ext. symmetry. apply elem_of_dom.
Qed.

Lemma uploaded_lookup st n :
  reg_uploaded (registry_of st) !! n =
  metrics st !! n ≫= fun ptr => (fun m => (metric_typ m, metric_v m)) <$> heap st !! ptr.
Proof. unfold registry_of. cbn [reg_uploaded]. apply lookup_omap. Qed.

Lemma registry_ext (R : MetricRegistry) names up :
  reg_names R = names -> reg_uploaded R = up -> R = mkRegistry names up.
Proof. destruct R. cbn. intros -> ->. reflexivity. Qed.

Lemma registry_hit st n p x :
  upload_wf st -> metrics st !! n = Some p ->
  exists k v,
    reg_uploaded (registry_of st) !! n = Some (k, v) /\
    registry_of (Metric_Add p x st) =
      mkRegistry (reg_names (registry_of st))
        (<[n := (k, wrap64 (v + x))]> (reg_uploaded (registry_of st))) /\
    upload_wf (Metric_Add p x st).
Proof.
  intros [Hval Hinj] Hn.
  destruct (lookup_lt_is_Some_2 (heap st) p (Hval _ _ Hn)) as [mt Hmt].
  exists (metric_typ mt), (metric_v mt).
  split; [rewrite uploaded_lookup, Hn; cbn; rewrite Hmt; reflexivity|].
  unfold Metric_Add. rewrite Hmt.
  split.
  - apply registry_ext; [reflexivity|].
    apply map_eq. intros n'. rewrite uploaded_lookup.
    cbn [metrics heap set_heap].
    destruct (decide (n' = n)) as [->|Hne].
    + rewrite lookup_insert_eq, Hn. cbn [mbind option_bind].
      rewrite list_lookup_insert_eq by (eapply Hval; eassumption). reflexivity.
    + rewrite lookup_insert_ne by congruence. rewrite uploaded_lookup.
      destruct (metrics st !! n') as [p'|] eqn:Hn'; [|reflexivity].
      cbn [mbind option_bind].
      rewrite list_lookup_insert_ne; [reflexivity|].
      intros ->. apply Hne. eapply Hinj; eassumption.
  - split; cbn [metrics heap set_heap].
    + intros n' p' H'. rewrite length_insert. eapply Hval; eassumption.
    + exact Hinj.
Qed.

Lemma registry_new st n k x :
  upload_wf st -> metrics st !! n = None ->
  let ptr := length (heap st) in
  let st1 := set_published (<[n := ptr]> (published st))
               (set_heap (heap st ++ [mkMetric n k 0]) st) in
  let st2 := Metric_Add ptr x (set_metrics (<[n := ptr]> (metrics st1)) st1) in
  registry_of st2 =
    mkRegistry ({[n]} ∪ reg_names (registry_of st))
      (<[n := (k, wrap64 (0 + x))]> (reg_uploaded (registry_of st))) /\
  upload_wf st2.
Proof.
  intros [Hval Hinj] Hn. cbv zeta.
  unfold Metric_Add. cbn [heap set_metrics set_published set_heap metrics].
  rewrite lookup_app_r by lia. rewrite Nat.sub_diag. cbn [lookup list_lookup].
  cbn [metric_name metric_typ metric_v].
  split.
  - apply registry_ext.
    + unfold registry_of. cbn [reg_names published set_heap set_metrics set_published]. apply dom_insert_L.
    + apply map_eq. intros n'. rewrite uploaded_lookup.
      cbn [metrics heap set_heap set_metrics set_published].
      destruct (decide (n' = n)) as [->|Hne].
      * rewrite !lookup_insert_eq. cbn [mbind option_bind].
        rewrite list_lookup_insert_eq by (rewrite length_app; cbn; lia). reflexivity.
      * rewrite !lookup_insert_ne by congruence. rewrite uploaded_lookup.
        destruct (metrics st !! n') as [p'|] eqn:Hn'; [|reflexivity].
        cbn [mbind option_bind].
        pose proof (Hval _ _ Hn') as Hlt.
        rewrite list_lookup_insert_ne by lia.
        rewrite lookup_app_l by lia. reflexivity.
  - split; cbn [metrics heap set_heap set_metrics set_published].
    + intros n' p'. rewrite length_insert, length_app. cbn [length].
      destruct (decide (n' = n)) as [->|Hne].
      * rewrite lookup_insert_eq. intros [= <-]. lia.
      * rewrite lookup_insert_ne by congruence. intros H'.
        pose proof (Hval _ _ H'). lia.
    + intros n1 n2 p'.
      destruct (decide (n1 = n)) as [->|H1], (decide (n2 = n)) as [->|H2];
        rewrite ?lookup_insert_eq, ?lookup_insert_ne by congruence.
      * reflexivity.
      * intros [= <-] H'. pose proof (Hval _ _ H'). lia.
      * intros H' [= <-]. pose proof (Hval _ _ H'). lia.
      * apply Hinj.
Qed.

Lemma Status_Write_fresh c st : rw_status (rw st) = None -> Status (Write c st) = 200.
Proof.
  destruct st as [[hd stt bo hj] ? ? ? ? ? ? ? ? ? ? ?]. cbn. intros ->. reflexivity.
Qed.

Lemma uploadLoop_refines (l : list clientMetricJSON) : forall st,
  upload_wf st ->
  upload_wf (snd (uploadLoop l st)) /\
  registry_of (snd (uploadLoop l st)) = snd (registry_upload l (registry_of st)) /\
  fst (uploadLoop l st) =
    match fst (registry_upload l (registry_of st)) with
    | None => Finished
    | Some msg => BadRequest msg
    end.
Proof.
  induction l as [|m l IH]; intros st Hwf; [auto|].
  cbn [uploadLoop registry_upload]. unfold registry_entry.
  destruct (metrics st !! Name m) as [p|] eqn:Hm.
  - destruct (registry_hit st (Name m) p (wrap64 (Value m)) Hwf Hm)
      as (k & v & Hup & Hreg & Hwf').
    rewrite Hup. rewrite wrap64_add_r in Hreg. rewrite <- Hreg. apply IH. exact Hwf'.
  - rewrite uploaded_lookup, Hm. cbn [mbind option_bind].
    rewrite <- HasPublished_registry.
    destruct (HasPublished (Name m) st) eqn:Hpub; [auto|].
    unfold kind_of.
    assert (Hnew : forall k,
      let res :=
        match NewMetric (Name m) k st with
        | (None, st0) => (Panics, panic ("duplicate metric " +:+ Name m) st0)
        | (Some metric, st0) =>
            uploadLoop l (Metric_Add metric (wrap64 (Value m))
                            (set_metrics (<[Name m := metric]> (metrics st0)) st0))
        end in
      let R' := mkRegistry ({[Name m]} ∪ reg_names (registry_of st))
                  (<[Name m := (k, wrap64 (Value m))]> (reg_uploaded (registry_of st))) in
      upload_wf (snd res) /\
      registry_of (snd res) = snd (registry_upload l R') /\
      fst res = match fst (registry_upload l R') with
                | None => Finished
                | Some msg => BadRequest msg
                end).
    { intros k. cbv zeta. unfold NewMetric. rewrite Hpub.
      destruct (registry_new st (Name m) k (wrap64 (Value m)) Hwf Hm) as (Hreg & Hwf').
      rewrite wrap64_add_r, Z.add_0_l in Hreg. rewrite <- Hreg. apply IH. exact Hwf'. }
    destruct (String.eqb (Type_ m) "counter"); [apply Hnew|].
    destruct (String.eqb (Type_ m) "gauge"); [apply Hnew|auto].
Qed.

Lemma registry_upload_app (l1 l2 : list clientMetricJSON) (R : MetricRegistry) :
  registry_upload (l1 ++ l2) R =
    match registry_upload l1 R with
    | (None, R1) => registry_upload l2 R1
    | other => other
    end.
Proof.
  revert R. induction l1 as [|m l1 IH]; intros R; [reflexivity|].
  cbn [app registry_upload]. destruct (registry_entry m R); [reflexivity|apply IH].
Qed.

Lemma upload_wf_same st st' :
  heap st' = heap st -> metrics st' = metrics st -> upload_wf st -> upload_wf st'.
Proof. unfold upload_wf. intros -> ->. auto. Qed.

(** C2 (as amended): an upload on a world whose table of uploaded names is in
    order, read against the registry of section 4.I. The handler applies the
    entries one after the other, each on the registry its predecessors left
    ([registry_upload]).
    - When no entry is rejected the answer is 200 with the body [{}], and the
      registry is the one in which every entry has been registered or added.
    - Otherwise the answer is 400 with the message of the first rejected
      entry, and the registry is the one its predecessors left: what they
      registered and added stays, and the entries after it are not applied.
    - An entry is rejected when the upload API registered no metric of its
      name and the name is taken or the type is neither ["counter"] nor
      ["gauge"].
    The table of uploaded names is in order afterwards. *)
Theorem C2_upload_in_order (h : Handler) (r : Request) (st : World)
    (l : list clientMetricJSON) :
  Method r = "POST" ->
  rw_status (rw st) = None ->
  Decode_clientMetrics (body r) = inr l ->
  upload_wf st ->
  let st' := serveUploadClientMetrics h r st in
  upload_wf st' /\
  match registry_upload l (registry_of st) with
  | (None, R') =>
      Status st' = 200 /\
      rw_body (rw st') = rw_body (rw st) ++ [JSON J_empty] /\
      registry_of st' = R'
  | (Some msg, R') =>
      Status st' = 400 /\
      rw_body (rw st') = rw_body (rw st) ++ [Text (msg +:+ LF)] /\
      registry_of st' = R'
  end /\
  (forall pre m post R1,
     l = pre ++ m :: post ->
     registry_upload pre (registry_of st) = (None, R1) ->
     reg_uploaded R1 !! Name m = None ->
     (Name m ∈ reg_names R1 \/ (Type_ m <> "counter" /\ Type_ m <> "gauge")) ->
     Status st' = 400 /\ registry_of st' = R1).
Proof.
  intros Hm Hfresh Hd Hwf. cbv zeta.
  assert (Hmain :
    upload_wf (serveUploadClientMetrics h r st) /\
    match registry_upload l (registry_of st) with
    | (None, R') =>
        Status (serveUploadClientMetrics h r st) = 200 /\
        rw_body (rw (serveUploadClientMetrics h r st)) =
          rw_body (rw st) ++ [JSON J_empty] /\
        registry_of (serveUploadClientMetrics h r st) = R'
    | (Some msg, R') =>
        Status (serveUploadClientMetrics h r st) = 400 /\
        rw_body (rw (serveUploadClientMetrics h r st)) =
          rw_body (rw st) ++ [Text (msg +:+ LF)] /\
        registry_of (serveUploadClientMetrics h r st) = R'
    end).
  { unfold serveUploadClientMetrics. rewrite Hm, Hd.
    change (negb (String.eqb "POST" "POST")) with false. cbv iota.
    destruct (uploadLoop_refines l st Hwf) as (Hwf' & Hreg & Hex).
    pose proof (uploadLoop_rw l st) as Hrw.
    destruct (uploadLoop l st) as [ex st2]. cbn [fst snd] in *.
    assert (Hf2 : rw_status (rw st2) = None) by (rewrite Hrw; exact Hfresh).
    destruct (registry_upload l (registry_of st)) as [[msg|] R'];
      cbn [fst snd] in *; subst ex.
    - split; [eapply upload_wf_same; [| |exact Hwf']; reflexivity|].
      split; [apply Status_http_Error; exact Hf2|].
      split; [rewrite body_http_Error, Hrw; reflexivity | exact Hreg].
    - split; [eapply upload_wf_same; [| |exact Hwf']; reflexivity|].
      split; [apply Status_Write_fresh; exact Hf2|].
      split; [unfold Encode; rewrite body_Write; rewrite <- Hrw; reflexivity
             | exact Hreg]. }
  destruct Hmain as (Hwf' & Hres). split; [exact Hwf'|]. split; [exact Hres|].
  intros pre m post R1 -> Hpre Hnone Hbad.
  change (pre ++ m :: post) with (pre ++ [m] ++ post) in Hres.
  rewrite registry_upload_app, Hpre in Hres.
  cbn [app registry_upload] in Hres. unfold registry_entry in Hres.
  rewrite Hnone in Hres.
  destruct (bool_decide (Name m ∈ reg_names R1)) eqn:Hin.
  - destruct Hres as (Hs & _ & Hr). auto.
  - destruct Hbad as [Hbad|[Hc Hg]];
      [apply bool_decide_eq_false in Hin; contradiction|].
    unfold kind_of in Hres. apply String.eqb_neq in Hc, Hg. rewrite Hc, Hg in Hres.
    destruct Hres as (Hs & _ & Hr). auto.
Qed.

(** C3 (as amended): an entry of an upload, met on the state [st1] the
    entries before it left.
    - When its name is in the table of uploaded metrics, its value is added
      to that metric, whose kind stays as registered, whatever type the entry
      carries; the loop goes on.
    - When its name is not in that table but is published (a metric created
      by code), the answer is 400 "Already have a metric named ..." and the
      metrics are as the entries before it left them. *)
Theorem C3_upload_existing_name (h : Handler) (r : Request) (st st1 : World)
    (pre post : list clientMetricJSON) (m : clientMetricJSON) :
  Method r = "POST" ->
  rw_status (rw st) = None ->
  Decode_clientMetrics (body r) = inr (pre ++ m :: post) ->
  uploadLoop pre st = (Finished, st1) ->
  (forall ptr old,
     metrics st1 !! Name m = Some ptr -> heap st1 !! ptr = Some old ->
     let st2 := Metric_Add ptr (wrap64 (Value m)) st1 in
     uploadLoop (pre ++ m :: post) st = uploadLoop post st2 /\
     heap st2 =
       <[ptr := mkMetric (metric_name old) (metric_typ old)
                  (wrap64 (metric_v old + wrap64 (Value m)))]> (heap st1) /\
     published st2 = published st1 /\ metrics st2 = metrics st1)
  /\
  (metrics st1 !! Name m = None -> HasPublished (Name m) st1 = true ->
     let st' := serveUploadClientMetrics h r st in
     Status st' = 400 /\
     rw_body (rw st') =
       rw_body (rw st) ++ [Text ("Already have a metric named " +:+ Name m +:+ LF)] /\
     metric_state st' = metric_state st1).
Proof.
  intros Hm Hfresh Hd Hl. split.
  - intros ptr old Hptr Hold. cbv zeta.
    change (pre ++ m :: post) with (pre ++ [m] ++ post).
    rewrite uploadLoop_app, Hl. cbn [app uploadLoop]. rewrite Hptr.
    split; [reflexivity|]. unfold Metric_Add. rewrite Hold. auto.
  - intros Hnone Hpub. cbv zeta. unfold serveUploadClientMetrics. rewrite Hm, Hd.
    change (negb (String.eqb "POST" "POST")) with false. cbv iota.
    change (pre ++ m :: post) with (pre ++ [m] ++ post).
    rewrite uploadLoop_app, Hl. cbn [app uploadLoop]. rewrite Hnone, Hpub.
    pose proof (uploadLoop_rw pre st) as Hrw. rewrite Hl in Hrw. cbn [snd] in Hrw.
    split; [apply Status_http_Error; rewrite Hrw; exact Hfresh|].
    split; [rewrite body_http_Error, Hrw; reflexivity|reflexivity].
Qed.

End LocalAPI.

(** ** The handlers on concrete requests *)
Import localapi.

(** A handler without a backend answers a status request from a connection
    that may not read with 500, neither 401 nor 403. *)
Lemma C1_no_backend :
  declared_min exStatusReq = Some CapRead /\
  lacks (exHandler false false None) CapRead = true /\
  rw_status (rw exWorld) = None /\
  Status (exServeHTTP (exHandler false false None) exStatusReq exWorld) = 500 /\
  ~ (Status (exServeHTTP (exHandler false false None) exStatusReq exWorld) = 401 \/
     Status (exServeHTTP (exHandler false false None) exStatusReq exWorld) = 403).
Proof.
  repeat split; try (vm_compute; reflexivity).
  intros [H|H]; vm_compute in H; discriminate H.
Qed.

(** The gate on concrete requests: no backend, no credentials, a wrong
    password, a status request from a connection that may not read, a [POST]
    of [/goroutines] from a connection that may not write and a [HEAD] of
    [/prefs] from a connection that may not read. *)
Lemma C1_gate_requests :
  (Status (exServeHTTP (exHandler false false None) exStatusReq exWorld) = 500 /\
   effects (exServeHTTP (exHandler false false None) exStatusReq exWorld) = effects exWorld)
  /\
  (let h := mkHandler "s3cret" true true false (Some exBackend) "abc" in
   Status (exServeHTTP h exStatusReq exWorld) = 401 /\
   effects (exServeHTTP h exStatusReq exWorld) = effects exWorld)
  /\
  (let h := mkHandler "s3cret" true true false (Some exBackend) "abc" in
   let r := mkRequest "GET" "/localapi/v0/status" "/localapi/v0/status"
              (Some ("user", "guess")) ∅ ∅ (Malformed "") 0 in
   Status (exServeHTTP h r exWorld) = 403 /\
   effects (exServeHTTP h r exWorld) = effects exWorld)
  /\
  (let h := exHandler false false (Some exBackend) in
   Status (exServeHTTP h exStatusReq exWorld) = 403 /\
   effects (exServeHTTP h exStatusReq exWorld) = effects exWorld /\
   rw_body (rw (exServeHTTP h exStatusReq exWorld)) =
     [Text ("status access denied" +:+ LF)])
  /\
  (let h := exHandler true false (Some exBackend) in
   let r := exRequest "POST" "/localapi/v0/goroutines" ∅ ∅ (Malformed "") in
   declared_min r = None /\ handler_min r = Some CapWrite /\
   Status (exServeHTTP h r exWorld) = 403 /\
   effects (exServeHTTP h r exWorld) = effects exWorld /\
   exists msg,
     exServeHTTP h r exWorld =
       http_Error msg 403 (Header_Set "Tailscale-Version" "1.33.0" exWorld))
  /\
  (let h := exHandler false true (Some exBackend) in
   let r := exRequest "HEAD" "/localapi/v0/prefs" ∅ ∅ (Malformed "") in
   declared_min r = None /\ handler_min r = Some CapRead /\
   Status (exServeHTTP h r exWorld) = 403 /\
   effects (exServeHTTP h r exWorld) = effects exWorld /\
   exists msg,
     exServeHTTP h r exWorld =
       http_Error msg 403 (Header_Set "Tailscale-Version" "1.33.0" exWorld)).
Proof.
  pose (gate := C1_capability_gate "1.33.0" exParseAddr (fun _ => None) (fun _ => None)
                  Some (fun _ => true) (fun s => s) "goroutine 1 [running]"
                  (fun _ => "") None (fun _ _ _ st => st)).
  split; [|split; [|split; [|split; [|split]]]]; cbv zeta.
  - destruct (gate (exHandler false false None) exStatusReq exWorld eq_refl)
      as (H & _).
    destruct (H eq_refl) as (_ & Hs & He). split; [exact Hs | exact He].
  - destruct (gate (mkHandler "s3cret" true true false (Some exBackend) "abc")
                exStatusReq exWorld eq_refl) as (_ & H & _).
    destruct (H ltac:(discriminate) ltac:(discriminate) eq_refl) as (_ & Hs & He).
    split; [exact Hs | exact He].
  - destruct (gate (mkHandler "s3cret" true true false (Some exBackend) "abc")
                (mkRequest "GET" "/localapi/v0/status" "/localapi/v0/status"
                   (Some ("user", "guess")) ∅ ∅ (Malformed "") 0)
                exWorld eq_refl) as (_ & _ & H & _).
    destruct (H ltac:(discriminate) ltac:(discriminate) "user" "guess" eq_refl
                ltac:(discriminate)) as (_ & Hs & He).
    split; [exact Hs | exact He].
  - destruct (gate (exHandler false false (Some exBackend)) exStatusReq exWorld eq_refl)
      as (_ & _ & _ & H).
    assert (Hmin : handler_min exStatusReq = Some CapRead) by (vm_compute; reflexivity).
    destruct (H CapRead Hmin eq_refl ltac:(discriminate)) as (_ & He & _ & Hp).
    destruct (Hp (or_introl eq_refl)) as (Hs & _).
    split; [exact Hs|]. split; [exact He|]. vm_compute. reflexivity.
  - pose (r := exRequest "POST" "/localapi/v0/goroutines" ∅ ∅ (Malformed "")).
    destruct (gate (exHandler true false (Some exBackend)) r exWorld eq_refl)
      as (_ & _ & _ & H).
    assert (Hdecl : declared_min r = None) by (vm_compute; reflexivity).
    assert (Hmin : handler_min r = Some CapWrite) by (vm_compute; reflexivity).
    destruct (H CapWrite Hmin eq_refl ltac:(discriminate)) as (_ & He & _ & Hp).
    destruct (Hp (or_introl eq_refl)) as (Hs & Hm).
    split; [exact Hdecl|]. split; [exact Hmin|]. split; [exact Hs|].
    split; [exact He | exact Hm].
  - pose (r := exRequest "HEAD" "/localapi/v0/prefs" ∅ ∅ (Malformed "")).
    destruct (gate (exHandler false true (Some exBackend)) r exWorld eq_refl)
      as (_ & _ & _ & H).
    assert (Hdecl : declared_min r = None) by (vm_compute; reflexivity).
    assert (Hmin : handler_min r = Some CapRead) by (vm_compute; reflexivity).
    destruct (H CapRead Hmin eq_refl ltac:(discriminate)) as (_ & He & _ & Hp).
    destruct (Hp (or_introl eq_refl)) as (Hs & Hm).
    split; [exact Hdecl|]. split; [exact Hmin|]. split; [exact Hs|].
    split; [exact He | exact Hm].
Defined.


(** An upload whose second entry has an unknown type is answered 400 after
    its first entry created the counter ["a"] and set it to 1. *)
Lemma C2_rejected_upload_keeps_prefix :
  let r := exUpload [mkClientMetricJSON "a" "counter" 1;
                     mkClientMetricJSON "b" "histogram" 2] in
  let st' := serveUploadClientMetrics (exHandler true true (Some exBackend)) r exWorld in
  Status st' = 400 /\
  heap exWorld = [] /\
  heap st' = [mkMetric "a" TypeCounter 1] /\
  metrics st' !! "a" = Some 0%nat /\
  metric_state st' <> metric_state exWorld.
Proof.
  cbv zeta. repeat split; try (vm_compute; reflexivity).
  intros H. apply (f_equal (fun x => fst (fst x))) in H. vm_compute in H. discriminate H.
Qed.

Lemma upload_wf_empty (st : World) : metrics st = ∅ -> upload_wf st.
Proof.
  intros H. split; intros *; rewrite H, lookup_empty; discriminate.
Qed.

(** Two uploads on a world without metrics, by the theorem: one that is
    accepted, and the one above, after which the counter of the first entry
    stays and the second entry has left nothing. *)
Lemma C2_upload_in_order_requests :
  (let r := exUpload [mkClientMetricJSON "a" "counter" 1;
                      mkClientMetricJSON "b" "gauge" 2] in
   let st' := serveUploadClientMetrics (exHandler true true (Some exBackend)) r exWorld in
   Status st' = 200 /\
   rw_body (rw st') = [JSON J_empty] /\
   reg_uploaded (registry_of st') !! "a" = Some (TypeCounter, 1) /\
   reg_uploaded (registry_of st') !! "b" = Some (TypeGauge, 2))
  /\
  (let r := exUpload [mkClientMetricJSON "a" "counter" 1;
                      mkClientMetricJSON "b" "histogram" 2] in
   let st' := serveUploadClientMetrics (exHandler true true (Some exBackend)) r exWorld in
   Status st' = 400 /\
   rw_body (rw st') = [Text ("Unknown metric type histogram" +:+ LF)] /\
   reg_uploaded (registry_of st') !! "a" = Some (TypeCounter, 1) /\
   reg_uploaded (registry_of st') !! "b" = None)
  /\
  (let pre := [mkClientMetricJSON "a" "counter" 1] in
   let m := mkClientMetricJSON "b" "histogram" 2 in
   let r := exUpload (pre ++ m :: []) in
   let st' := serveUploadClientMetrics (exHandler true true (Some exBackend)) r exWorld in
   Status st' = 400 /\
   registry_of st' = snd (registry_upload pre (registry_of exWorld))).
Proof.
  split; [|split]; cbv zeta.
  - pose (l := [mkClientMetricJSON "a" "counter" 1; mkClientMetricJSON "b" "gauge" 2]).
    pose (R' := snd (registry_upload l (registry_of exWorld))).
    assert (Hrun : registry_upload l (registry_of exWorld) = (None, R'))
      by (vm_compute; reflexivity).
    destruct (C2_upload_in_order (exHandler true true (Some exBackend)) (exUpload l)
                exWorld l eq_refl eq_refl eq_refl (upload_wf_empty exWorld eq_refl))
      as (_ & Hres & _).
    rewrite Hrun in Hres. destruct Hres as (Hs & Hb & Hr).
    assert (Ha : reg_uploaded R' !! "a" = Some (TypeCounter, 1))
      by (vm_compute; reflexivity).
    assert (Hbv : reg_uploaded R' !! "b" = Some (TypeGauge, 2))
      by (vm_compute; reflexivity).
    rewrite <- Hr in Ha, Hbv.
    split; [exact Hs|]. split; [exact Hb|]. split; [exact Ha | exact Hbv].
  - pose (l := [mkClientMetricJSON "a" "counter" 1;
                mkClientMetricJSON "b" "histogram" 2]).
    pose (R' := snd (registry_upload l (registry_of exWorld))).
    assert (Hrun : registry_upload l (registry_of exWorld) =
                   (Some "Unknown metric type histogram", R'))
      by (vm_compute; reflexivity).
    destruct (C2_upload_in_order (exHandler true true (Some exBackend)) (exUpload l)
                exWorld l eq_refl eq_refl eq_refl (upload_wf_empty exWorld eq_refl))
      as (_ & Hres & _).
    rewrite Hrun in Hres. destruct Hres as (Hs & Hb & Hr).
    assert (Ha : reg_uploaded R' !! "a" = Some (TypeCounter, 1))
      by (vm_compute; reflexivity).
    assert (Hbv : reg_uploaded R' !! "b" = None) by (vm_compute; reflexivity).
    rewrite <- Hr in Ha, Hbv.
    split; [exact Hs|]. split; [exact Hb|]. split; [exact Ha | exact Hbv].
  - pose (pre := [mkClientMetricJSON "a" "counter" 1]).
    pose (m := mkClientMetricJSON "b" "histogram" 2).
    pose (R1 := snd (registry_upload pre (registry_of exWorld))).
    assert (Hpre : registry_upload pre (registry_of exWorld) = (None, R1))
      by (vm_compute; reflexivity).
    assert (Hnone : reg_uploaded R1 !! Name m = None) by (vm_compute; reflexivity).
    assert (Hbad : Name m ∈ reg_names R1 \/
                   (Type_ m <> "counter" /\ Type_ m <> "gauge"))
      by (right; split; discriminate).
    destruct (C2_upload_in_order (exHandler true true (Some exBackend))
                (exUpload (pre ++ m :: [])) exWorld (pre ++ m :: [])
                eq_refl eq_refl eq_refl (upload_wf_empty exWorld eq_refl))
      as (_ & _ & Hfirst).
    exact (Hfirst pre m [] R1 eq_refl Hpre Hnone Hbad).
Defined.

(** An upload of ["a"] as a gauge, after ["a"] was uploaded as a counter, is
    answered 200 and added to the counter. *)
Lemma C3_mismatched_type_is_added :
  let r := exUpload [mkClientMetricJSON "a" "gauge" 5] in
  let st' := serveUploadClientMetrics (exHandler true true (Some exBackend)) r
               exWorldCounter in
  heap exWorldCounter = [mkMetric "a" TypeCounter 1] /\
  metrics exWorldCounter !! "a" = Some 0%nat /\
  Status st' = 200 /\
  rw_body (rw st') = [JSON J_empty] /\
  heap st' = [mkMetric "a" TypeCounter 6].
Proof. cbv zeta. repeat split; vm_compute; reflexivity. Qed.

(** The two cases of an entry whose name is taken, by the theorem. *)
Lemma C3_upload_existing_name_requests :
  (let m := mkClientMetricJSON "a" "gauge" 5 in
   let st2 := Metric_Add 0 (wrap64 (Value m)) exWorldCounter in
   uploadLoop [m] exWorldCounter = uploadLoop [] st2 /\
   heap st2 = [mkMetric "a" TypeCounter 6])
  /\
  (let r := exUpload [mkClientMetricJSON "magicsock_send" "gauge" 5] in
   let st' := serveUploadClientMetrics (exHandler true true (Some exBackend)) r
                exWorldPublished in
   Status st' = 400 /\
   rw_body (rw st') = [Text ("Already have a metric named magicsock_send" +:+ LF)] /\
   metric_state st' = metric_state exWorldPublished).
Proof.
  split; cbv zeta.
  - pose (m := mkClientMetricJSON "a" "gauge" 5).
    assert (H1 : metrics exWorldCounter !! Name m = Some 0%nat)
      by (vm_compute; reflexivity).
    destruct (C3_upload_existing_name (exHandler true true (Some exBackend))
                (exUpload ([] ++ m :: [])) exWorldCounter exWorldCounter [] [] m
                eq_refl eq_refl eq_refl eq_refl) as [H _].
    destruct (H 0%nat (mkMetric "a" TypeCounter 1) H1 eq_refl) as (Hl & Hh & _).
    split; [exact Hl|]. etransitivity; [exact Hh|]. vm_compute. reflexivity.
  - pose (m := mkClientMetricJSON "magicsock_send" "gauge" 5).
    assert (H1 : metrics exWorldPublished !! Name m = None) by (vm_compute; reflexivity).
    assert (H2 : HasPublished (Name m) exWorldPublished = true)
      by (vm_compute; reflexivity).
    destruct (C3_upload_existing_name (exHandler true true (Some exBackend))
                (exUpload ([] ++ m :: [])) exWorldPublished exWorldPublished [] [] m
                eq_refl eq_refl eq_refl eq_refl) as [_ H].
    destruct (H H1 H2) as (Hs & Hb & Hm).
    split; [exact Hs|]. split; [exact Hb|exact Hm].
Defined.

(** A PATCH the backend rejects and one it accepts. *)
Lemma C4_prefs_patch_requests :
  (let r := exPatch {["ExitNodeIP" := "invalid"]} in
   let st' := servePrefs (exHandler true true (Some exBackend)) exBackend r exWorld in
   Status st' = 400 /\
   rw_body (rw st') = [JSON (J_resJSON "invalid exit node")] /\
   rw_header (rw st') !! "Content-Type" = Some "application/json" /\
   prefs st' = prefs exWorld)
  /\
  (let r := exPatch {["ExitNodeIP" := "100.64.0.9"]} in
   let st' := servePrefs (exHandler true true (Some exBackend)) exBackend r exWorld in
   Status st' = 200 /\
   prefs st' = {["ExitNodeIP" := "100.64.0.9"]} /\
   rw_body (rw st') = [JSON (J_Prefs {["ExitNodeIP" := "100.64.0.9"]})])
  /\
  (let r := exPatch {["ExitNodeIP" := "100.64.0.9"]} in
   let st' := servePrefs (exHandler true false (Some exBackend)) exBackend r exWorld in
   Status st' = 403 /\ prefs st' = prefs exWorld).
Proof.
  split; [|split]; cbv zeta.
  - pose (mp := {["ExitNodeIP" := "invalid"]} : gmap string string).
    assert (H1 : b_CheckPrefs exBackend (ApplyEdits mp (prefs exWorld))
                 = Some "invalid exit node") by (vm_compute; reflexivity).
    destruct (C4_prefs_patch (exHandler true true (Some exBackend)) exBackend
                (exPatch mp) exWorld eq_refl eq_refl) as (_ & _ & H & _).
    exact (H mp "invalid exit node" eq_refl eq_refl eq_refl H1).
  - pose (mp := {["ExitNodeIP" := "100.64.0.9"]} : gmap string string).
    assert (H1 : b_CheckPrefs exBackend (ApplyEdits mp (prefs exWorld)) = None)
      by (vm_compute; reflexivity).
    assert (H2 : ApplyEdits mp (prefs exWorld) = mp) by (vm_compute; reflexivity).
    destruct (C4_prefs_patch (exHandler true true (Some exBackend)) exBackend
                (exPatch mp) exWorld eq_refl eq_refl) as (_ & _ & _ & H).
    destruct (H mp eq_refl eq_refl eq_refl H1) as (Hs & Hp & Hb & _).
    rewrite H2 in Hp, Hb. split; [exact Hs|]. split; [exact Hp|exact Hb].
  - pose (mp := {["ExitNodeIP" := "100.64.0.9"]} : gmap string string).
    assert (Hs : Status (servePrefs (exHandler true false (Some exBackend)) exBackend
                           (exPatch mp) exWorld) = 403) by (vm_compute; reflexivity).
    destruct (C4_prefs_patch (exHandler true false (Some exBackend)) exBackend
                (exPatch mp) exWorld eq_refl eq_refl) as (H & _).
    split; [exact Hs|]. apply H. right. rewrite Hs. discriminate.
Defined.

(** Dial requests: a wrong upgrade token, a missing port, a dial that fails
    and a dial that succeeds. *)
Lemma C7_dial_requests :
  (let st' := serveDial (exHandler true true (Some exBackend)) exBackend
                (exDial "websocket" "peer" "22") exWorld in
   Status st' = 400 /\ calls st' = calls exWorld /\ conn st' = conn exWorld)
  /\
  (let st' := serveDial (exHandler true true (Some exBackend)) exBackend
                (exDial "ts-dial" "peer" "") exWorld in
   Status st' = 400 /\ calls st' = calls exWorld /\ conn st' = conn exWorld)
  /\
  (let st' := serveDial (exHandler true true (Some exBackend)) exBackend
                (exDial "ts-dial" "nowhere" "22") exWorld in
   Status st' = 502 /\
   calls st' = calls exWorld ++ [Call_UserDial "tcp" "nowhere:22"] /\
   conn st' = conn exWorld)
  /\
  (let st' := serveDial (exHandler true true (Some exBackend)) exBackend
                (exDial "ts-dial" "peer" "22") exWorld in
   Status st' = 101 /\ conn st' = Piped "conn-1" /\
   rw_header (rw st') !! "Upgrade" = Some "ts-dial" /\
   rw_header (rw st') !! "Connection" = Some "upgrade").
Proof.
  split; [|split; [|split]]; cbv zeta.
  - pose (r := exDial "websocket" "peer" "22").
    assert (H1 : Header_Get r "Upgrade" <> "ts-dial")
      by (vm_compute; discriminate).
    destruct (C7_dial_failures (exHandler true true (Some exBackend)) exBackend r
                exWorld eq_refl eq_refl) as (H & _).
    exact (H (or_intror H1)).
  - pose (r := exDial "ts-dial" "peer" "").
    assert (H1 : Header_Get r "Dial-Port" = "") by (vm_compute; reflexivity).
    destruct (C7_dial_failures (exHandler true true (Some exBackend)) exBackend r
                exWorld eq_refl eq_refl) as (_ & H & _).
    exact (H (or_intror H1)).
  - pose (r := exDial "ts-dial" "nowhere" "22").
    assert (H1 : Contains (Header_Get r "Connection") "upgrade" = true)
      by (vm_compute; reflexivity).
    assert (H2 : Header_Get r "Upgrade" = "ts-dial") by (vm_compute; reflexivity).
    assert (H3 : Header_Get r "Dial-Host" <> "") by (vm_compute; discriminate).
    assert (H4 : Header_Get r "Dial-Port" <> "") by (vm_compute; discriminate).
    assert (H5 : is_Some (rw_hijacker (rw exWorld))) by (eexists; reflexivity).
    assert (H6 : b_UserDial exBackend "tcp"
                   (JoinHostPort (Header_Get r "Dial-Host") (Header_Get r "Dial-Port"))
                 = inl "no route") by (vm_compute; reflexivity).
    assert (H7 : JoinHostPort (Header_Get r "Dial-Host") (Header_Get r "Dial-Port")
                 = "nowhere:22") by (vm_compute; reflexivity).
    destruct (C7_dial_failures (exHandler true true (Some exBackend)) exBackend r
                exWorld eq_refl eq_refl) as (_ & _ & H & _).
    destruct (H "no route" H1 H2 H3 H4 H5 H6) as (Hs & Hc & Hn).
    rewrite H7 in Hc. split; [exact Hs|]. split; [exact Hc|exact Hn].
  - pose (r := exDial "ts-dial" "peer" "22").
    assert (Hs : Status (serveDial (exHandler true true (Some exBackend)) exBackend r
                           exWorld) = 101) by (vm_compute; reflexivity).
    destruct (C7_dial_failures (exHandler true true (Some exBackend)) exBackend r
                exWorld eq_refl eq_refl) as (_ & _ & _ & H & _).
    destruct (H Hs) as (_ & _ & Hu & Hc).
    split; [exact Hs|]. split; [vm_compute; reflexivity|]. split; [exact Hu|exact Hc].
Defined.

Lemma string_length_append (s1 s2 : string) :
  String.length (s1 +:+ s2) = (String.length s1 + String.length s2)%nat.
Proof.
  induction s1 as [|c s1 IH]; [reflexivity|].
  cbv [String.append]. fold String.append. cbn [String.length]. rewrite IH. reflexivity.
Qed.

(** The marker of a bug report ends in 16 hex digits: no suffix of 8 digits
    gives the body the handler wrote. *)
Lemma C8_suffix_has_16_digits :
  let st' := serveBugReport (exHandler true false (Some exBackend)) exBugReport exWorld in
  PermitRead (exHandler true false (Some exBackend)) = true /\
  rw_body (rw st') = [Text ("BUG-abc-20221031120000Z-0001020304050607" +:+ LF)] /\
  ~ (exists hex8 : string,
       String.length hex8 = 8%nat /\
       rw_body (rw st') = [Text ("BUG-abc-20221031120000Z-" +:+ hex8 +:+ LF)]).
Proof.
  cbv zeta. split; [reflexivity|].
  assert (Hb : rw_body (rw (serveBugReport (exHandler true false (Some exBackend))
                              exBugReport exWorld))
               = [Text ("BUG-abc-20221031120000Z-0001020304050607" +:+ LF)])
    by (vm_compute; reflexivity).
  split; [exact Hb|].
  intros (hex8 & Hlen & Hbody). rewrite Hb in Hbody.
  injection Hbody as Hbody. apply (f_equal String.length) in Hbody.
  rewrite !string_length_append in Hbody. rewrite Hlen in Hbody.
  vm_compute in Hbody. discriminate Hbody.
Qed.

(** The bug report of a connection that may read, with a note. *)
Lemma C8_bugreport_request :
  let st' := serveBugReport (exHandler true false (Some exBackend)) exBugReport exWorld in
  rw_body (rw st') = [Text ("BUG-abc-20221031120000Z-0001020304050607" +:+ LF)] /\
  Status st' = 200 /\
  logs st' = ["user bugreport: BUG-abc-20221031120000Z-0001020304050607";
              "user bugreport note: dns is down"] /\
  calls st' = [].
Proof.
  cbv zeta.
  destruct (C8_bugreport_marker (exHandler true false (Some exBackend)) exBugReport
              exWorld eq_refl eq_refl) as (_ & _ & Hb & _ & Hs & Hl & Hc).
  split; [etransitivity; [exact Hb|vm_compute; reflexivity]|].
  split; [exact Hs|].
  split; [etransitivity; [exact Hl|vm_compute; reflexivity]|exact Hc].
Defined.

(** A ping with a valid address and no type reaches the backend. *)
Lemma C10_ping_request :
  let st' := servePing exParseAddr (exHandler true true (Some exBackend)) exBackend
               (exPing "100.64.0.1" "") exWorld in
  calls st' = [Call_Ping (mkAddr true "100.64.0.1") ""] /\
  rw_body (rw st') = [JSON (J_text "{pong}")] /\
  Status st' = 200.
Proof.
  cbv zeta.
  pose (r := exPing "100.64.0.1" "").
  assert (H1 : FormValue r "ip" <> "") by (vm_compute; discriminate).
  assert (H2 : exParseAddr (FormValue r "ip") = Some (mkAddr true "100.64.0.1"))
    by (vm_compute; reflexivity).
  assert (H3 : FormValue r "type" = "") by (vm_compute; reflexivity).
  exact (C10_ping_type_unchecked exParseAddr (exHandler true true (Some exBackend))
           exBackend r exWorld (mkAddr true "100.64.0.1") eq_refl H1 H2 H3 eq_refl).
Defined.

(** * Further properties of the Windows configurator *)
Section WindowsDNSMore.
Import dns.

Variable configureWSL : bool.

Ltac table_ext :=
  apply map_eq; intros ?n;
  repeat match goal with |- context [if ?b then _ else _] =>
    match type of b with bool => destruct b end end;
  repeat first [rewrite lookup_insert | rewrite lookup_delete
               | progress (case_decide; subst; simplify_eq)];
  try reflexivity; try congruence.

Lemma halfKey_absorb ips ds ips' ds' k :
  halfKey ips ds (dduKey (halfKey ips' ds' (dduKey k))) = halfKey ips ds (dduKey k).
Proof. unfold halfKey, wr, dduKey. table_ext. Qed.

Lemma primKey_absorb ips ds ips' ds' k :
  primKey ips ds (dduKey (primKey ips' ds' (dduKey k))) = primKey ips ds (dduKey k).
Proof. unfold primKey, halfKey, wr, dduKey. table_ext. Qed.

Lemma regPrim_regDDU_absorb p4 p6 rs ds rs' ds' (r : gmap string (gmap string RegValue)) :
  p4 <> p6 ->
  regPrim p4 p6 rs ds (regDDU p4 p6 (regPrim p4 p6 rs' ds' (regDDU p4 p6 r))) =
  regPrim p4 p6 rs ds (regDDU p4 p6 r).
Proof.
  intros Hne. rewrite (regPrim_regDDU p4 p6 rs' ds' r Hne).
  destruct (r !! p4) as [k4|] eqn:H4.
  - destruct (r !! p6) as [k6|] eqn:H6.
    + rewrite !regPrim_regDDU by assumption. rewrite !lookup_alter.
      repeat case_decide; try congruence. rewrite H4, H6.
      cbn [fmap option_fmap option_map].
      apply map_eq; intros p. rewrite !lookup_alter.
      repeat case_decide; subst; try congruence; rewrite ?H4, ?H6;
        cbn [fmap option_fmap option_map]; rewrite ?primKey_absorb; reflexivity.
    + rewrite !regPrim_regDDU by assumption. rewrite !lookup_alter.
      repeat case_decide; try congruence. rewrite H4, H6.
      cbn [fmap option_fmap option_map].
      apply map_eq; intros p. rewrite !lookup_alter.
      repeat case_decide; subst; try congruence; rewrite ?H4, ?H6;
        cbn [fmap option_fmap option_map]; rewrite ?halfKey_absorb; reflexivity.
  - rewrite !regPrim_regDDU by assumption. rewrite H4. reflexivity.
Qed.

Lemma hostSetDNS_absorb m cfg1 cfg2 h :
  MatchDomains cfg2 = [] \/ is_Some (fst h) ->
  hostSetDNS m cfg2 (hostSetDNS m cfg1 h) = hostSetDNS m cfg2 h.
Proof.
  intros Hok. pose proof (ifPath_v4_v6 m) as Hne.
  unfold hostSetDNS. destruct h as [db r]. cbn [fst snd] in *.
  destruct (length (MatchDomains cfg2) =? 0)%nat eqn:E2.
  - destruct (length (MatchDomains cfg1) =? 0)%nat; cbn [fst snd].
    + rewrite regPrim_regDDU_absorb by assumption. destruct db; reflexivity.
    + destruct db; cbn [fst snd].
      * rewrite regPrim_regDDU_absorb by assumption. reflexivity.
      * rewrite regDDU_idem. reflexivity.
  - destruct Hok as [Hm|[d ->]]; [rewrite Hm in E2; discriminate|].
    destruct (length (MatchDomains cfg1) =? 0)%nat; cbn [fst snd];
      rewrite regPrim_regDDU_absorb by assumption; reflexivity.
Qed.

(** The last call wins: unless the second config asks for split DNS on a host
    without an NRPT database, [SetDNS cfg1] followed by [SetDNS cfg2] leaves
    the rule table and the registry as [SetDNS cfg2] alone does, whether or
    not the calls succeed. *)
Theorem SetDNS_last_call_wins (cfg1 cfg2 : OSConfig) (st : State) :
  MatchDomains cfg2 = [] \/ is_Some (nrptDB (mgr st)) ->
  hostDNS (snd (SetDNS configureWSL cfg2 (snd (SetDNS configureWSL cfg1 st)))) =
  hostDNS (snd (SetDNS configureWSL cfg2 st)).
Proof.
  intros Hok.
  destruct (SetDNS_spec configureWSL cfg1 st) as (H1 & G1 & _).
  destruct (SetDNS_spec configureWSL cfg2 (snd (SetDNS configureWSL cfg1 st)))
    as (H2 & _ & _).
  destruct (SetDNS_spec configureWSL cfg2 st) as (H3 & _ & _).
  rewrite H2, H1, H3.
  rewrite (hostSetDNS_guid _ (mgr st)) by assumption.
  apply hostSetDNS_absorb. exact Hok.
Qed.

Lemma SetDNS_registry cfg st :
  registry (snd (SetDNS configureWSL cfg st)) = snd (hostSetDNS (mgr st) cfg (hostDNS st))
  /\ nrptDB (mgr (snd (SetDNS configureWSL cfg st))) =
     fst (hostSetDNS (mgr st) cfg (hostDNS st)).
Proof.
  destruct (SetDNS_spec configureWSL cfg st) as (Hh & _ & _).
  split; [exact (f_equal snd Hh) | exact (f_equal fst Hh)].
Qed.

Lemma wr_lookup name b l (k : gmap string RegValue) name' :
  name <> name' -> wr name b l k !! name' = k !! name'.
Proof.
  intros Hne. unfold wr. destruct b;
    [apply lookup_delete_ne | apply lookup_insert_ne]; assumption.
Qed.

Lemma alter_present (f : Key -> Key) i (r : Registry) j :
  is_Some (alter f i r !! j) <-> is_Some (r !! j).
Proof.
  rewrite lookup_alter. case_decide; subst; rewrite ?fmap_is_Some; reflexivity.
Qed.

Lemma alter_frame (f : Key -> Key) i (r : Registry) j name :
  j <> i \/ (forall k, f k !! name = k !! name) ->
  alter f i r !! j ≫= (.!! name) = r !! j ≫= (.!! name).
Proof.
  intros H. rewrite lookup_alter. case_decide; subst; [|reflexivity].
  destruct H as [H|H]; [congruence|].
  destruct (r !! j); cbn; [apply H | reflexivity].
Qed.

Lemma halfKey_lookup ips ds k name :
  name <> "NameServer" -> name <> "SearchList" ->
  halfKey ips ds k !! name = k !! name.
Proof.
  intros. unfold halfKey. rewrite !wr_lookup by congruence. reflexivity.
Qed.

Lemma primKey_lookup ips ds k name :
  name <> "NameServer" -> name <> "SearchList" -> name <> "EnableMulticast" ->
  primKey ips ds k !! name = k !! name.
Proof.
  intros. unfold primKey. rewrite lookup_insert_ne by congruence.
  apply halfKey_lookup; assumption.
Qed.

Lemma regPrim_present p4 p6 rs ds (r : Registry) p :
  is_Some (regPrim p4 p6 rs ds r !! p) <-> is_Some (r !! p).
Proof.
  unfold regPrim. destruct (r !! p4); [|reflexivity].
  destruct (r !! p6); rewrite ?alter_present; reflexivity.
Qed.

Lemma regDDU_present p4 p6 (r : Registry) p :
  is_Some (regDDU p4 p6 r !! p) <-> is_Some (r !! p).
Proof.
  unfold regDDU. destruct (r !! p4); [|reflexivity].
  rewrite ?alter_present; reflexivity.
Qed.

Lemma regPrim_frame p4 p6 rs ds (r : Registry) p name :
  (p <> p4 /\ p <> p6) \/
  (name <> "NameServer" /\ name <> "SearchList" /\ name <> "EnableMulticast") ->
  regPrim p4 p6 rs ds r !! p ≫= (.!! name) = r !! p ≫= (.!! name).
Proof.
  intros H. unfold regPrim. destruct (r !! p4); [|reflexivity].
  destruct (r !! p6); rewrite ?alter_frame; try reflexivity;
    (destruct H as [[? ?]|(?&?&?)]; [left; assumption|right; intros k]);
    solve [apply primKey_lookup; assumption | apply halfKey_lookup; assumption].
Qed.

Lemma regDDU_frame p4 p6 (r : Registry) p name :
  (p <> p4 /\ p <> p6) \/ name <> "DisableDynamicUpdate" ->
  regDDU p4 p6 r !! p ≫= (.!! name) = r !! p ≫= (.!! name).
Proof.
  intros H. unfold regDDU. destruct (r !! p4); [|reflexivity].
  rewrite ?alter_frame; try reflexivity;
    (destruct H as [[? ?]|?]; [left; assumption|right; intros k]);
    unfold dduKey; apply lookup_insert_ne; congruence.
Qed.

(** What [SetDNS] does to the registry by its own calls ([openKey],
    [SetStringValue], [SetDWordValue], [DeleteValue]); the NRPT rules, which
    it leaves to [nrptRuleDatabase], are apart. Of the keys it can open, none
    is created or deleted, and every value stays as it was that is not one of
    [NameServer], [SearchList], [EnableMulticast] and [DisableDynamicUpdate]
    under one of the two keys of the interface. *)
Theorem SetDNS_frame (cfg : OSConfig) (st : State) (p name : string) :
  let st' := snd (SetDNS configureWSL cfg st) in
  (is_Some (registry st' !! p) <-> is_Some (registry st !! p)) /\
  ((p <> ifPath (mgr st) ipv4RegBase /\ p <> ifPath (mgr st) ipv6RegBase) \/
   (name <> "NameServer" /\ name <> "SearchList" /\ name <> "EnableMulticast" /\
    name <> "DisableDynamicUpdate") ->
   value st' p name = value st p name).
Proof.
  cbv zeta. destruct (SetDNS_registry cfg st) as (Hr & _). unfold value.
  rewrite Hr. clear Hr. unfold hostSetDNS, hostDNS. cbn [fst snd].
  assert (Hp : forall rs ds,
    is_Some (regPrim (ifPath (mgr st) ipv4RegBase) (ifPath (mgr st) ipv6RegBase) rs ds
               (regDDU (ifPath (mgr st) ipv4RegBase) (ifPath (mgr st) ipv6RegBase)
                  (registry st)) !! p) <-> is_Some (registry st !! p))
    by (intros; rewrite regPrim_present, regDDU_present; reflexivity).
  assert (Hf : forall rs ds,
    (p <> ifPath (mgr st) ipv4RegBase /\ p <> ifPath (mgr st) ipv6RegBase) \/
    (name <> "NameServer" /\ name <> "SearchList" /\ name <> "EnableMulticast" /\
     name <> "DisableDynamicUpdate") ->
    regPrim (ifPath (mgr st) ipv4RegBase) (ifPath (mgr st) ipv6RegBase) rs ds
      (regDDU (ifPath (mgr st) ipv4RegBase) (ifPath (mgr st) ipv6RegBase)
         (registry st)) !! p ≫= (.!! name) = registry st !! p ≫= (.!! name)).
  { intros rs ds H. rewrite regPrim_frame, regDDU_frame; [reflexivity| |];
      destruct H as [H|(?&?&?&?)]; auto. }
  destruct (length (MatchDomains cfg) =? 0)%nat; cbn [snd]; [split; auto|].
  destruct (nrptDB (mgr st)); cbn [snd]; [split; auto|].
  split; [apply regDDU_present|].
  intros H. apply regDDU_frame. destruct H as [H|(?&?&?&?)]; auto.
Qed.

Lemma regPrim_regDDU_marks m rs ds (r : gmap string (gmap string RegValue)) :
  keysErr m r = None ->
  let r' := regPrim (ifPath m ipv4RegBase) (ifPath m ipv6RegBase) rs ds
              (regDDU (ifPath m ipv4RegBase) (ifPath m ipv6RegBase) r) in
  r' !! ifPath m ipv4RegBase ≫= (.!! "DisableDynamicUpdate") = Some (DWORD 1) /\
  r' !! ifPath m ipv6RegBase ≫= (.!! "DisableDynamicUpdate") = Some (DWORD 1) /\
  r' !! ifPath m ipv4RegBase ≫= (.!! "EnableMulticast") = Some (DWORD 0) /\
  r' !! ifPath m ipv6RegBase ≫= (.!! "EnableMulticast") = Some (DWORD 0).
Proof.
  intros Hk. destruct (keysErr_None m r Hk) as (k4 & k6 & H4 & H6).
  pose proof (ifPath_v4_v6 m) as Hne. cbv zeta.
  rewrite regPrim_regDDU by assumption. rewrite H4, H6.
  rewrite !lookup_alter. repeat case_decide; try congruence.
  rewrite H4, H6. cbn [fmap option_fmap option_map mbind option_bind].
  unfold primKey, halfKey, dduKey.
  rewrite !lookup_insert_eq.
  rewrite !lookup_insert_ne by discriminate.
  rewrite !wr_lookup by discriminate.
  rewrite !lookup_insert_eq. auto.
Qed.

(** Dynamic DNS updates are disabled on the IPv4 key of the interface by
    every call that finds the key, also by one that fails later; a call that
    returns no error leaves [DisableDynamicUpdate = 1] and
    [EnableMulticast = 0] under both keys. *)
Theorem SetDNS_interface_flags (cfg : OSConfig) (st : State) :
  let res := SetDNS configureWSL cfg st in
  let p4 := ifPath (mgr st) ipv4RegBase in
  let p6 := ifPath (mgr st) ipv6RegBase in
  (is_Some (registry st !! p4) ->
     value (snd res) p4 "DisableDynamicUpdate" = Some (DWORD 1))
  /\
  (fst res = None ->
     value (snd res) p4 "DisableDynamicUpdate" = Some (DWORD 1) /\
     value (snd res) p6 "DisableDynamicUpdate" = Some (DWORD 1) /\
     value (snd res) p4 "EnableMulticast" = Some (DWORD 0) /\
     value (snd res) p6 "EnableMulticast" = Some (DWORD 0)).
Proof.
  cbv zeta. destruct (SetDNS_registry cfg st) as (Hr & _).
  destruct (SetDNS_spec configureWSL cfg st) as (_ & _ & He).
  unfold value. rewrite Hr, He. clear Hr He.
  unfold hostSetDNS, hostDNS, SetDNS_err. cbn [fst snd].
  pose proof (ifPath_v4_v6 (mgr st)) as Hne.
  assert (Hd : is_Some (registry st !! ifPath (mgr st) ipv4RegBase) ->
    regDDU (ifPath (mgr st) ipv4RegBase) (ifPath (mgr st) ipv6RegBase) (registry st)
      !! ifPath (mgr st) ipv4RegBase ≫= (.!! "DisableDynamicUpdate") = Some (DWORD 1)).
  { intros [k4 H4]. unfold regDDU. rewrite H4. rewrite !lookup_alter.
    repeat case_decide; try congruence. rewrite H4. cbn. unfold dduKey.
    apply lookup_insert_eq. }
  split.
  - intros Hk.
    destruct (length (MatchDomains cfg) =? 0)%nat; cbn [snd];
      [|destruct (nrptDB (mgr st)); cbn [snd]; [|auto]];
      rewrite regPrim_frame by (right; repeat split; discriminate); auto.
  - intros Hok.
    destruct (length (MatchDomains cfg) =? 0)%nat; cbn [snd];
      [|destruct (nrptDB (mgr st)); cbn [snd]; [|discriminate]];
      apply regPrim_regDDU_marks; assumption.
Qed.

(** The two modes exclude each other: after a call that returns no error,
    the NRPT rule table is empty (or the host has none) or no [NameServer]
    value is left under the keys of the interface. *)
Theorem SetDNS_modes_exclusive (cfg : OSConfig) (st : State) :
  let res := SetDNS configureWSL cfg st in
  fst res = None ->
  (forall db, nrptDB (mgr (snd res)) = Some db -> rules db = []) \/
  (value (snd res) (ifPath (mgr st) ipv4RegBase) "NameServer" = None /\
   value (snd res) (ifPath (mgr st) ipv6RegBase) "NameServer" = None).
Proof.
  cbv zeta. destruct (SetDNS_registry cfg st) as (Hr & Hn).
  destruct (SetDNS_spec configureWSL cfg st) as (_ & _ & He).
  unfold value. rewrite Hr, Hn, He. clear Hr Hn He.
  unfold hostSetDNS, hostDNS, SetDNS_err. cbn [fst snd].
  destruct (length (MatchDomains cfg) =? 0)%nat; cbn [fst snd].
  - intros _. left. intros db. destruct (nrptDB (mgr st)); intros [= <-]. reflexivity.
  - destruct (nrptDB (mgr st)); cbn [fst snd]; [|discriminate].
    intros Hk. right.
    destruct (regPrim_regDDU_values (mgr st) [] (SearchDomains cfg) (registry st) Hk)
      as (H4 & H6 & _). split; assumption.
Qed.

(** [Close] clears: when it returns no error, no [NameServer] and no
    [SearchList] value is left under the keys of the interface and the NRPT
    rule table is empty. *)
Theorem Close_clears (st : State) :
  let res := Close configureWSL st in
  let p4 := ifPath (mgr st) ipv4RegBase in
  let p6 := ifPath (mgr st) ipv6RegBase in
  fst res = None ->
  (forall db, nrptDB (mgr (snd res)) = Some db -> rules db = []) /\
  value (snd res) p4 "NameServer" = None /\
  value (snd res) p6 "NameServer" = None /\
  value (snd res) p4 "SearchList" = None /\
  value (snd res) p6 "SearchList" = None.
Proof.
  cbv zeta. unfold Close.
  destruct (SetDNS_registry (mkOSConfig [] [] []) st) as (Hr & Hn).
  destruct (SetDNS_spec configureWSL (mkOSConfig [] [] []) st) as (_ & _ & He).
  unfold value. rewrite Hr, Hn, He. clear Hr Hn He.
  unfold hostSetDNS, hostDNS, SetDNS_err. cbn [fst snd MatchDomains length Nat.eqb].
  intros Hk. split.
  - intros db. destruct (nrptDB (mgr st)); intros [= <-]. reflexivity.
  - exact (regPrim_regDDU_values (mgr st) [] [] (registry st) Hk).
Qed.

(** A failed call is not undone: on a host whose IPv6 key of the interface is
    missing, a call in primary mode returns the error of opening that key
    after it has emptied the NRPT rule table and written [NameServer] and
    [SearchList] under the IPv4 key; [EnableMulticast] is not reached. *)
Theorem SetDNS_missing_v6_key (cfg : OSConfig) (st : State) (k4 : Key) :
  let res := SetDNS configureWSL cfg st in
  let p4 := ifPath (mgr st) ipv4RegBase in
  let p6 := ifPath (mgr st) ipv6RegBase in
  MatchDomains cfg = [] ->
  registry st !! p4 = Some k4 ->
  registry st !! p6 = None ->
  fst res = Some ("opening " +:+ p6 +:+ ": key does not exist") /\
  (forall db, nrptDB (mgr (snd res)) = Some db -> rules db = []) /\
  value (snd res) p4 "NameServer" = joined (v4s (Nameservers cfg)) /\
  value (snd res) p4 "SearchList" = joined (map WithoutTrailingDot (SearchDomains cfg)) /\
  value (snd res) p4 "EnableMulticast" = k4 !! "EnableMulticast".
Proof.
  cbv zeta. intros Hm H4 H6.
  destruct (SetDNS_registry cfg st) as (Hr & Hn).
  destruct (SetDNS_spec configureWSL cfg st) as (_ & _ & He).
  unfold value. rewrite Hr, Hn, He. clear Hr Hn He.
  unfold hostSetDNS, hostDNS, SetDNS_err, keysErr. rewrite Hm, H4, H6.
  cbn [fst snd length Nat.eqb].
  pose proof (ifPath_v4_v6 (mgr st)) as Hne.
  rewrite regPrim_regDDU by assumption. rewrite H4, H6.
  rewrite lookup_alter. case_decide; [|congruence]. rewrite H4.
  cbn [fmap option_fmap option_map mbind option_bind].
  split; [reflexivity|]. split.
  { intros db. destruct (nrptDB (mgr st)); intros [= <-]. reflexivity. }
  unfold halfKey, dduKey.
  assert (Hj : forall name l (k : Key),
            wr name (length l =? 0)%nat l k !! name = joined l).
  { intros name l k. unfold wr, joined. destruct l; cbn [length Nat.eqb].
    - apply lookup_delete_eq.
    - apply lookup_insert_eq. }
  split; [|split].
  - rewrite wr_lookup by discriminate. apply Hj.
  - rewrite <- (length_map WithoutTrailingDot (SearchDomains cfg)). apply Hj.
  - rewrite !wr_lookup by discriminate. apply lookup_insert_ne. discriminate.
Qed.

End WindowsDNSMore.

Lemma SetDNS_last_call_wins_hosts :
  let st := dns.exState (Some (dns.mkNRPT [("old.example.", ["10.0.0.1"])])) in
  (dns.MatchDomains dns.exPrimaryCfg = [] \/ is_Some (dns.nrptDB (dns.mgr st))) /\
  dns.hostDNS (snd (dns.SetDNS false dns.exPrimaryCfg (snd (dns.SetDNS false dns.exSplitCfg st)))) =
  dns.hostDNS (snd (dns.SetDNS false dns.exPrimaryCfg st)).
Proof.
  cbv zeta.
  assert (H : dns.MatchDomains dns.exPrimaryCfg = [] \/
              is_Some (dns.nrptDB (dns.mgr (dns.exState
                (Some (dns.mkNRPT [("old.example.", ["10.0.0.1"])]))))))
    by (left; reflexivity).
  split; [exact H|].
  exact (SetDNS_last_call_wins false dns.exSplitCfg dns.exPrimaryCfg _ H).
Defined.

Lemma SetDNS_frame_host :
  let st := dns.exStateBusy in
  let st' := snd (dns.SetDNS false dns.exPrimaryCfg st) in
  let p4 := dns.ifPath (dns.mgr st) dns.ipv4RegBase in
  let p6 := dns.ifPath (dns.mgr st) dns.ipv6RegBase in
  (* the value the call writes, and the ones it has to leave *)
  dns.value st p4 "NameServer" = Some (dns.SZ "10.9.9.9") /\
  dns.value st' p4 "NameServer" = Some (dns.SZ "1.1.1.1,9.9.9.9") /\
  ((p4 <> p4 /\ p4 <> p6) \/
   ("RegistrationEnabled" <> "NameServer" /\ "RegistrationEnabled" <> "SearchList" /\
    "RegistrationEnabled" <> "EnableMulticast" /\
    "RegistrationEnabled" <> "DisableDynamicUpdate")) /\
  dns.value st' p4 "RegistrationEnabled" = dns.value st p4 "RegistrationEnabled" /\
  dns.value st p4 "RegistrationEnabled" = Some (dns.DWORD 1) /\
  dns.value st' p6 "Domain" = dns.value st p6 "Domain" /\
  dns.value st p6 "Domain" = Some (dns.SZ "lan") /\
  ((dns.otherIfPath <> p4 /\ dns.otherIfPath <> p6) \/
   ("NameServer" <> "NameServer" /\ "NameServer" <> "SearchList" /\
    "NameServer" <> "EnableMulticast" /\ "NameServer" <> "DisableDynamicUpdate")) /\
  dns.value st' dns.otherIfPath "NameServer" = dns.value st dns.otherIfPath "NameServer" /\
  dns.value st dns.otherIfPath "NameServer" = Some (dns.SZ "192.168.1.1") /\
  (* keys: one that exists stays, one that does not exist is not created *)
  (is_Some (dns.registry st' !! dns.otherIfPath) <->
   is_Some (dns.registry st !! dns.otherIfPath)) /\
  is_Some (dns.registry st !! dns.otherIfPath) /\
  (is_Some (dns.registry st' !! "SOFTWARE\Tailscale") <->
   is_Some (dns.registry st !! "SOFTWARE\Tailscale")) /\
  dns.registry st !! "SOFTWARE\Tailscale" = None.
Proof.
  cbv zeta.
  pose (st := dns.exStateBusy).
  pose (p4 := dns.ifPath (dns.mgr st) dns.ipv4RegBase).
  pose (p6 := dns.ifPath (dns.mgr st) dns.ipv6RegBase).
  assert (H1 : (p4 <> p4 /\ p4 <> p6) \/
               ("RegistrationEnabled" <> "NameServer" /\
                "RegistrationEnabled" <> "SearchList" /\
                "RegistrationEnabled" <> "EnableMulticast" /\
                "RegistrationEnabled" <> "DisableDynamicUpdate"))
    by (right; repeat split; discriminate).
  assert (H2 : (p6 <> p4 /\ p6 <> p6) \/
               ("Domain" <> "NameServer" /\ "Domain" <> "SearchList" /\
                "Domain" <> "EnableMulticast" /\ "Domain" <> "DisableDynamicUpdate"))
    by (right; repeat split; discriminate).
  assert (H3 : (dns.otherIfPath <> p4 /\ dns.otherIfPath <> p6) \/
               ("NameServer" <> "NameServer" /\ "NameServer" <> "SearchList" /\
                "NameServer" <> "EnableMulticast" /\
                "NameServer" <> "DisableDynamicUpdate"))
    by (left; split; vm_compute; discriminate).
  split; [vm_compute; reflexivity|].
  split; [vm_compute; reflexivity|].
  split; [exact H1|].
  split; [exact (proj2 (SetDNS_frame false dns.exPrimaryCfg st p4 "RegistrationEnabled") H1)|].
  split; [vm_compute; reflexivity|].
  split; [exact (proj2 (SetDNS_frame false dns.exPrimaryCfg st p6 "Domain") H2)|].
  split; [vm_compute; reflexivity|].
  split; [exact H3|].
  split; [exact (proj2 (SetDNS_frame false dns.exPrimaryCfg st dns.otherIfPath
                          "NameServer") H3)|].
  split; [vm_compute; reflexivity|].
  split; [exact (proj1 (SetDNS_frame false dns.exPrimaryCfg st dns.otherIfPath
                          "NameServer"))|].
  split; [exists (<["NameServer" := dns.SZ "192.168.1.1"]> ∅); vm_compute; reflexivity|].
  split; [exact (proj1 (SetDNS_frame false dns.exPrimaryCfg st "SOFTWARE\Tailscale"
                          "NameServer"))|].
  vm_compute. reflexivity.
Defined.

Lemma SetDNS_interface_flags_host :
  let st := dns.exState (Some (dns.mkNRPT [])) in
  let res := dns.SetDNS false dns.exSplitCfg st in
  let p4 := dns.ifPath (dns.mgr st) dns.ipv4RegBase in
  let p6 := dns.ifPath (dns.mgr st) dns.ipv6RegBase in
  fst res = None /\
  dns.value (snd res) p4 "DisableDynamicUpdate" = Some (dns.DWORD 1) /\
  dns.value (snd res) p6 "DisableDynamicUpdate" = Some (dns.DWORD 1) /\
  dns.value (snd res) p4 "EnableMulticast" = Some (dns.DWORD 0) /\
  dns.value (snd res) p6 "EnableMulticast" = Some (dns.DWORD 0).
Proof.
  cbv zeta.
  assert (H : fst (dns.SetDNS false dns.exSplitCfg (dns.exState (Some (dns.mkNRPT [])))) = None)
    by (vm_compute; reflexivity).
  split; [exact H|].
  exact (proj2 (SetDNS_interface_flags false dns.exSplitCfg
                  (dns.exState (Some (dns.mkNRPT [])))) H).
Defined.

Lemma SetDNS_modes_exclusive_host :
  let st := dns.exState (Some (dns.mkNRPT [])) in
  let res := dns.SetDNS false dns.exSplitCfg st in
  fst res = None /\
  ((forall db, dns.nrptDB (dns.mgr (snd res)) = Some db -> dns.rules db = []) \/
   (dns.value (snd res) (dns.ifPath (dns.mgr st) dns.ipv4RegBase) "NameServer" = None /\
    dns.value (snd res) (dns.ifPath (dns.mgr st) dns.ipv6RegBase) "NameServer" = None)).
Proof.
  cbv zeta.
  assert (H : fst (dns.SetDNS false dns.exSplitCfg (dns.exState (Some (dns.mkNRPT [])))) = None)
    by (vm_compute; reflexivity).
  split; [exact H|].
  exact (SetDNS_modes_exclusive false dns.exSplitCfg (dns.exState (Some (dns.mkNRPT []))) H).
Defined.

Lemma Close_clears_host :
  let st := snd (dns.SetDNS false dns.exSplitCfg (dns.exState (Some (dns.mkNRPT [])))) in
  let res := dns.Close false st in
  let p4 := dns.ifPath (dns.mgr st) dns.ipv4RegBase in
  let p6 := dns.ifPath (dns.mgr st) dns.ipv6RegBase in
  fst res = None /\
  (forall db, dns.nrptDB (dns.mgr (snd res)) = Some db -> dns.rules db = []) /\
  dns.value (snd res) p4 "NameServer" = None /\
  dns.value (snd res) p6 "NameServer" = None /\
  dns.value (snd res) p4 "SearchList" = None /\
  dns.value (snd res) p6 "SearchList" = None.
Proof.
  cbv zeta.
  pose (st := snd (dns.SetDNS false dns.exSplitCfg (dns.exState (Some (dns.mkNRPT []))))).
  assert (H : fst (dns.Close false st) = None) by (vm_compute; reflexivity).
  split; [exact H|].
  exact (Close_clears false st H).
Defined.

Lemma SetDNS_missing_v6_key_host :
  let st := dns.mkState (dns.exManager (Some (dns.mkNRPT [("old.example.", ["10.0.0.1"])])))
              (<[dns.ifPath (dns.exManager None) dns.ipv4RegBase :=
                   <["EnableMulticast" := dns.DWORD 1]> ∅]> ∅) [] in
  let res := dns.SetDNS false dns.exPrimaryCfg st in
  let p4 := dns.ifPath (dns.mgr st) dns.ipv4RegBase in
  let p6 := dns.ifPath (dns.mgr st) dns.ipv6RegBase in
  fst res = Some ("opening " +:+ p6 +:+ ": key does not exist") /\
  (forall db, dns.nrptDB (dns.mgr (snd res)) = Some db -> dns.rules db = []) /\
  dns.value (snd res) p4 "NameServer" = Some (dns.SZ "1.1.1.1,9.9.9.9") /\
  dns.value (snd res) p4 "SearchList" = Some (dns.SZ "tailscale.com,universe.tf") /\
  dns.value (snd res) p4 "EnableMulticast" = Some (dns.DWORD 1).
Proof.
  cbv zeta.
  pose (st := dns.mkState (dns.exManager (Some (dns.mkNRPT [("old.example.", ["10.0.0.1"])])))
              (<[dns.ifPath (dns.exManager None) dns.ipv4RegBase :=
                   <["EnableMulticast" := dns.DWORD 1]> ∅]> ∅) []).
  assert (Hm : dns.MatchDomains dns.exPrimaryCfg = []) by reflexivity.
  assert (H4 : dns.registry st !! dns.ifPath (dns.mgr st) dns.ipv4RegBase =
               Some (<["EnableMulticast" := dns.DWORD 1]> ∅))
    by (vm_compute; reflexivity).
  assert (H6 : dns.registry st !! dns.ifPath (dns.mgr st) dns.ipv6RegBase = None)
    by (vm_compute; reflexivity).
  exact (SetDNS_missing_v6_key false dns.exPrimaryCfg st _ Hm H4 H6).
Defined.

(** * The base resolver of the host *)
Section BaseResolverProps.
Import dns.

(** [sort.Slice] with the comparison of [getBasePrimaryResolver]: it
    rearranges the candidates, and afterwards no candidate comes after one of
    greater metric. *)
Variable sortSlice : list candidate -> list candidate.
Hypothesis sortSlice_perm : forall l, Permutation (sortSlice l) l.
Hypothesis sortSlice_sorted :
  forall l, StronglySorted (fun a b => (cand_metric a <= cand_metric b)%Z) (sortSlice l).

Lemma Unmap_idem ip : Unmap (Unmap ip) = Unmap ip.
Proof.
  destruct ip as [b|b]; [reflexivity|].
  cbn [Unmap]. case_bool_decide as Hb; [reflexivity|].
  cbn [Unmap]. rewrite bool_decide_eq_false_2 by assumption. reflexivity.
Qed.

Lemma ipLoop_accepts ips :
  Forall (fun ip => ~ In ip siteLocalResolvers /\ Unmap ip = ip) (ipLoop ips).
Proof.
  induction ips as [|stdip rest IH]; cbn [ipLoop]; [constructor|].
  destruct (AddrFromSlice stdip) as [ip|]; [|assumption].
  cbv zeta. unfold WithZone_empty.
  destruct (existsb _ siteLocalResolvers) eqn:He; [assumption|].
  constructor; [|assumption]. split; [|apply Unmap_idem].
  intros Hin. apply Bool.not_true_iff_false in He. apply He.
  apply existsb_exists. exists (Unmap ip). split; [assumption|].
  apply bool_decide_eq_true_2. reflexivity.
Qed.

Lemma candidateLoop_Forall (P : IP -> Prop) w cs : forall acc rs,
  (forall ips, Forall P (ipLoop ips)) ->
  Forall P acc -> candidateLoop w acc cs = inr rs -> Forall P rs.
Proof.
  induction cs as [|c rest IH]; intros acc rs HP Hacc; cbn [candidateLoop].
  - intros [= <-]. assumption.
  - destruct (LUID_DNS w (cand_id c)) as [err|ips]; [discriminate|]. cbv zeta.
    assert (Hacc' : Forall P (acc ++ ipLoop ips))
      by (apply Forall_app; split; [assumption | apply HP]).
    destruct (0 <? length (acc ++ ipLoop ips))%nat.
    + intros [= <-]. assumption.
    + apply IH; assumption.
Qed.

Lemma candidateLoop_found w cs : forall rs,
  candidateLoop w [] cs = inr rs -> rs <> [] ->
  exists pre c post ips,
    cs = pre ++ c :: post /\
    Forall (fun c' => no_real_resolver w (cand_id c')) pre /\
    LUID_DNS w (cand_id c) = inr ips /\ rs = ipLoop ips.
Proof.
  induction cs as [|c rest IH]; intros rs; cbn [candidateLoop].
  - intros [= <-] Hne. congruence.
  - destruct (LUID_DNS w (cand_id c)) as [err|ips] eqn:Hd; [discriminate|].
    cbv zeta. rewrite app_nil_l. destruct (ipLoop ips) as [|ip l] eqn:Hl.
    + cbn [length Nat.ltb Nat.leb]. intros Hr Hne.
      destruct (IH rs Hr Hne) as (pre & c0 & post & ips0 & -> & Hpre & Hd0 & ->).
      exists (c :: pre), c0, post, ips0. repeat split; try assumption.
      constructor; [|assumption]. exists ips. split; assumption.
    + cbn [length Nat.ltb Nat.leb]. intros [= <-] _.
      exists [], c, rest, ips. repeat split; try assumption; [constructor | congruence].
Qed.

Lemma candidateLoop_empty w cs :
  candidateLoop w [] cs = inr [] <->
  Forall (fun c' => no_real_resolver w (cand_id c')) cs.
Proof.
  induction cs as [|c rest IH]; cbn [candidateLoop].
  - split; [constructor | reflexivity].
  - destruct (LUID_DNS w (cand_id c)) as [err|ips] eqn:Hd.
    + split; [discriminate|]. intros H. inversion H as [|? ? (ips & Hd' & _) _]; congruence.
    + cbv zeta. rewrite app_nil_l. destruct (ipLoop ips) as [|ip l] eqn:Hl;
        cbn [length Nat.ltb Nat.leb].
      * rewrite IH. split.
        -- intros H. constructor; [exists ips; split; assumption | assumption].
        -- intros H. inversion H; assumption.
      * split; [discriminate|]. intros H.
        inversion H as [|? ? (ips' & Hd' & Hl') _]. congruence.
Qed.

Lemma StronglySorted_suffix {A} (R : A -> A -> Prop) (l1 l2 : list A) :
  StronglySorted R (l1 ++ l2) -> StronglySorted R l2.
Proof.
  induction l1 as [|x l1 IH]; cbn [app]; [auto|].
  intros H. apply StronglySorted_inv in H as (H & _). auto.
Qed.

Lemma In_candidatesOf tsLUID ifrows c :
  In c (candidatesOf tsLUID ifrows) <->
  exists row, In row ifrows /\ Connected row = true /\ InterfaceLUID row <> tsLUID /\
              c = mkCandidate (InterfaceLUID row) (dns.Metric row).
Proof.
  unfold candidatesOf. rewrite in_map_iff. split.
  - intros (row & <- & Hin). apply filter_In in Hin as (Hin & Hc).
    apply andb_true_iff in Hc as (Hc & Hl). apply negb_true_iff, Z.eqb_neq in Hl.
    exists row. auto.
  - intros (row & Hin & Hc & Hl & ->). exists row. split; [reflexivity|].
    apply filter_In. split; [assumption|]. rewrite Hc.
    apply Z.eqb_neq in Hl. rewrite Hl. reflexivity.
Qed.

Lemma getBasePrimaryResolver_table w m g tsLUID ifrows :
  GUIDFromString w (guid m) = inr g ->
  LUIDFromGUID w g = inr tsLUID ->
  interface_table w ifrows ->
  getBasePrimaryResolver sortSlice w m =
  if (length (candidatesOf tsLUID ifrows) =? 0)%nat then inr []
  else candidateLoop w [] (sortSlice (candidatesOf tsLUID ifrows)).
Proof.
  intros Hg Hl Ht. unfold getBasePrimaryResolver. rewrite Hg, Hl. cbv zeta.
  destruct Ht as [Ht|[Ht Ht6]]; rewrite Ht; [reflexivity|].
  rewrite String.eqb_refl, Ht6. reflexivity.
Qed.

(** [getBasePrimaryResolver] never returns one of the three site-local
    resolvers, and never an address in IPv4-mapped IPv6 form. *)
Theorem getBasePrimaryResolver_no_site_local
    (w : Winipcfg) (m : windowsManager) (rs : list IP) (ip : IP) :
  getBasePrimaryResolver sortSlice w m = inr rs ->
  In ip rs ->
  ~ In ip siteLocalResolvers /\ Unmap ip = ip.
Proof.
  clear sortSlice_perm sortSlice_sorted.
  intros Hr Hin.
  cut (Forall (fun ip => ~ In ip siteLocalResolvers /\ Unmap ip = ip) rs).
  { intros HF. rewrite List.Forall_forall in HF. exact (HF _ Hin). }
  clear ip Hin. unfold getBasePrimaryResolver in Hr.
  destruct (GUIDFromString w (guid m)) as [?|g]; [discriminate|].
  destruct (LUIDFromGUID w g) as [?|tsLUID]; [discriminate|].
  cbv zeta in Hr.
  destruct (match GetIPInterfaceTable w AF_INET with
            | inl err => if String.eqb err ERROR_NOT_FOUND
                         then GetIPInterfaceTable w AF_INET6 else inl err
            | inr ifrows => inr ifrows end) as [?|ifrows]; [discriminate|].
  destruct (length (candidatesOf tsLUID ifrows) =? 0)%nat.
  - injection Hr as <-. constructor.
  - eapply candidateLoop_Forall; [apply ipLoop_accepts | constructor | exact Hr].
Qed.

(** The resolvers returned are those of one connected interface other than
    Tailscale's, as the loop over its addresses accepts them, and every such
    interface of strictly smaller metric had no resolver the loop accepts. *)
Theorem getBasePrimaryResolver_lowest_metric
    (w : Winipcfg) (m : windowsManager) (g : string) (tsLUID : Z)
    (ifrows : list IPInterfaceRow) (rs : list IP) :
  GUIDFromString w (guid m) = inr g ->
  LUIDFromGUID w g = inr tsLUID ->
  interface_table w ifrows ->
  getBasePrimaryResolver sortSlice w m = inr rs ->
  rs <> [] ->
  exists row ips,
    In row ifrows /\ Connected row = true /\ InterfaceLUID row <> tsLUID /\
    LUID_DNS w (InterfaceLUID row) = inr ips /\ rs = ipLoop ips /\
    forall row',
      In row' ifrows -> Connected row' = true -> InterfaceLUID row' <> tsLUID ->
      (dns.Metric row' < dns.Metric row)%Z ->
      no_real_resolver w (InterfaceLUID row').
Proof.
  intros Hg Hl Ht Hr Hne.
  rewrite (getBasePrimaryResolver_table w m g tsLUID ifrows Hg Hl Ht) in Hr.
  destruct (length (candidatesOf tsLUID ifrows) =? 0)%nat; [congruence|].
  destruct (candidateLoop_found w _ rs Hr Hne)
    as (pre & c & post & ips & Hs & Hpre & Hd & ->).
  assert (Hc : In c (candidatesOf tsLUID ifrows)).
  { eapply Permutation_in; [apply sortSlice_perm|]. rewrite Hs.
    apply in_or_app. right. left. reflexivity. }
  apply In_candidatesOf in Hc as (row & Hin & Hcon & Hlu & ->).
  exists row, ips. cbn [cand_id] in Hd. repeat split; try assumption.
  intros row' Hin' Hcon' Hlu' Hlt.
  assert (Hc' : In (mkCandidate (InterfaceLUID row') (dns.Metric row'))
                  (sortSlice (candidatesOf tsLUID ifrows))).
  { eapply Permutation_in; [symmetry; apply sortSlice_perm|].
    apply In_candidatesOf. exists row'. auto. }
  pose proof (sortSlice_sorted (candidatesOf tsLUID ifrows)) as Hsorted.
  rewrite Hs in Hc', Hsorted.
  apply in_app_or in Hc' as [Hc'|Hc'].
  - rewrite List.Forall_forall in Hpre. exact (Hpre _ Hc').
  - exfalso. apply StronglySorted_suffix in Hsorted.
    apply StronglySorted_inv in Hsorted as (_ & Hall).
    destruct Hc' as [Hc'|Hc'].
    + apply (f_equal cand_metric) in Hc'. cbn [cand_metric] in Hc'. lia.
    + rewrite List.Forall_forall in Hall. specialize (Hall _ Hc').
      cbn [cand_metric] in Hall. lia.
Qed.

(** The result is empty exactly when no connected interface other than
    Tailscale's has a resolver the loop accepts; with no such interface at all
    it is empty whatever [DNS()] would return. *)
Theorem getBasePrimaryResolver_empty
    (w : Winipcfg) (m : windowsManager) (g : string) (tsLUID : Z)
    (ifrows : list IPInterfaceRow) :
  GUIDFromString w (guid m) = inr g ->
  LUIDFromGUID w g = inr tsLUID ->
  interface_table w ifrows ->
  (getBasePrimaryResolver sortSlice w m = inr [] <->
   forall row, In row ifrows -> Connected row = true -> InterfaceLUID row <> tsLUID ->
               no_real_resolver w (InterfaceLUID row)).
Proof.
  clear sortSlice_sorted.
  intros Hg Hl Ht.
  rewrite (getBasePrimaryResolver_table w m g tsLUID ifrows Hg Hl Ht).
  assert (Hall : Forall (fun c' => no_real_resolver w (cand_id c'))
                   (sortSlice (candidatesOf tsLUID ifrows)) <->
                 forall row, In row ifrows -> Connected row = true ->
                   InterfaceLUID row <> tsLUID -> no_real_resolver w (InterfaceLUID row)).
  { rewrite List.Forall_forall. split.
    - intros H row Hin Hc Hlu.
      apply (H (mkCandidate (InterfaceLUID row) (dns.Metric row))).
      eapply Permutation_in; [symmetry; apply sortSlice_perm|].
      apply In_candidatesOf. exists row. auto.
    - intros H c Hc. eapply Permutation_in in Hc; [|apply sortSlice_perm].
      apply In_candidatesOf in Hc as (row & Hin & Hcon & Hlu & ->).
      cbn [cand_id]. auto. }
  destruct (length (candidatesOf tsLUID ifrows) =? 0)%nat eqn:Hlen.
  - split; [|reflexivity]. intros _. apply Hall.
    apply Nat.eqb_eq, length_zero_iff_nil in Hlen.
    pose proof (sortSlice_perm (candidatesOf tsLUID ifrows)) as Hp.
    rewrite Hlen in Hp. symmetry in Hp. apply Permutation_nil in Hp. rewrite Hlen, Hp. constructor.
  - rewrite candidateLoop_empty. exact Hall.
Qed.

End BaseResolverProps.

Lemma insert_candidate_perm c l : Permutation (dns.insert_candidate c l) (c :: l).
Proof.
  induction l as [|x l IH]; cbn [dns.insert_candidate]; [reflexivity|].
  destruct (dns.cand_metric c <? dns.cand_metric x)%Z; [reflexivity|].
  rewrite IH. apply perm_swap.
Qed.

Lemma insertion_sort_perm l : Permutation (dns.insertion_sort l) l.
Proof.
  induction l as [|c l IH]; [reflexivity|].
  change (dns.insertion_sort (c :: l))
    with (dns.insert_candidate c (dns.insertion_sort l)).
  rewrite insert_candidate_perm, IH. reflexivity.
Qed.

Lemma insert_candidate_sorted c l :
  StronglySorted (fun a b => (dns.cand_metric a <= dns.cand_metric b)%Z) l ->
  StronglySorted (fun a b => (dns.cand_metric a <= dns.cand_metric b)%Z)
    (dns.insert_candidate c l).
Proof.
  induction l as [|x l IH]; cbn [dns.insert_candidate]; intros Hs.
  - constructor; constructor.
  - apply StronglySorted_inv in Hs as (Hs & Hx).
    destruct (dns.cand_metric c <? dns.cand_metric x)%Z eqn:Hc.
    + apply Z.ltb_lt in Hc. constructor; [constructor; assumption|].
      constructor; [lia|]. eapply List.Forall_impl; [|exact Hx]. cbn. intros; lia.
    + apply Z.ltb_ge in Hc. constructor; [auto|].
      eapply Permutation_Forall; [symmetry; apply insert_candidate_perm|].
      constructor; assumption.
Qed.

Lemma insertion_sort_sorted l :
  StronglySorted (fun a b => (dns.cand_metric a <= dns.cand_metric b)%Z)
    (dns.insertion_sort l).
Proof.
  induction l as [|c l IH]; [constructor|].
  change (dns.insertion_sort (c :: l))
    with (dns.insert_candidate c (dns.insertion_sort l)).
  apply insert_candidate_sorted. assumption.
Qed.

Lemma getBasePrimaryResolver_no_site_local_host :
  dns.getBasePrimaryResolver dns.insertion_sort dns.exWinipcfg (dns.exManager None) =
    inr [dns.IP4 [192; 168; 1; 1]; dns.IP4 [8; 8; 8; 8]] /\
  In (dns.IP4 [8; 8; 8; 8]) [dns.IP4 [192; 168; 1; 1]; dns.IP4 [8; 8; 8; 8]] /\
  ~ In (dns.IP4 [8; 8; 8; 8]) dns.siteLocalResolvers /\
  dns.Unmap (dns.IP4 [8; 8; 8; 8]) = dns.IP4 [8; 8; 8; 8].
Proof.
  assert (Hr : dns.getBasePrimaryResolver dns.insertion_sort dns.exWinipcfg
                 (dns.exManager None) =
               inr [dns.IP4 [192; 168; 1; 1]; dns.IP4 [8; 8; 8; 8]])
    by (vm_compute; reflexivity).
  assert (Hin : In (dns.IP4 [8; 8; 8; 8])
                  [dns.IP4 [192; 168; 1; 1]; dns.IP4 [8; 8; 8; 8]])
    by (right; left; reflexivity).
  split; [exact Hr|]. split; [exact Hin|].
  exact (getBasePrimaryResolver_no_site_local dns.insertion_sort dns.exWinipcfg
           (dns.exManager None) _ _ Hr Hin).
Defined.

Lemma getBasePrimaryResolver_lowest_metric_host :
  let rows := [dns.mkRow4 false 1 1; dns.mkRow4 true 7 1; dns.mkRow4 true 4 50;
               dns.mkRow4 true 2 5; dns.mkRow4 true 3 25] in
  let rs := [dns.IP4 [192; 168; 1; 1]; dns.IP4 [8; 8; 8; 8]] in
  dns.getBasePrimaryResolver dns.insertion_sort dns.exWinipcfg (dns.exManager None) =
    inr rs /\
  exists row ips,
    In row rows /\ dns.Connected row = true /\ dns.InterfaceLUID row <> 7%Z /\
    dns.LUID_DNS dns.exWinipcfg (dns.InterfaceLUID row) = inr ips /\
    rs = dns.ipLoop ips /\
    forall row',
      In row' rows -> dns.Connected row' = true -> dns.InterfaceLUID row' <> 7%Z ->
      (dns.Metric row' < dns.Metric row)%Z ->
      dns.no_real_resolver dns.exWinipcfg (dns.InterfaceLUID row').
Proof.
  cbv zeta.
  assert (Hr : dns.getBasePrimaryResolver dns.insertion_sort dns.exWinipcfg
                 (dns.exManager None) =
               inr [dns.IP4 [192; 168; 1; 1]; dns.IP4 [8; 8; 8; 8]])
    by (vm_compute; reflexivity).
  split; [exact Hr|].
  apply (getBasePrimaryResolver_lowest_metric dns.insertion_sort
           insertion_sort_perm insertion_sort_sorted dns.exWinipcfg
           (dns.exManager None) (dns.guid (dns.exManager None)) 7%Z);
    [reflexivity | reflexivity | left; reflexivity | exact Hr | discriminate].
Defined.

Lemma getBasePrimaryResolver_empty_host :
  dns.interface_table dns.exWinipcfgV6 [dns.mkRow4 true 7 1; dns.mkRow4 true 2 5] /\
  (dns.getBasePrimaryResolver dns.insertion_sort dns.exWinipcfgV6 (dns.exManager None) =
     inr [] <->
   forall row,
     In row [dns.mkRow4 true 7 1; dns.mkRow4 true 2 5] -> dns.Connected row = true ->
     dns.InterfaceLUID row <> 7%Z ->
     dns.no_real_resolver dns.exWinipcfgV6 (dns.InterfaceLUID row)).
Proof.
  assert (Ht : dns.interface_table dns.exWinipcfgV6
                 [dns.mkRow4 true 7 1; dns.mkRow4 true 2 5])
    by (right; split; reflexivity).
  split; [exact Ht|].
  apply (getBasePrimaryResolver_empty dns.insertion_sort insertion_sort_perm
           dns.exWinipcfgV6 (dns.exManager None) (dns.guid (dns.exManager None)) 7%Z);
    [reflexivity | reflexivity | exact Ht].
Defined.

(** * Further properties of the Local API *)
Section LocalAPIMore.
Import localapi.

Variable version_Long : string.
Variable ParseAddr : string -> option Addr.
Variable ParseAddrPort : string -> option AddrPort.
Variable ParseInt : string -> option Z.
Variable PathUnescape : string -> option string.
Variable url_Parse : string -> bool.
Variable Quote : string -> string.
Variable runtime_Stack : string.
Variable WritePrometheusExpositionFormat : World -> string.
Variable serveProfileFunc : option (Request -> World -> World).
Variable serveCert : Handler -> LocalBackend -> Request -> World -> World.

Local Abbreviation serve :=
  (ServeHTTP version_Long ParseAddr ParseAddrPort ParseInt PathUnescape url_Parse
     Quote runtime_Stack WritePrometheusExpositionFormat serveProfileFunc serveCert).

Local Abbreviation route :=
  (dispatch ParseAddr ParseAddrPort ParseInt PathUnescape url_Parse
     Quote runtime_Stack WritePrometheusExpositionFormat serveProfileFunc serveCert).

(** ** The backend calls of a request *)

Lemma calls_http_Error msg code st : calls (http_Error msg code st) = calls st.
Proof. reflexivity. Qed.
Lemma calls_Header_Set k v st : calls (Header_Set k v st) = calls st.
Proof. reflexivity. Qed.
Lemma calls_WriteHeader code st : calls (WriteHeader code st) = calls st.
Proof. reflexivity. Qed.
Lemma calls_Write c st : calls (Write c st) = calls st.
Proof. reflexivity. Qed.
Lemma calls_Encode v st : calls (Encode v st) = calls st.
Proof. reflexivity. Qed.
Lemma calls_writeErrorJSON err st : calls (writeErrorJSON err st) = calls st.
Proof. reflexivity. Qed.
Lemma calls_logf line st : calls (logf line st) = calls st.
Proof. reflexivity. Qed.
Lemma calls_set_conn c st : calls (set_conn c st) = calls st.
Proof. reflexivity. Qed.
Lemma calls_set_prefs p st : calls (set_prefs p st) = calls st.
Proof. reflexivity. Qed.
Lemma calls_set_consumed n st : calls (set_consumed n st) = calls st.
Proof. reflexivity. Qed.
Lemma calls_call c st : calls (call c st) = calls st ++ [c].
Proof. reflexivity. Qed.

Lemma calls_Metric_Add ptr n st : calls (Metric_Add ptr n st) = calls st.
Proof. unfold Metric_Add. destruct (heap st !! ptr); reflexivity. Qed.

Lemma calls_NewMetric name typ st : calls (snd (NewMetric name typ st)) = calls st.
Proof. unfold NewMetric. destruct (HasPublished name st); reflexivity. Qed.

Lemma uploadLoop_calls (l : list clientMetricJSON) (st : World) :
  calls (snd (uploadLoop l st)) = calls st.
Proof.
  revert st. induction l as [|m l IH]; intros st; [reflexivity|].
  cbn [uploadLoop].
  destruct (metrics st !! Name m); [rewrite IH; apply calls_Metric_Add|].
  destruct (HasPublished (Name m) st); [reflexivity|].
  assert (Hnew : forall t,
    calls (snd (match NewMetric (Name m) t st with
                | (None, st0) => (Panics, panic ("duplicate metric " +:+ Name m) st0)
                | (Some metric, st0) =>
                    uploadLoop l (Metric_Add metric (wrap64 (Value m))
                                    (set_metrics (<[Name m := metric]> (metrics st0)) st0))
                end)) = calls st).
  { intros t. pose proof (calls_NewMetric (Name m) t st) as Hn.
    destruct (NewMetric (Name m) t st) as [[ptr|] st1]; cbn [snd] in *.
    - rewrite IH, calls_Metric_Add. exact Hn.
    - exact Hn. }
  destruct (String.eqb (Type_ m) "counter"); [apply Hnew|].
  destruct (String.eqb (Type_ m) "gauge"); [apply Hnew|reflexivity].
Qed.

Ltac calls_simpl :=
  repeat (rewrite calls_http_Error || rewrite calls_Header_Set
          || rewrite calls_WriteHeader || rewrite calls_Write || rewrite calls_Encode
          || rewrite calls_writeErrorJSON || rewrite calls_logf
          || rewrite calls_set_conn || rewrite calls_set_prefs
          || rewrite calls_set_consumed || rewrite calls_call
          || rewrite calls_Metric_Add).

(** Splits on the innermost test or scrutinee first. *)
Ltac split_inner :=
  repeat match goal with
  | |- context [match ?x with _ => _ end] =>
      lazymatch x with
      | context [match _ with _ => _ end] => fail
      | _ => destruct x eqn:?
      end
  end.

Ltac upload_calls :=
  repeat match goal with
  | E : uploadLoop ?l ?s = (_, ?w) |- _ =>
      let H := fresh in
      pose proof (uploadLoop_calls l s) as H; rewrite E in H; cbn [snd] in H;
      rewrite H; clear E H
  end.

Ltac calls_done Hr :=
  calls_simpl; upload_calls; calls_simpl;
  first
    [ exists []; split; [symmetry; apply app_nil_r | reflexivity]
    | eexists [_]; split;
      [reflexivity
      | cbn [forallb readonly_call call_permission andb]; rewrite ?Hr; reflexivity]
    | eexists [_; _]; split;
      [rewrite <- app_assoc; reflexivity
      | cbn [forallb readonly_call call_permission andb]; rewrite Hr; reflexivity] ].

Lemma dispatch_readonly (h : Handler) (bk : LocalBackend) (r : Request) (st : World) :
  PermitWrite h = false ->
  HasPrefix (Path r) "/localapi/v0/cert/" = false ->
  exists l, calls (route h bk r st) = calls st ++ l /\
            forallb (readonly_call h) l = true.
Proof.
  intros Hw Hcert. unfold dispatch. rewrite Hcert.
  unfold serveFiles, serveFilePut, serveWhoIs, serveGoroutines, serveProfile,
    serveStatus, serveLogout, serveLoginInteractive, servePrefs, serveCheckPrefs,
    serveCheckIPForwarding, serveBugReport, serveFileTargets, serveSetDNS,
    serveDERPMap, serveMetrics, serveDebug, serveSetExpirySooner, serveDial,
    serveIDToken, serveUploadClientMetrics, servePing, randHex.
  rewrite !Hw. cbn [negb]. cbv beta iota zeta.
  destruct (PermitRead h) eqn:Hr; cbn [negb]; cbv beta iota zeta.
  - split_inner; calls_done Hr.
  - split_inner; calls_done Hr.
Qed.

(** A connection without [PermitWrite] reaches the backend only through the
    methods whose handlers check no permission ([DERPMap], [SetExpirySooner],
    [Ping], [UserDial]) and, if it has [PermitRead], through those of the
    handlers that check [PermitRead]; the certificate handler apart. *)
Theorem readonly_backend_calls (h : Handler) (r : Request) (st : World) :
  PermitWrite h = false ->
  HasPrefix (Path r) "/localapi/v0/cert/" = false ->
  exists l, calls (serve h r st) = calls st ++ l /\
            forallb (readonly_call h) l = true.
Proof.
  intros Hw Hcert. unfold ServeHTTP.
  destruct (b h) as [bk|];
    [|exists []; split; [symmetry; apply app_nil_r | reflexivity]].
  destruct (dispatch_readonly h bk r
              (Header_Set "Tailscale-Version" version_Long st) Hw Hcert)
    as (l & Hl & Hall).
  rewrite calls_Header_Set in Hl.
  destruct (negb (String.eqb (RequiredPassword h) ""));
    [destruct (BasicAuth r) as [[user pass]|];
       [destruct (negb (String.eqb pass (RequiredPassword h)))|]|];
    try (exists l; split; assumption);
    exists []; split; try reflexivity; symmetry; apply app_nil_r.
Qed.

(** ** The version header *)

Lemma version_http_Error msg code st :
  reply_header "Tailscale-Version" (http_Error msg code st) =
  reply_header "Tailscale-Version" st.
Proof.
  destruct st as [[hd [stt|] bo hj] ? ? ? ? ? ? ? ? ? ? ?]; unfold reply_header;
    cbn; rewrite !lookup_insert_ne by discriminate; reflexivity.
Qed.

Lemma version_Header_Set k v st :
  k <> "Tailscale-Version" ->
  reply_header "Tailscale-Version" (Header_Set k v st) =
  reply_header "Tailscale-Version" st.
Proof.
  intros Hk. destruct st as [[hd stt bo hj] ? ? ? ? ? ? ? ? ? ? ?].
  unfold reply_header. cbn. apply lookup_insert_ne. assumption.
Qed.

Lemma version_WriteHeader code st :
  reply_header "Tailscale-Version" (WriteHeader code st) =
  reply_header "Tailscale-Version" st.
Proof. destruct st as [[hd [stt|] bo hj] ? ? ? ? ? ? ? ? ? ? ?]; reflexivity. Qed.

Lemma version_Write c st :
  reply_header "Tailscale-Version" (Write c st) = reply_header "Tailscale-Version" st.
Proof. destruct st as [[hd [stt|] bo hj] ? ? ? ? ? ? ? ? ? ? ?]; reflexivity. Qed.

Lemma version_Encode v st :
  reply_header "Tailscale-Version" (Encode v st) = reply_header "Tailscale-Version" st.
Proof. apply version_Write. Qed.

Lemma version_writeErrorJSON err st :
  reply_header "Tailscale-Version" (writeErrorJSON err st) =
  reply_header "Tailscale-Version" st.
Proof.
  unfold writeErrorJSON. rewrite version_Encode, version_WriteHeader.
  apply version_Header_Set. discriminate.
Qed.

Lemma version_rw key st st' : rw st' = rw st -> reply_header key st' = reply_header key st.
Proof. unfold reply_header. intros ->. reflexivity. Qed.

Lemma header_call key c st : reply_header key (call c st) = reply_header key st.
Proof. reflexivity. Qed.
Lemma header_logf key line st : reply_header key (logf line st) = reply_header key st.
Proof. reflexivity. Qed.
Lemma header_set_conn key c st : reply_header key (set_conn c st) = reply_header key st.
Proof. reflexivity. Qed.
Lemma header_set_prefs key p st : reply_header key (set_prefs p st) = reply_header key st.
Proof. reflexivity. Qed.
Lemma header_set_consumed key n st :
  reply_header key (set_consumed n st) = reply_header key st.
Proof. reflexivity. Qed.
Lemma header_panic key msg st : reply_header key (panic msg st) = reply_header key st.
Proof. reflexivity. Qed.

Ltac version_simpl :=
  repeat (rewrite version_http_Error || rewrite version_WriteHeader
          || rewrite version_Write || rewrite version_Encode
          || rewrite version_writeErrorJSON
          || (rewrite version_Header_Set by discriminate)
          || rewrite header_call || rewrite header_logf || rewrite header_set_conn
          || rewrite header_set_prefs || rewrite header_set_consumed
          || rewrite header_panic).

Ltac upload_version :=
  repeat match goal with
  | E : uploadLoop ?l ?s = (_, ?w) |- _ =>
      let H := fresh in
      pose proof (uploadLoop_rw l s) as H; rewrite E in H; cbn [snd] in H;
      rewrite (version_rw "Tailscale-Version" s w H); clear E H
  end.

Lemma dispatch_version (h : Handler) (bk : LocalBackend) (r : Request) (st : World) :
  HasPrefix (Path r) "/localapi/v0/file-put/" = false ->
  HasPrefix (Path r) "/localapi/v0/cert/" = false ->
  Path r <> "/localapi/v0/profile" ->
  reply_header "Tailscale-Version" (route h bk r st) =
  reply_header "Tailscale-Version" st.
Proof.
  intros Hput Hcert Hprof. apply String.eqb_neq in Hprof.
  unfold dispatch. rewrite Hput, Hcert, Hprof.
  unfold serveFiles, serveWhoIs, serveGoroutines,
    serveStatus, serveLogout, serveLoginInteractive, servePrefs, serveCheckPrefs,
    serveCheckIPForwarding, serveBugReport, serveFileTargets, serveSetDNS,
    serveDERPMap, serveMetrics, serveDebug, serveSetExpirySooner, serveDial,
    serveIDToken, serveUploadClientMetrics, servePing, randHex, EditPrefs.
  cbv beta iota zeta.
  destruct (PermitRead h), (PermitWrite h); cbn [negb]; cbv beta iota zeta;
    split_inner; version_simpl; upload_version; version_simpl; reflexivity.
Qed.

(** Every reply of a handler that has a backend carries the header
    [Tailscale-Version] with [version.Long], also a reply that refuses the
    request; the certificate and profile handlers and the proxy of [file-put]
    apart. *)
Theorem reply_carries_version (h : Handler) (bk : LocalBackend) (r : Request)
    (st : World) :
  b h = Some bk ->
  HasPrefix (Path r) "/localapi/v0/file-put/" = false ->
  HasPrefix (Path r) "/localapi/v0/cert/" = false ->
  Path r <> "/localapi/v0/profile" ->
  reply_header "Tailscale-Version" (serve h r st) = Some version_Long.
Proof.
  intros Hb Hput Hcert Hprof. unfold ServeHTTP. rewrite Hb.
  assert (H1 : reply_header "Tailscale-Version"
                 (Header_Set "Tailscale-Version" version_Long st) = Some version_Long).
  { destruct st as [[hd stt bo hj] ? ? ? ? ? ? ? ? ? ? ?]. unfold reply_header. cbn.
    apply lookup_insert_eq. }
  destruct (negb (String.eqb (RequiredPassword h) ""));
    [destruct (BasicAuth r) as [[user pass]|];
       [destruct (negb (String.eqb pass (RequiredPassword h)))|]|];
    rewrite ?version_http_Error, ?dispatch_version by assumption; exact H1.
Qed.

(** ** Paths outside the API *)

Lemma prefix_trans a : forall b s,
  String.prefix a b = true -> String.prefix b s = true -> String.prefix a s = true.
Proof.
  induction a as [|c a IH]; intros b s Hab Hbs; [destruct s; reflexivity|].
  destruct b as [|d b]; [discriminate Hab|].
  destruct s as [|e s]; [discriminate Hbs|].
  cbn [String.prefix] in *.
  destruct (Ascii.ascii_dec c d); [subst d|discriminate].
  destruct (Ascii.ascii_dec c e); [|discriminate]. eauto.
Qed.

Lemma prefix_refl s : String.prefix s s = true.
Proof.
  induction s as [|c s IH]; [reflexivity|]. cbn [String.prefix].
  destruct (Ascii.ascii_dec c c); [assumption|congruence].
Qed.

Lemma outside_no_prefix p L :
  HasPrefix p "/localapi/v0/" = false -> HasPrefix L "/localapi/v0/" = true ->
  HasPrefix p L = false.
Proof.
  unfold HasPrefix. intros Hp HL. destruct (String.prefix L p) eqn:E; [|reflexivity].
  rewrite (prefix_trans _ _ _ HL E) in Hp. discriminate.
Qed.

Lemma outside_no_eq p L :
  HasPrefix p "/localapi/v0/" = false -> HasPrefix L "/localapi/v0/" = true ->
  String.eqb p L = false.
Proof.
  intros Hp HL. destruct (String.eqb p L) eqn:E; [|reflexivity].
  apply String.eqb_eq in E. subst. congruence.
Qed.

Lemma Status_Write c st : rw_status (rw st) = None -> Status (Write c st) = 200.
Proof.
  destruct st as [[hd stt bo hj] ? ? ? ? ? ? ? ? ? ? ?]. cbn. intros ->. reflexivity.
Qed.

(** A path that does not start with [/localapi/v0/] reaches no handler: the
    root path is answered with the line [tailscaled], any other with 404, and
    nothing behind the response is touched. *)
Theorem outside_api_paths (h : Handler) (bk : LocalBackend) (r : Request) (st : World) :
  b h = Some bk ->
  RequiredPassword h = "" ->
  HasPrefix (Path r) "/localapi/v0/" = false ->
  effects (serve h r st) = effects st /\
  rw_body (rw (serve h r st)) =
    rw_body (rw st) ++
      [Text (if String.eqb (Path r) "/" then "tailscaled" +:+ LF
             else "404 not found" +:+ LF)] /\
  (rw_status (rw st) = None ->
   Status (serve h r st) = if String.eqb (Path r) "/" then 200 else 404).
Proof.
  intros Hb Hpw Hout. unfold ServeHTTP. rewrite Hb, Hpw.
  cbn [String.eqb negb]. unfold dispatch.
  repeat match goal with
  | |- context [HasPrefix (Path r) ?L] => rewrite (outside_no_prefix _ L Hout eq_refl)
  | |- context [String.eqb (Path r) ?L] => rewrite (outside_no_eq _ L Hout eq_refl)
  end.
  cbv iota.
  destruct (String.eqb (Path r) "/").
  - split; [reflexivity|]. split; [rewrite body_Write; reflexivity|].
    intros Hf. apply Status_Write. exact Hf.
  - split; [reflexivity|]. split; [rewrite body_http_Error; reflexivity|].
    intros Hf. apply Status_http_Error. exact Hf.
Qed.

(** ** Method checks *)

Ltac path_tests :=
  repeat (simpl (HasPrefix _ _) || simpl (String.eqb _ _)); cbv iota.

Lemma dispatch_wrong_method (h : Handler) (bk : LocalBackend) (r : Request)
    (st : World) (path meth : string) (code : Z) :
  In (path, meth, code) method_checks ->
  Path r = path -> Method r <> meth ->
  effects (route h bk r st) = effects st /\
  (rw_status (rw st) = None -> PermitRead h = true -> PermitWrite h = true ->
   Status (route h bk r st) = code).
Proof.
  intros Hin Hpath Hmeth. apply String.eqb_neq in Hmeth.
  unfold method_checks in Hin. cbn [In] in Hin.
  repeat match type of Hin with _ \/ _ => destruct Hin as [Hin|Hin] end;
    try contradiction; injection Hin as <- <- <-;
    unfold dispatch; rewrite Hpath; path_tests;
    unfold serveDebug, serveLoginInteractive, serveLogout, serveCheckPrefs,
      serveFileTargets, serveSetDNS, serveDERPMap, serveSetExpirySooner, servePing,
      serveDial, serveUploadClientMetrics;
    rewrite Hmeth; cbn [negb];
    (split;
     [ destruct (PermitRead h), (PermitWrite h); reflexivity
     | intros Hf Hr Hw; rewrite ?Hr, ?Hw; cbn [negb];
       apply Status_http_Error; exact Hf ]).
Qed.

(** A request with another method than the one its handler insists on
    touches nothing behind the response, whatever the connection may do; to a
    connection with both permissions and no password to give, the answer is
    the 400 or 405 of that handler. *)
Theorem wrong_method_rejected (h : Handler) (bk : LocalBackend) (r : Request)
    (st : World) (path meth : string) (code : Z) :
  b h = Some bk ->
  In (path, meth, code) method_checks ->
  Path r = path -> Method r <> meth ->
  effects (serve h r st) = effects st /\
  (rw_status (rw st) = None -> RequiredPassword h = "" ->
   PermitRead h = true -> PermitWrite h = true ->
   Status (serve h r st) = code).
Proof.
  intros Hb Hin Hpath Hmeth. unfold ServeHTTP. rewrite Hb.
  destruct (dispatch_wrong_method h bk r
              (Header_Set "Tailscale-Version" version_Long st) path meth code
              Hin Hpath Hmeth) as (He & Hs).
  split.
  - destruct (negb (String.eqb (RequiredPassword h) ""));
      [destruct (BasicAuth r) as [[user pass]|];
         [destruct (negb (String.eqb pass (RequiredPassword h)))|]|];
      try exact He; reflexivity.
  - intros Hf Hpw Hr Hw. rewrite Hpw. cbn [String.eqb negb].
    apply Hs; assumption.
Qed.

(** ** The peers of a status *)

(** [/localapi/v0/status] asks the backend for the status without peers
    exactly when the [peers] parameter is one of the six texts that
    [strconv.ParseBool] reads as false; an absent or malformed value gives the
    full status. *)
Theorem status_peers_flag (h : Handler) (bk : LocalBackend) (r : Request) (st : World) :
  b h = Some bk ->
  RequiredPassword h = "" ->
  PermitRead h = true ->
  Path r = "/localapi/v0/status" ->
  calls (serve h r st) =
    calls st ++
      [if existsb (String.eqb (FormValue r "peers"))
            ["0"; "f"; "F"; "FALSE"; "false"; "False"]
       then Call_StatusWithoutPeers else Call_Status].
Proof.
  intros Hb Hpw Hr Hpath. unfold ServeHTTP. rewrite Hb, Hpw.
  cbn [String.eqb negb]. unfold dispatch. rewrite Hpath. path_tests.
  unfold serveStatus. rewrite Hr. cbn [negb]. cbv zeta.
  unfold defBool, ParseBool.
  generalize (FormValue r "peers"). intros a.
  destruct (String.eqb a "") eqn:Ee.
  { apply String.eqb_eq in Ee. subst a. reflexivity. }
  destruct (existsb (String.eqb a) ["1"; "t"; "T"; "TRUE"; "true"; "True"]) eqn:Et.
  { apply existsb_exists in Et as (x & Hin & Hx). apply String.eqb_eq in Hx. subst x.
    cbn [In] in Hin.
    repeat match type of Hin with _ \/ _ => destruct Hin as [Hin|Hin] end;
      try contradiction; subst a; reflexivity. }
  destruct (existsb (String.eqb a) ["0"; "f"; "F"; "FALSE"; "false"; "False"]);
    reflexivity.
Qed.

(** ** Who edits the preferences *)

Ltac edit_done :=
  calls_simpl; upload_calls; calls_simpl;
  first
    [ exists []; split; [symmetry; apply app_nil_r | intros mp []]
    | eexists [_]; split;
      [ reflexivity
      | intros mp [Hc|[]];
        first [ discriminate Hc
              | injection Hc as <-;
                repeat split;
                first [assumption | reflexivity | apply String.eqb_eq; assumption] ] ]
    | eexists [_; _]; split;
      [ rewrite <- app_assoc; reflexivity
      | intros mp [Hc|[Hc|[]]]; discriminate Hc ] ].

Lemma dispatch_EditPrefs (h : Handler) (bk : LocalBackend) (r : Request) (st : World) :
  HasPrefix (Path r) "/localapi/v0/cert/" = false ->
  Path r <> "/localapi/v0/profile" ->
  exists l, calls (route h bk r st) = calls st ++ l /\
    forall mp, In (Call_EditPrefs mp) l ->
      Path r = "/localapi/v0/prefs" /\ Method r = "PATCH" /\
      PermitRead h = true /\ PermitWrite h = true /\
      Decode_MaskedPrefs (body r) = inr mp.
Proof.
  intros Hcert Hprof. apply String.eqb_neq in Hprof.
  unfold dispatch. rewrite Hcert, Hprof.
  unfold serveFiles, serveFilePut, serveWhoIs, serveGoroutines,
    serveStatus, serveLogout, serveLoginInteractive, servePrefs, serveCheckPrefs,
    serveCheckIPForwarding, serveBugReport, serveFileTargets, serveSetDNS,
    serveDERPMap, serveMetrics, serveDebug, serveSetExpirySooner, serveDial,
    serveIDToken, serveUploadClientMetrics, servePing, randHex, EditPrefs.
  cbv beta iota zeta.
  destruct (PermitRead h) eqn:Hr, (PermitWrite h) eqn:Hw; cbn [negb];
    cbv beta iota zeta; split_inner; edit_done.
Qed.

(** The backend is asked to edit the preferences only by a [PATCH] of
    [/localapi/v0/prefs] whose body decodes to the patch, from a connection
    that has both permissions and has given the password if one is required;
    the certificate and profile handlers apart. *)
Theorem EditPrefs_only_by_patch (h : Handler) (r : Request) (st : World) :
  HasPrefix (Path r) "/localapi/v0/cert/" = false ->
  Path r <> "/localapi/v0/profile" ->
  exists l, calls (serve h r st) = calls st ++ l /\
    forall mp, In (Call_EditPrefs mp) l ->
      Path r = "/localapi/v0/prefs" /\ Method r = "PATCH" /\
      PermitRead h = true /\ PermitWrite h = true /\
      Decode_MaskedPrefs (body r) = inr mp /\
      (RequiredPassword h = "" \/
       exists user, BasicAuth r = Some (user, RequiredPassword h)).
Proof.
  intros Hcert Hprof. unfold ServeHTTP.
  destruct (b h) as [bk|];
    [|exists []; split; [symmetry; apply app_nil_r | intros mp []]].
  destruct (dispatch_EditPrefs h bk r
              (Header_Set "Tailscale-Version" version_Long st) Hcert Hprof)
    as (l & Hl & Hall).
  rewrite calls_Header_Set in Hl.
  destruct (String.eqb (RequiredPassword h) "") eqn:Epw; cbn [negb].
  - apply String.eqb_eq in Epw. exists l. split; [assumption|].
    intros mp Hin. destruct (Hall mp Hin) as (? & ? & ? & ? & ?). auto 10.
  - destruct (BasicAuth r) as [[user pass]|];
      [|exists []; split; [symmetry; apply app_nil_r | intros mp []]].
    destruct (String.eqb pass (RequiredPassword h)) eqn:Epass; cbn [negb];
      [|exists []; split; [symmetry; apply app_nil_r | intros mp []]].
    apply String.eqb_eq in Epass. subst pass. exists l. split; [assumption|].
    intros mp Hin. destruct (Hall mp Hin) as (? & ? & ? & ? & ?).
    repeat split; try assumption. right. exists user. reflexivity.
Qed.

End LocalAPIMore.

Lemma readonly_backend_calls_request :
  let h := exHandler true false (Some exBackend) in
  PermitWrite h = false /\
  HasPrefix (Path exStatusReq) "/localapi/v0/cert/" = false /\
  exists l, calls (exServeHTTP h exStatusReq exWorld) = calls exWorld ++ l /\
            forallb (readonly_call h) l = true.
Proof.
  cbv zeta.
  assert (Hw : PermitWrite (exHandler true false (Some exBackend)) = false)
    by reflexivity.
  assert (Hc : HasPrefix (Path exStatusReq) "/localapi/v0/cert/" = false)
    by reflexivity.
  split; [exact Hw|]. split; [exact Hc|].
  exact (readonly_backend_calls "1.33.0" exParseAddr (fun _ => None) (fun _ => None)
           Some (fun _ => true) (fun s => s) "goroutine 1 [running]" (fun _ => "")
           None (fun _ _ _ st => st)
           (exHandler true false (Some exBackend)) exStatusReq exWorld Hw Hc).
Defined.

Lemma reply_carries_version_request :
  let h := exHandler false false (Some exBackend) in
  b h = Some exBackend /\
  HasPrefix (Path exStatusReq) "/localapi/v0/file-put/" = false /\
  HasPrefix (Path exStatusReq) "/localapi/v0/cert/" = false /\
  Path exStatusReq <> "/localapi/v0/profile" /\
  reply_header "Tailscale-Version" (exServeHTTP h exStatusReq exWorld) = Some "1.33.0".
Proof.
  cbv zeta.
  assert (Hb : b (exHandler false false (Some exBackend)) = Some exBackend)
    by reflexivity.
  assert (Hc : HasPrefix (Path exStatusReq) "/localapi/v0/cert/" = false)
    by reflexivity.
  assert (Hp : Path exStatusReq <> "/localapi/v0/profile") by discriminate.
  assert (Hf : HasPrefix (Path exStatusReq) "/localapi/v0/file-put/" = false)
    by reflexivity.
  split; [exact Hb|]. split; [exact Hf|]. split; [exact Hc|]. split; [exact Hp|].
  exact (reply_carries_version "1.33.0" exParseAddr (fun _ => None) (fun _ => None)
           Some (fun _ => true) (fun s => s) "goroutine 1 [running]" (fun _ => "")
           None (fun _ _ _ st => st)
           (exHandler false false (Some exBackend)) exBackend exStatusReq exWorld
           Hb Hf Hc Hp).
Defined.

Lemma outside_api_paths_request :
  let h := exHandler true true (Some exBackend) in
  let r := exRequest "GET" "/metrics" ∅ ∅ (Malformed "") in
  b h = Some exBackend /\ RequiredPassword h = "" /\
  HasPrefix (Path r) "/localapi/v0/" = false /\
  effects (exServeHTTP h r exWorld) = effects exWorld /\
  rw_body (rw (exServeHTTP h r exWorld)) =
    rw_body (rw exWorld) ++
      [Text (if String.eqb (Path r) "/" then "tailscaled" +:+ LF
             else "404 not found" +:+ LF)] /\
  (rw_status (rw exWorld) = None ->
   Status (exServeHTTP h r exWorld) = if String.eqb (Path r) "/" then 200 else 404).
Proof.
  cbv zeta.
  pose (h := exHandler true true (Some exBackend)).
  pose (r := exRequest "GET" "/metrics" ∅ ∅ (Malformed "")).
  assert (Hb : b h = Some exBackend) by reflexivity.
  assert (Hpw : RequiredPassword h = "") by reflexivity.
  assert (Ho : HasPrefix (Path r) "/localapi/v0/" = false) by reflexivity.
  split; [exact Hb|]. split; [exact Hpw|]. split; [exact Ho|].
  exact (outside_api_paths "1.33.0" exParseAddr (fun _ => None) (fun _ => None)
           Some (fun _ => true) (fun s => s) "goroutine 1 [running]" (fun _ => "")
           None (fun _ _ _ st => st) h exBackend r exWorld Hb Hpw Ho).
Defined.

Lemma wrong_method_rejected_request :
  let h := exHandler true true (Some exBackend) in
  let r := exRequest "GET" "/localapi/v0/logout" ∅ ∅ (Malformed "") in
  b h = Some exBackend /\
  In ("/localapi/v0/logout", "POST", 400) method_checks /\
  Path r = "/localapi/v0/logout" /\ Method r <> "POST" /\
  effects (exServeHTTP h r exWorld) = effects exWorld /\
  (rw_status (rw exWorld) = None -> RequiredPassword h = "" ->
   PermitRead h = true -> PermitWrite h = true ->
   Status (exServeHTTP h r exWorld) = 400).
Proof.
  cbv zeta.
  pose (h := exHandler true true (Some exBackend)).
  pose (r := exRequest "GET" "/localapi/v0/logout" ∅ ∅ (Malformed "")).
  assert (Hb : b h = Some exBackend) by reflexivity.
  assert (Hin : In ("/localapi/v0/logout", "POST", 400) method_checks)
    by (right; right; left; reflexivity).
  assert (Hp : Path r = "/localapi/v0/logout") by reflexivity.
  assert (Hm : Method r <> "POST") by discriminate.
  split; [exact Hb|]. split; [exact Hin|]. split; [exact Hp|]. split; [exact Hm|].
  exact (wrong_method_rejected "1.33.0" exParseAddr (fun _ => None) (fun _ => None)
           Some (fun _ => true) (fun s => s) "goroutine 1 [running]" (fun _ => "")
           None (fun _ _ _ st => st) h exBackend r exWorld
           "/localapi/v0/logout" "POST" 400 Hb Hin Hp Hm).
Defined.

Lemma status_peers_flag_request :
  let h := exHandler true false (Some exBackend) in
  let r := exRequest "GET" "/localapi/v0/status" ∅ {["peers" := "false"]}
             (Malformed "") in
  b h = Some exBackend /\ RequiredPassword h = "" /\ PermitRead h = true /\
  Path r = "/localapi/v0/status" /\
  calls (exServeHTTP h r exWorld) =
    calls exWorld ++
      [if existsb (String.eqb (FormValue r "peers"))
            ["0"; "f"; "F"; "FALSE"; "false"; "False"]
       then Call_StatusWithoutPeers else Call_Status].
Proof.
  cbv zeta.
  pose (h := exHandler true false (Some exBackend)).
  pose (r := exRequest "GET" "/localapi/v0/status" ∅ {["peers" := "false"]}
               (Malformed "")).
  assert (Hb : b h = Some exBackend) by reflexivity.
  assert (Hpw : RequiredPassword h = "") by reflexivity.
  assert (Hr : PermitRead h = true) by reflexivity.
  assert (Hp : Path r = "/localapi/v0/status") by reflexivity.
  split; [exact Hb|]. split; [exact Hpw|]. split; [exact Hr|]. split; [exact Hp|].
  exact (status_peers_flag "1.33.0" exParseAddr (fun _ => None) (fun _ => None)
           Some (fun _ => true) (fun s => s) "goroutine 1 [running]" (fun _ => "")
           None (fun _ _ _ st => st) h exBackend r exWorld Hb Hpw Hr Hp).
Defined.

Lemma EditPrefs_only_by_patch_request :
  let h := exHandler true true (Some exBackend) in
  let r := exPatch {["ExitNodeIP" := "100.64.0.9"]} in
  HasPrefix (Path r) "/localapi/v0/cert/" = false /\
  Path r <> "/localapi/v0/profile" /\
  exists l, calls (exServeHTTP h r exWorld) = calls exWorld ++ l /\
    forall mp, In (Call_EditPrefs mp) l ->
      Path r = "/localapi/v0/prefs" /\ Method r = "PATCH" /\
      PermitRead h = true /\ PermitWrite h = true /\
      Decode_MaskedPrefs (body r) = inr mp /\
      (RequiredPassword h = "" \/
       exists user, BasicAuth r = Some (user, RequiredPassword h)).
Proof.
  cbv zeta.
  pose (h := exHandler true true (Some exBackend)).
  pose (r := exPatch {["ExitNodeIP" := "100.64.0.9"]}).
  assert (Hc : HasPrefix (Path r) "/localapi/v0/cert/" = false) by reflexivity.
  assert (Hp : Path r <> "/localapi/v0/profile") by discriminate.
  split; [exact Hc|]. split; [exact Hp|].
  exact (EditPrefs_only_by_patch "1.33.0" exParseAddr (fun _ => None) (fun _ => None)
           Some (fun _ => true) (fun s => s) "goroutine 1 [running]" (fun _ => "")
           None (fun _ _ _ st => st) h r exWorld Hc Hp).
Defined.
